(** * incus-osd: network configuration, installation to a local disk and
      start-up.

    The development embeds as Rocq functions the network part of
    [internal/systemd] (generated systemd-networkd artifacts, the apply
    sequence, the convergence wait), the REST handler [apiNetwork10],
    [internal/install] (whether to install, source and target device, the
    copy of the disk, the reboot) and [run] of [cmd/incus-osd]. It proves the
    behaviour the specification states about the network part and the
    handler, and further properties read off the code of all four.

    Conventions.
    - A Go [string] is a [String.string]; a byte is an [ascii].
    - A Go [int] is a [Z]; [time.Time] and [time.Duration] are [Z]
      nanoseconds.
    - A Go loop [for _, x := range xs { ret += ... }] is a [fold_left] over
      the slice with the mutated locals as accumulator; a loop without a
      bound takes a number of turns and gives [None] when they run out.
    - Calls that leave the process (file system, commands, the clock, the
      network) are answered by an environment, a class of which the
      functions that make such calls take an instance; the calls made are
      collected in order.
    - A pointer that may be [nil] is an [option]; its dereference at [None]
      is the outcome [Panicked]. A [defer] runs its call when the function
      ends, however it ends.
    - [strings.ToLower] lowers the bytes [A]..[Z] of a string of ASCII
      bytes; for any other string it is the lowering of the Unicode tables
      of the Go library, a parameter [Unicode] of everything that names a
      device after its hardware address.

    Part I holds the embedding, Part II the definitions the statements are
    written with, Part III the lemmas and theorems. *)

From Stdlib Require Import String Ascii List ZArith Lia Bool Arith.
From Stdlib Require Import DecimalString.
Import ListNotations.

Open Scope list_scope.
Open Scope string_scope.

(* ================================================================== *)
(** * Part I: the embedding of the sources *)

(** ** Go string primitives *)

Module GoString.

(** The line feed, written [\n] in the Go sources. *)
Definition LF : string := String "010"%char EmptyString.

Definition isLF (c : ascii) : bool := Ascii.eqb c "010"%char.

(** [strings.Contains(s, substr)]. *)
Fixpoint Contains (s substr : string) : bool :=
  orb (String.prefix substr s)
      match s with
      | EmptyString => false
      | String _ t => Contains t substr
      end.

(** [strings.HasPrefix(s, p)]. *)
Definition HasPrefix (s p : string) : bool := String.prefix p s.

(** [strings.ReplaceAll(s, ":", "")]: the only use the sources make of
    [ReplaceAll] deletes every colon. *)
Fixpoint removeColons (s : string) : string :=
  match s with
  | EmptyString => EmptyString
  | String c t =>
      if Ascii.eqb c ":"%char then removeColons t else String c (removeColons t)
  end.

(** The fast path of [strings.ToLower], which it takes when every byte of
    the string is below [utf8.RuneSelf]: the bytes [A]..[Z] are lowered and
    the others kept. *)
Definition lowerByte (c : ascii) : ascii :=
  let n := nat_of_ascii c in
  if andb (Nat.leb 65 n) (Nat.leb n 90) then ascii_of_nat (n + 32) else c.

Fixpoint lowerASCII (s : string) : string :=
  match s with
  | EmptyString => EmptyString
  | String c t => String (lowerByte c) (lowerASCII t)
  end.

Fixpoint isASCII (s : string) : bool :=
  match s with
  | EmptyString => true
  | String c t => andb (Nat.ltb (nat_of_ascii c) 128) (isASCII t)
  end.

(** [strings.Join(elems, sep)]. *)
Definition Join (elems : list string) (sep : string) : string :=
  String.concat sep elems.

(** [strconv.FormatBool]. *)
Definition FormatBool (b : bool) : string := if b then "true" else "false".

(** [fmt.Sprintf("%d", n)]. *)
Definition FormatInt (n : Z) : string := NilZero.string_of_int (Z.to_int n).

(** The text split at every line feed, as [strings.Split(s, "\n")]. *)
Fixpoint lines (s : string) : list string :=
  match s with
  | EmptyString => [EmptyString]
  | String c t =>
      if isLF c then EmptyString :: lines t
      else match lines t with
           | [] => [String c EmptyString]
           | l :: ls => String c l :: ls
           end
  end.

(** No byte of [s] is a line feed. *)
Fixpoint noLF (s : string) : bool :=
  match s with
  | EmptyString => true
  | String c t => andb (negb (isLF c)) (noLF t)
  end.

(** [ls] written one per line, each closed by a line feed. *)
Fixpoint unlines (ls : list string) : string :=
  match ls with
  | [] => EmptyString
  | l :: rest => l ++ LF ++ unlines rest
  end.

(** The slow path of [strings.ToLower], [strings.Map(unicode.ToLower, s)]:
    it reads the string as UTF-8, puts U+FFFD for every byte that is not
    part of a valid encoding, and lowers each rune by the case tables of the
    package [unicode]. The Go library is not among the sources and its
    tables are not written out here: the function is taken as it comes,
    with the one fact about it that the lines of the generated files rest
    on, that it lowers no rune to a line feed. *)
Class Unicode : Type := {
  mapToLower : string -> string;
  mapToLower_noLF : forall s, noLF s = true -> noLF (mapToLower s) = true
}.

(** [strings.ToLower]. *)
Definition ToLower {unicode : Unicode} (s : string) : string :=
  if isASCII s then lowerASCII s else mapToLower s.

End GoString.
Import GoString.

(* ================================================================== *)
(** ** The configuration model *)

(** Modelled from the spec: the package [api] that declares
    [SystemNetworkConfig] and its parts is not among the sources; the
    records below follow section 3 of the specification and the field
    accesses of the code. *)
Module Route.
Record t : Type := mk { To : string; Via : string }.
End Route.

Module Interface.
Record t : Type := mk {
  Name : string;
  Hwaddr : string;
  MTU : Z;
  Addresses : list string;
  Routes : list Route.t;
  VLAN : Z;
  LLDP : bool
}.
End Interface.

Module Bond.
Record t : Type := mk {
  Name : string;
  Hwaddr : string;
  MTU : Z;
  Addresses : list string;
  Routes : list Route.t;
  VLAN : Z;
  LLDP : bool;
  Members : list string;
  Mode : string
}.
End Bond.

Module VLAN.
Record t : Type := mk {
  Name : string;
  Parent : string;
  ID : Z;
  MTU : Z;
  Addresses : list string;
  Routes : list Route.t
}.
End VLAN.

Module DNS.
Record t : Type := mk {
  Hostname : string;
  Domain : string;
  SearchDomains : list string;
  Nameservers : list string
}.
End DNS.

Module NTP.
Record t : Type := mk { Timeservers : list string }.
End NTP.

(** The proxy block is opaque to this subsystem. *)
Module Proxy.
Record t : Type := mk { Settings : list (string * string) }.
End Proxy.

Record SystemNetworkConfig : Type := mkConfig {
  Interfaces : list Interface.t;
  Bonds : list Bond.t;
  VLANs : list VLAN.t;
  DNS : option DNS.t;
  NTP : option NTP.t;
  Proxy : option Proxy.t
}.

(** [networkdConfigFile]: a file name and its contents. *)
Record networkdConfigFile : Type := mkFile {
  Name : string;
  Contents : string
}.

(* ================================================================== *)
(** ** Artifact generation *)

Section Artifacts.

Context {unicode : Unicode}.

Definition strippedHwaddr (hwaddr : string) : string :=
  ToLower (removeColons hwaddr).

(** The two [.link] templates differ in the file-name prefix only. *)
Definition linkFile (prefix hwaddr : string) : networkdConfigFile :=
  let stripped := strippedHwaddr hwaddr in
  {| Name := prefix ++ "-en" ++ stripped ++ ".link";
     Contents :=
       "[Match]" ++ LF ++
       "PermanentMACAddress=" ++ hwaddr ++ LF ++
       LF ++
       "[Link]" ++ LF ++
       "NamePolicy=" ++ LF ++
       "Name=en" ++ stripped ++ LF |}.

Definition generateLinkFileContents (networkCfg : SystemNetworkConfig)
  : list networkdConfigFile :=
  let ret := [] in
  let ret :=
    fold_left (fun ret i => (ret ++ [linkFile "00" (Interface.Hwaddr i)])%list)
              (Interfaces networkCfg) ret in
  let ret :=
    fold_left (fun ret b =>
                 fold_left (fun ret member => (ret ++ [linkFile "01" member])%list)
                           (Bond.Members b) ret)
              (Bonds networkCfg) ret in
  ret.

Definition mtuString (mtu : Z) : string :=
  if negb (mtu =? 0)%Z then "MTUBytes=" ++ FormatInt mtu else "".

Definition bridgeNetdevContents (name hwaddr : string) (mtu : Z) : string :=
  "[NetDev]" ++ LF ++
  "Name=" ++ name ++ LF ++
  "Kind=bridge" ++ LF ++
  "MACAddress=" ++ hwaddr ++ LF ++
  mtuString mtu ++ LF ++
  LF ++
  "[Bridge]" ++ LF ++
  "VLANFiltering=true" ++ LF.

Definition interfaceNetdev (i : Interface.t) : networkdConfigFile :=
  {| Name := "10-br" ++ strippedHwaddr (Interface.Hwaddr i) ++ ".netdev";
     Contents :=
       bridgeNetdevContents (Interface.Name i) (Interface.Hwaddr i)
                            (Interface.MTU i) |}.

Definition bondNetdev (b : Bond.t) : networkdConfigFile :=
  let stripped := strippedHwaddr (Bond.Hwaddr b) in
  {| Name := "11-bn" ++ stripped ++ ".netdev";
     Contents :=
       "[NetDev]" ++ LF ++
       "Name=bn" ++ stripped ++ LF ++
       "Kind=bond" ++ LF ++
       "MACAddress=" ++ Bond.Hwaddr b ++ LF ++
       mtuString (Bond.MTU b) ++ LF ++
       LF ++
       "[Bond]" ++ LF ++
       "Mode=" ++ Bond.Mode b ++ LF |}.

Definition bondBridgeNetdev (b : Bond.t) : networkdConfigFile :=
  {| Name := "11-br" ++ strippedHwaddr (Bond.Hwaddr b) ++ ".netdev";
     Contents :=
       bridgeNetdevContents (Bond.Name b) (Bond.Hwaddr b) (Bond.MTU b) |}.

Definition vlanNetdev (v : VLAN.t) : networkdConfigFile :=
  {| Name := "12-vl" ++ VLAN.Name v ++ ".netdev";
     Contents :=
       "[NetDev]" ++ LF ++
       "Name=vl" ++ VLAN.Name v ++ LF ++
       "Kind=vlan" ++ LF ++
       mtuString (VLAN.MTU v) ++ LF ++
       LF ++
       "[VLAN]" ++ LF ++
       "Id=" ++ FormatInt (VLAN.ID v) ++ LF |}.

Definition generateNetdevFileContents (networkCfg : SystemNetworkConfig)
  : list networkdConfigFile :=
  let ret := [] in
  let ret :=
    fold_left (fun ret i => (ret ++ [interfaceNetdev i])%list)
              (Interfaces networkCfg) ret in
  let ret :=
    fold_left (fun ret b => ((ret ++ [bondNetdev b]) ++ [bondBridgeNetdev b])%list)
              (Bonds networkCfg) ret in
  let ret :=
    fold_left (fun ret v => (ret ++ [vlanNetdev v])%list) (VLANs networkCfg) ret in
  ret.

(** [generateNetworkSectionContents]: search domains, name servers and time
    servers of the [[Network]] section. *)
Definition generateNetworkSectionContents
  (dns : option DNS.t) (ntp : option NTP.t) : string :=
  let ret := "" in
  let ret :=
    match dns with
    | Some d =>
        let ret :=
          if (0 <? length (DNS.SearchDomains d))%nat
          then ret ++ "Domains=" ++ Join (DNS.SearchDomains d) " " ++ LF
          else ret in
        fold_left (fun ret ns => ret ++ "DNS=" ++ ns ++ LF)
                  (DNS.Nameservers d) ret
    | None => ret
    end in
  let ret :=
    match ntp with
    | Some n =>
        fold_left (fun ret ts => ret ++ "NTP=" ++ ts ++ LF)
                  (NTP.Timeservers n) ret
    | None => ret
    end in
  ret.

(** The locals of the loop of [processAddresses]. *)
Record addrState : Type := mkAddrState {
  as_ret : string;
  hasDHCP4 : bool;
  hasDHCP6 : bool;
  acceptIPv6RA : bool
}.

(** One turn of [for _, addr := range addresses { switch addr ... }]. *)
Definition addrStep (st : addrState) (addr : string) : addrState :=
  if String.eqb addr "dhcp4" then
    mkAddrState (as_ret st) true (hasDHCP6 st) (acceptIPv6RA st)
  else if String.eqb addr "dhcp6" then
    mkAddrState (as_ret st) (hasDHCP4 st) true (acceptIPv6RA st)
  else if String.eqb addr "slaac" then
    mkAddrState (as_ret st) (hasDHCP4 st) (hasDHCP6 st) true
  else
    mkAddrState (as_ret st ++ "Address=" ++ addr ++ LF)
                (hasDHCP4 st) (hasDHCP6 st) (acceptIPv6RA st).

Definition processAddresses (addresses : list string) : string :=
  let ret := "" in
  let ret :=
    if negb (length addresses =? 0)%nat
    then ret ++ "LinkLocalAddressing=ipv6" ++ LF
    else (ret ++ "LinkLocalAddressing=no" ++ LF)
           ++ "ConfigureWithoutCarrier=yes" ++ LF in
  let st := fold_left addrStep addresses (mkAddrState ret false false false) in
  let ret := as_ret st in
  let ret :=
    if acceptIPv6RA st
    then ret ++ "IPv6AcceptRA=true" ++ LF
    else ret ++ "IPv6AcceptRA=false" ++ LF in
  let ret :=
    if andb (hasDHCP4 st) (hasDHCP6 st) then ret ++ "DHCP=yes" ++ LF
    else if hasDHCP4 st then ret ++ "DHCP=ipv4" ++ LF
    else if hasDHCP6 st then ret ++ "DHCP=ipv6" ++ LF
    else ret in
  ret.

(** One turn of the loop of [processRoutes]. *)
Definition routeStep (ret : string) (route : Route.t) : string :=
  let ret :=
    if String.eqb (Route.Via route) "dhcp4" then ret ++ "Gateway=_dhcp4" ++ LF
    else if String.eqb (Route.Via route) "slaac"
         then ret ++ "Gateway=_ipv6ra" ++ LF
         else ret ++ "Gateway=" ++ Route.Via route ++ LF in
  ret ++ "Destination=" ++ Route.To route ++ LF.

Definition processRoutes (routes : list Route.t) : string :=
  let ret := LF ++ "[Route]" ++ LF in
  fold_left routeStep routes ret.

(** The [[Match]], [[DHCP]] and [[Network]] opening shared by the addressing
    templates of [generateNetworkFileContents]. *)
Definition dhcpBlock : string :=
  "[DHCP]" ++ LF ++
  "ClientIdentifier=mac" ++ LF ++
  "RouteMetric=100" ++ LF ++
  "UseMTU=true" ++ LF.

Definition bridgeVLANBlock (vlan : Z) : string :=
  LF ++
  "[BridgeVLAN]" ++ LF ++
  "VLAN=1-4094" ++ LF ++
  "PVID=" ++ FormatInt vlan ++ LF.

(** The addressing artifact of an interface or of a bond (the two templates
    of the source are the same text). *)
Definition bridgeNetworkContents
  (dns : option DNS.t) (ntp : option NTP.t)
  (name : string) (addresses : list string) (routes : list Route.t)
  (vlan : Z) : string :=
  let cfgString :=
    "[Match]" ++ LF ++
    "Name=" ++ name ++ LF ++
    LF ++
    dhcpBlock ++
    LF ++
    "[Network]" ++ LF ++
    generateNetworkSectionContents dns ntp in
  let cfgString := cfgString ++ processAddresses addresses in
  let cfgString :=
    if (0 <? length routes)%nat then cfgString ++ processRoutes routes
    else cfgString in
  let cfgString :=
    if negb (vlan =? 0)%Z then cfgString ++ bridgeVLANBlock vlan
    else cfgString in
  cfgString.

Definition interfaceNetwork
  (dns : option DNS.t) (ntp : option NTP.t) (i : Interface.t)
  : networkdConfigFile :=
  {| Name := "20-" ++ Interface.Name i ++ ".network";
     Contents :=
       bridgeNetworkContents dns ntp (Interface.Name i)
         (Interface.Addresses i) (Interface.Routes i) (Interface.VLAN i) |}.

Definition interfaceBridgeNetwork (i : Interface.t) : networkdConfigFile :=
  let stripped := strippedHwaddr (Interface.Hwaddr i) in
  {| Name := "20-br" ++ stripped ++ ".network";
     Contents :=
       "[Match]" ++ LF ++
       "Name=en" ++ stripped ++ LF ++
       LF ++
       "[Network]" ++ LF ++
       "Bridge=" ++ Interface.Name i ++ LF ++
       "LLDP=" ++ FormatBool (Interface.LLDP i) ++ LF ++
       "EmitLLDP=" ++ FormatBool (Interface.LLDP i) ++ LF |}.

Definition bondNetwork
  (dns : option DNS.t) (ntp : option NTP.t) (b : Bond.t)
  : networkdConfigFile :=
  {| Name := "21-" ++ Bond.Name b ++ ".network";
     Contents :=
       bridgeNetworkContents dns ntp (Bond.Name b)
         (Bond.Addresses b) (Bond.Routes b) (Bond.VLAN b) |}.

Definition bondBridgeNetwork (b : Bond.t) : networkdConfigFile :=
  let stripped := strippedHwaddr (Bond.Hwaddr b) in
  {| Name := "21-br" ++ stripped ++ ".network";
     Contents :=
       "[Match]" ++ LF ++
       "Name=bn" ++ stripped ++ LF ++
       LF ++
       "[Network]" ++ LF ++
       "Bridge=" ++ Bond.Name b ++ LF |}.

Definition bondMemberNetwork (b : Bond.t) (index : nat) (member : string)
  : networkdConfigFile :=
  let stripped := strippedHwaddr (Bond.Hwaddr b) in
  {| Name :=
       "21-bn" ++ stripped ++ "-dev" ++ FormatInt (Z.of_nat index)
               ++ ".network";
     Contents :=
       "[Match]" ++ LF ++
       "Name=en" ++ strippedHwaddr member ++ LF ++
       LF ++
       "[Network]" ++ LF ++
       "Bond=bn" ++ stripped ++ LF ++
       "LLDP=" ++ FormatBool (Bond.LLDP b) ++ LF ++
       "EmitLLDP=" ++ FormatBool (Bond.LLDP b) ++ LF |}.

Definition vlanNetwork
  (dns : option DNS.t) (ntp : option NTP.t) (v : VLAN.t)
  : networkdConfigFile :=
  let cfgString :=
    "[Match]" ++ LF ++
    "Name=" ++ VLAN.Parent v ++ LF ++
    LF ++
    dhcpBlock ++
    LF ++
    "[Network]" ++ LF ++
    "VLAN=vl" ++ VLAN.Name v ++ LF ++
    generateNetworkSectionContents dns ntp in
  let cfgString := cfgString ++ processAddresses (VLAN.Addresses v) in
  let cfgString :=
    if (0 <? length (VLAN.Routes v))%nat
    then cfgString ++ processRoutes (VLAN.Routes v)
    else cfgString in
  {| Name := "22-vl" ++ VLAN.Name v ++ ".network";
     Contents := cfgString |}.

(** [for index, member := range b.Members]: the loop carries the index. *)
Definition bondMembersStep (b : Bond.t)
  (acc : list networkdConfigFile * nat) (member : string)
  : list networkdConfigFile * nat :=
  ((fst acc ++ [bondMemberNetwork b (snd acc) member])%list, S (snd acc)).

Definition generateNetworkFileContents (networkCfg : SystemNetworkConfig)
  : list networkdConfigFile :=
  let dns := DNS networkCfg in
  let ntp := NTP networkCfg in
  let ret := [] in
  let ret :=
    fold_left
      (fun ret i =>
         ((ret ++ [interfaceNetwork dns ntp i])
            ++ [interfaceBridgeNetwork i])%list)
      (Interfaces networkCfg) ret in
  let ret :=
    fold_left
      (fun ret b =>
         let ret := (ret ++ [bondNetwork dns ntp b])%list in
         let ret := (ret ++ [bondBridgeNetwork b])%list in
         fst (fold_left (bondMembersStep b) (Bond.Members b) (ret, 0%nat)))
      (Bonds networkCfg) ret in
  let ret :=
    fold_left (fun ret v => (ret ++ [vlanNetwork dns ntp v])%list)
              (VLANs networkCfg) ret in
  ret.

(** [generateTimesyncContents]. *)
Definition generateTimesyncContents (ntp : NTP.t) : string :=
  if (length (NTP.Timeservers ntp) =? 0)%nat then ""
  else "[Time]" ++ LF ++ "FallbackNTP="
         ++ Join (NTP.Timeservers ntp) " " ++ LF.

End Artifacts.

(* ================================================================== *)
(** ** The convergence wait *)

Definition Millisecond : Z := 1000000.

Definition Second : Z := 1000 * Millisecond.

(** A Go [error]: [None] is [nil]. *)
Definition error : Type := option string.

(** What the wait does outside the process, in order. *)
Inductive WaitEvent : Type :=
| ReadClock (t : Z)
| Slept (d : Z)
| Queried (name : string).

Record WaitState : Type := mkWaitState {
  cycle : nat;
  events : list WaitEvent
}.

(** The environment of one call of [waitForNetworkRoutable]: the value of
    [time.Now()] when the deadline is computed; its value at the top of the
    loop in poll cycle [k]; whether the caller's context is done during
    cycle [k]; and what [networkctl status name] prints in cycle [k]
    ([None] when the command fails). *)
Class WaitEnv : Type := {
  startTime : Z;
  nowAt : nat -> Z;
  ctxDone : nat -> bool;
  networkctlStatus : nat -> string -> option string
}.

Section ConvergenceWaiter.

Context {env : WaitEnv}.

(** [subprocess.RunCommandContext(ctx, "networkctl", "status", name)]: a
    command run under a context that is done fails. *)
Definition runNetworkctlStatus (k : nat) (name : string) : option string :=
  if ctxDone k then None else networkctlStatus k name.

(** The closure [isRoutable] of [waitForNetworkRoutable]. *)
Definition isRoutable (k : nat) (name : string) : bool :=
  match runNetworkctlStatus k name with
  | None => false
  | Some output => Contains output "State: routable"
  end.

(** One of the three loops over a device category: every device is
    queried, and the two flags are folded over the answers. *)
Definition pollDevices {A : Type} (name : A -> string) (devices : list A)
  (k : nat) (evs : list WaitEvent) : bool * bool * list WaitEvent :=
  fold_left
    (fun '(allRoutable, atLeastOneRoutable, evs) d =>
       let routable := isRoutable k (name d) in
       (andb allRoutable routable, orb atLeastOneRoutable routable,
        (evs ++ [Queried (name d)])%list))
    devices (true, false, evs).

(** The two [continue] tests that follow a category loop. *)
Definition mustContinue (requireAllRoutable allRoutable atLeastOneRoutable : bool)
  : bool :=
  orb (andb requireAllRoutable (negb allRoutable))
      (andb (negb requireAllRoutable) (negb atLeastOneRoutable)).

(** One category: skipped when empty, otherwise polled and tested. The
    first component says whether the loop must [continue]. *)
Definition pollCategory {A : Type} (name : A -> string) (devices : list A)
  (requireAllRoutable : bool) (k : nat) (evs : list WaitEvent)
  : bool * list WaitEvent :=
  if (0 <? length devices)%nat then
    let '(allRoutable, atLeastOneRoutable, evs) :=
      pollDevices name devices k evs in
    (mustContinue requireAllRoutable allRoutable atLeastOneRoutable, evs)
  else (false, evs).

(** The body of the loop after the sleep: [true] when the function returns
    [nil], [false] when it takes one of the [continue]s. *)
Definition pollCycle (networkCfg : SystemNetworkConfig)
  (requireAllRoutable : bool) (k : nat) (evs : list WaitEvent)
  : bool * list WaitEvent :=
  let '(again, evs) :=
    pollCategory Interface.Name (Interfaces networkCfg)
                 requireAllRoutable k evs in
  if again then (false, evs) else
  let '(again, evs) :=
    pollCategory Bond.Name (Bonds networkCfg) requireAllRoutable k evs in
  if again then (false, evs) else
  let '(again, evs) :=
    pollCategory VLAN.Name (VLANs networkCfg) requireAllRoutable k evs in
  if again then (false, evs) else (true, evs).

Definition timedOut : string :=
  "timed out waiting for network to become routable".

(** The [for] loop; [fuel] bounds the number of turns, [None] means the
    bound was reached. *)
Fixpoint waitLoop (fuel : nat) (endTime : Z)
  (networkCfg : SystemNetworkConfig) (requireAllRoutable : bool)
  (st : WaitState) : option (error * WaitState) :=
  match fuel with
  | O => None
  | S fuel' =>
      let k := cycle st in
      let evs := (events st ++ [ReadClock (nowAt k)])%list in
      if (nowAt k >? endTime)%Z then
        Some (Some timedOut, mkWaitState k evs)
      else
        let evs := (evs ++ [Slept (500 * Millisecond)])%list in
        let '(done, evs) := pollCycle networkCfg requireAllRoutable k evs in
        if done then Some (None, mkWaitState k evs)
        else waitLoop fuel' endTime networkCfg requireAllRoutable
                      (mkWaitState (S k) evs)
  end.

Definition waitForNetworkRoutable (fuel : nat)
  (networkCfg : SystemNetworkConfig) (timeout : Z)
  (requireAllRoutable : bool) : option (error * WaitState) :=
  let endTime := (startTime + timeout)%Z in
  waitLoop fuel endTime networkCfg requireAllRoutable
           (mkWaitState 0 [ReadClock startTime]).

End ConvergenceWaiter.

(* ================================================================== *)
(** ** The apply sequence *)

(** The calls [ApplyNetworkConfiguration] makes outside the process. *)
Inductive Effect : Type :=
| SetHostname (hostname : string)
| UpdateEnvironment (proxy : option Proxy.t)
| RemoveAll (path : string)
| Mkdir (path : string)
| WriteFile (path : string) (contents : string)
| Remove (path : string)
| Sleep (d : Z)
| RunCommand (name : string) (args : list string)
| RestartUnit (unit : string)
| WaitForNetworkRoutable (timeout : Z) (requireAllRoutable : bool).

(** A computation that makes calls: from the calls made so far to a result
    and the calls made then. *)
Definition Run (A : Type) : Type := list Effect -> A * list Effect.

Definition skip : Run error := fun done => (None, done).

(** [err := m; if err != nil { return err }; k]. *)
Definition orReturn (m k : Run error) : Run error :=
  fun done =>
    match m done with
    | (Some err, done') => (Some err, done')
    | (None, done') => k done'
    end.

Notation "m ;;; k" := (orReturn m k) (at level 61, right associativity).

(** A call whose result is not looked at ([time.Sleep], [_ = os.Remove]). *)
Definition callIgnoring (e : Effect) : Run error :=
  fun done => (None, (done ++ [e])%list).

(** Modelled from the spec: the constants [SystemdNetworkConfigPath] and
    [SystemdTimesyncConfigFile] and the predicate [seed.NetworkSeedExists]
    are declared outside the sources, [filepath.Join] is a library call;
    they are given by the environment, as is [outcome]: the error, if any,
    with which a call is answered, given the calls made before it. *)
Class ApplyEnv : Type := {
  SystemdNetworkConfigPath : string;
  SystemdTimesyncConfigFile : string;
  filepathJoin : string -> string -> string;
  NetworkSeedExists : bool;
  outcome : list Effect -> Effect -> error
}.

Section Applier.

Context {unicode : Unicode} {env : ApplyEnv}.

(** [err := f(...)]: make the call, get its error. *)
Definition call (e : Effect) : Run error :=
  fun done => (outcome done e, (done ++ [e])%list).

(** [for _, cfg := range files { err := os.WriteFile(...); if err != nil
    { return err } }]. *)
Fixpoint writeFiles (files : list networkdConfigFile) : Run error :=
  match files with
  | [] => skip
  | cfg :: rest =>
      call (WriteFile (filepathJoin SystemdNetworkConfigPath (Name cfg))
                      (Contents cfg))
      ;;; writeFiles rest
  end.

Definition generateNetworkConfiguration (networkCfg : SystemNetworkConfig)
  : Run error :=
  call (RemoveAll SystemdNetworkConfigPath) ;;;
  call (Mkdir SystemdNetworkConfigPath) ;;;
  writeFiles (generateLinkFileContents networkCfg) ;;;
  writeFiles (generateNetdevFileContents networkCfg) ;;;
  writeFiles (generateNetworkFileContents networkCfg) ;;;
  let ntpCfg :=
    match NTP networkCfg with
    | Some ntp => generateTimesyncContents ntp
    | None => ""
    end in
  (match NTP networkCfg with
   | Some _ =>
       if negb (String.eqb ntpCfg "")
       then call (WriteFile SystemdTimesyncConfigFile ntpCfg)
       else skip
   | None => skip
   end) ;;;
  (if orb (match NTP networkCfg with None => true | Some _ => false end)
          (String.eqb ntpCfg "")
   then callIgnoring (Remove SystemdTimesyncConfigFile)
   else skip).

(** The host name handed to [SetHostname]. *)
Definition targetHostname (networkCfg : SystemNetworkConfig) : string :=
  let hostname := "" in
  match DNS networkCfg with
  | Some dns =>
      if negb (String.eqb (DNS.Hostname dns) "") then
        let hostname := DNS.Hostname dns in
        if negb (String.eqb (DNS.Domain dns) "")
        then hostname ++ "." ++ DNS.Domain dns
        else hostname
      else hostname
  | None => hostname
  end.

(** [ApplyNetworkConfiguration]; a [nil] pointer is [None]. *)
Definition ApplyNetworkConfiguration
  (networkCfg : option SystemNetworkConfig) (timeout : Z) : Run error :=
  match networkCfg with
  | None => fun done => (Some "no network configuration provided", done)
  | Some networkCfg =>
      call (SetHostname (targetHostname networkCfg)) ;;;
      call (UpdateEnvironment (Proxy networkCfg)) ;;;
      generateNetworkConfiguration networkCfg ;;;
      callIgnoring (Sleep (2 * Second)) ;;;
      call (RunCommand "udevadm" ["trigger"; "--action=add"]) ;;;
      call (RunCommand "udevadm" ["settle"]) ;;;
      call (RestartUnit "systemd-networkd") ;;;
      call (RestartUnit "systemd-timesyncd") ;;;
      call (WaitForNetworkRoutable timeout NetworkSeedExists)
  end.

End Applier.

(* ================================================================== *)
(** ** The REST handler of the network configuration *)

Inductive Method : Type :=
| MethodGet
| MethodPatch
| MethodPut
| MethodOther (name : string).

Inductive Response : Type :=
| SyncResponse (success : bool) (config : option SystemNetworkConfig)
| EmptySyncResponse
| BadRequest (err : string)
| NotImplemented.

(** [s.state]: the active configuration, a pointer that may be [nil]. *)
Record ServerState : Type := mkServerState {
  NetworkConfig : option SystemNetworkConfig
}.

(** What the handler does to the state and to the network, in order. *)
Inductive ServerEvent : Type :=
| StoredNetworkConfig (config : SystemNetworkConfig)
| CalledApply (config : option SystemNetworkConfig) (timeout : Z).

Record Handled : Type := mkHandled {
  response : Response;
  state : ServerState;
  serverEvents : list ServerEvent
}.

(** Modelled from the spec: [seed.NetworkConfigHasEmptyDevices] is not among
    the sources; by the specification and the comment at its call it holds
    of a configuration that defines no interface, no bond and no VLAN. *)
Definition NetworkConfigHasEmptyDevices (config : SystemNetworkConfig) : bool :=
  andb (length (Interfaces config) =? 0)%nat
       (andb (length (Bonds config) =? 0)%nat
             (length (VLANs config) =? 0)%nat).

(** The JSON codec and the applier are outside the handler: [jsonMarshal]
    and [jsonUnmarshal] copy the active configuration, [jsonDecode] lays
    the request body over a configuration, [Apply] is the result of
    [systemd.ApplyNetworkConfiguration]. *)
Class HandlerEnv : Type := {
  jsonMarshal : option SystemNetworkConfig -> string + string;
  jsonUnmarshal : string -> SystemNetworkConfig -> string + SystemNetworkConfig;
  jsonDecode : string -> SystemNetworkConfig -> string + SystemNetworkConfig;
  Apply : option SystemNetworkConfig -> Z -> error
}.

(** [new(seed.NetworkConfig)]. *)
Definition emptyConfig : SystemNetworkConfig :=
  {| Interfaces := []; Bonds := []; VLANs := [];
     DNS := None; NTP := None; Proxy := None |}.

Section RestHandler.

Context {env : HandlerEnv}.

(** The configuration the handler decodes from a request: for PATCH the
    body laid over a copy of the active configuration, for PUT over an
    empty one; [inl] is the error of the first step that fails. *)
Definition decodeRequest (s : ServerState) (method : Method) (body : string)
  : string + SystemNetworkConfig :=
  let newConfig := emptyConfig in
  let copied :=
    match method with
    | MethodPatch =>
        match jsonMarshal (NetworkConfig s) with
        | inl err => inl err
        | inr cpy => jsonUnmarshal cpy newConfig
        end
    | _ => inr newConfig
    end in
  match copied with
  | inl err => inl err
  | inr newConfig => jsonDecode body newConfig
  end.

(** [apiNetwork10]. *)
Definition apiNetwork10 (s : ServerState) (method : Method) (body : string)
  : Handled :=
  match method with
  | MethodGet => mkHandled (SyncResponse true (NetworkConfig s)) s []
  | MethodPatch | MethodPut =>
      match decodeRequest s method body with
      | inl err => mkHandled (BadRequest err) s []
      | inr newConfig =>
          if NetworkConfigHasEmptyDevices newConfig then
            mkHandled
              (BadRequest "network configuration has no devices defined") s []
          else
            let s' := mkServerState (Some newConfig) in
            let evs := [StoredNetworkConfig newConfig] in
            let err := Apply (NetworkConfig s') (10 * Second) in
            let evs :=
              (evs ++ [CalledApply (NetworkConfig s') (10 * Second)])%list in
            match err with
            | Some err => mkHandled (BadRequest err) s' evs
            | None => mkHandled EmptySyncResponse s' evs
            end
      end
  | MethodOther _ => mkHandled NotImplemented s []
  end.

End RestHandler.

(* ================================================================== *)
(** ** Installation to a local disk *)

(** [seed.InstallConfig] is declared outside the sources; the records have
    the fields [internal/install] reads. *)
Module InstallTarget.
Record t : Type := mk { ID : string }.
End InstallTarget.

Module InstallConfig.
Record t : Type := mk {
  Target : option InstallTarget.t;
  ForceInstall : bool;
  ForceReboot : bool
}.
End InstallConfig.

(** [Install]: its configuration is a pointer, [nil] is [None]. *)
Record Install : Type := mkInstall {
  config : option InstallConfig.t
}.

(** A Go error that is not [nil]: its message, and which of the sentinel
    errors [errors.Is] finds in it. *)
Inductive Sentinel : Type :=
| IsEOF
| IsNotExist
| NoSentinel.

Record Failure : Type := mkFailure {
  sentinel : Sentinel;
  message : string
}.

(** [errors.New(msg)]. *)
Definition errorsNew (msg : string) : Failure := mkFailure NoSentinel msg.

(** [errors.Is(err, io.EOF)] and [errors.Is(err, os.ErrNotExist)]. *)
Definition errorsIsEOF (err : option Failure) : bool :=
  match err with
  | Some (mkFailure IsEOF _) => true
  | _ => false
  end.

Definition errorsIsNotExist (err : option Failure) : bool :=
  match err with
  | Some (mkFailure IsNotExist _) => true
  | _ => false
  end.

(** How a function that returns a value and an error ends: with a value,
    with an error, or in the panic of a [nil] pointer dereference. *)
Inductive Outcome (A : Type) : Type :=
| Returned (value : A)
| Failed (err : Failure)
| Panicked.

Arguments Returned {A} value.
Arguments Failed {A} err.
Arguments Panicked {A}.

(** [getPartitionPrefix]. *)
Definition getPartitionPrefix (device : string) : string :=
  if Contains device "/nvme" then "p" else "".

(** *** [IsInstallNeeded] and [NewInstall] *)

(** [seed.SeedPartitionPath] and [seed.GetInstallConfig] are outside the
    sources. *)
Class SeedEnv : Type := {
  SeedPartitionPath : string;
  GetInstallConfig : string -> option InstallConfig.t * option Failure
}.

Section InstallNeeded.

Context {env : SeedEnv}.

Definition IsInstallNeeded : bool :=
  let '(_, err) := GetInstallConfig SeedPartitionPath in
  if errorsIsEOF err then true
  else match err with None => true | Some _ => false end.

(** [NewInstall]: the pair of the new object, if any, and the error. *)
Definition NewInstall : option Install * option Failure :=
  let '(config, err) := GetInstallConfig SeedPartitionPath in
  let ret := mkInstall config in
  if andb (match err with None => false | Some _ => true end)
          (negb (errorsIsEOF err))
  then (None, err)
  else (Some ret, None).

End InstallNeeded.

(** *** [getTargetDevice] *)

(** The local type [blockdevices]. *)
Module Blockdevice.
Record t : Type := mk { KName : string; ID : string }.
End Blockdevice.

(** [subprocess.RunCommandContext] on [lsblk] and [json.Unmarshal] of its
    output into [lsblkOutput]: the output or list of block devices, or the
    error. *)
Class LsblkEnv : Type := {
  RunLsblk : list string -> Failure + string;
  UnmarshalLsblk : string -> Failure + list Blockdevice.t
}.

(** The last loop of [getTargetDevice]: the first disk that is not the
    source and matches the target of the configuration. *)
Fixpoint firstTarget (target : option InstallTarget.t)
  (sourceDevice : string) (potentialTargets : list Blockdevice.t)
  : Outcome string :=
  match potentialTargets with
  | [] => Failed (errorsNew "unable to determine target device")
  | device :: rest =>
      if String.eqb (Blockdevice.KName device) sourceDevice
      then firstTarget target sourceDevice rest
      else if match target with
              | None => true
              | Some t => Contains (Blockdevice.ID device) (InstallTarget.ID t)
              end
           then Returned (Blockdevice.KName device)
           else firstTarget target sourceDevice rest
  end.

Section TargetDevice.

Context {env : LsblkEnv}.

(** One of the three queries: the [lsblk] call with its flag, then the
    decoding of its output. *)
Definition lsblkDevices (flag : string) : Failure + list Blockdevice.t :=
  match RunLsblk [flag; "-iJnp"; "-o"; "KNAME,ID_LINK"] with
  | inl err => inl err
  | inr output => UnmarshalLsblk output
  end.

(** [getTargetDevice]: the outcome and the flags of the [lsblk] calls made,
    in order. *)
Definition getTargetDevice (i : Install) (sourceDevice : string)
  : Outcome string * list string :=
  let potentialTargets := [] in
  match lsblkDevices "-N" with
  | inl err => (Failed err, ["-N"])
  | inr nvmeTargets =>
  let potentialTargets := (potentialTargets ++ nvmeTargets)%list in
  match lsblkDevices "-S" with
  | inl err => (Failed err, ["-N"; "-S"])
  | inr scsiTargets =>
  let potentialTargets := (potentialTargets ++ scsiTargets)%list in
  match lsblkDevices "-v" with
  | inl err => (Failed err, ["-N"; "-S"; "-v"])
  | inr virtualTargets =>
  let potentialTargets := (potentialTargets ++ virtualTargets)%list in
  let calls := ["-N"; "-S"; "-v"] in
  if (length potentialTargets <? 2)%nat then
    (Failed (errorsNew "no potential install devices found"), calls)
  else
    match config i with
    | None => (Panicked, calls)
    | Some c =>
        if andb (match InstallConfig.Target c with
                 | None => true | Some _ => false end)
                (negb (length potentialTargets =? 2)%nat)
        then (Failed (errorsNew
                "no target configuration provided, and didn't find exactly one install device"),
              calls)
        else (firstTarget (InstallConfig.Target c) sourceDevice
                          potentialTargets, calls)
    end
  end end end.

End TargetDevice.

(** *** [rebootUponDeviceRemoval] *)

(** What [rebootUponDeviceRemoval] does outside the process. *)
Inductive RebootCall : Type :=
| Stat (path : string)
| SleepSecond
| Sync
| WriteSysrq (path : string) (data : string).

(** The answer of [os.Stat] on the partition in turn [k] of the loop, and
    the answer of the final [os.WriteFile]. *)
Class RebootEnv : Type := {
  statAt : nat -> string -> option Failure;
  writeSysrq : option Failure
}.

Section Reboot.

Context {env : RebootEnv}.

(** The loop that waits for the partition to disappear, from turn [k];
    [None] when [fuel] turns were not enough. The result says whether the
    loop was left by [break] ([None]) or by [return err]. *)
Fixpoint waitForRemoval (fuel : nat) (partition : string) (k : nat)
  (calls : list RebootCall) : option (option Failure * list RebootCall) :=
  match fuel with
  | O => None
  | S fuel' =>
      let err := statAt k partition in
      let calls := (calls ++ [Stat partition])%list in
      match err with
      | Some failure =>
          if errorsIsNotExist err then Some (None, calls)
          else Some (Some failure, calls)
      | None =>
          waitForRemoval fuel' partition (S k) (calls ++ [SleepSecond])%list
      end
  end.

(** The end of the function: a final sync, then the reboot. *)
Definition syncAndReboot (calls : list RebootCall)
  : Outcome unit * list RebootCall :=
  let calls := (calls ++ [Sync; WriteSysrq "/proc/sysrq-trigger" "b"])%list in
  match writeSysrq with
  | Some err => (Failed err, calls)
  | None => (Returned tt, calls)
  end.

Definition rebootUponDeviceRemoval (fuel : nat) (i : Install)
  (device : string) : option (Outcome unit * list RebootCall) :=
  let partition := device ++ getPartitionPrefix device ++ "1" in
  match config i with
  | None => Some (Panicked, [])
  | Some c =>
      if InstallConfig.ForceReboot c then Some (syncAndReboot [])
      else
        match waitForRemoval fuel partition 0 [] with
        | None => None
        | Some (Some err, calls) => Some (Failed err, calls)
        | Some (None, calls) => Some (syncAndReboot calls)
        end
  end.

End Reboot.

(** *** [getSourceDevice] *)

(** [filepath.Split] and [filepath.Base] of the Go library, on a system whose
    path separator is the slash and that has no volume names. *)
Module Filepath.

Definition isSeparator (c : ascii) : bool := Ascii.eqb c "/"%char.

(** [Split]: the path up to and including its last separator, and what
    follows it. *)
Fixpoint Split (path : string) : string * string :=
  match path with
  | EmptyString => ("", "")
  | String c rest =>
      let '(dir, file) := Split rest in
      match dir with
      | EmptyString =>
          if isSeparator c then (String c "", file) else ("", String c file)
      | _ => (String c dir, file)
      end
  end.

(** The first loop of [Base]: the path without its trailing separators. *)
Fixpoint stripTrailing (path : string) : string :=
  match path with
  | EmptyString => ""
  | String c rest =>
      match stripTrailing rest with
      | EmptyString => if isSeparator c then "" else String c ""
      | stripped => String c stripped
      end
  end.

(** [Base]: the last element of the path. *)
Definition Base (path : string) : string :=
  match path with
  | EmptyString => "."
  | _ =>
      match snd (Split (stripTrailing path)) with
      | EmptyString => "/"
      | last => last
      end
  end.

End Filepath.

(** The system as [getSourceDevice] reads it: [unix.Stat] gives the device
    number of a path or fails, [unix.Major] and [unix.Minor] split a device
    number, [os.ReadDir] gives the names of the entries of a directory,
    [os.ReadFile] the content of a file, [os.Readlink] the target of a link;
    [filepath.Join] is taken as it comes. *)
Class SourceEnv : Type := {
  unixStat : string -> Failure + Z;
  unixMajor : Z -> Z;
  unixMinor : Z -> Z;
  ReadDir : string -> Failure + list string;
  ReadFile : string -> Failure + string;
  Readlink : string -> Failure + string;
  JoinPath : string -> string -> string
}.

Section SourceDevice.

Context {env : SourceEnv}.

(** The loop over the block devices. *)
Fixpoint findSourceDevice (rootDev : string) (entries : list string)
  : Outcome string :=
  match entries with
  | [] => Failed (errorsNew "unable to determine source device")
  | entry :: rest =>
      let entryPath := JoinPath "/sys/class/block" entry in
      match ReadFile (JoinPath entryPath "dev") with
      | inl _ => findSourceDevice rootDev rest
      | inr dev =>
          if String.eqb dev rootDev then
            match Readlink entryPath with
            | inl err => Failed err
            | inr path =>
                let '(parentDir, _) := Filepath.Split path in
                let underlyingDev := Filepath.Base parentDir in
                Returned ("/dev/" ++ underlyingDev)
            end
          else findSourceDevice rootDev rest
      end
  end.

Definition getSourceDevice : Outcome string :=
  match unixStat "/boot/EFI" with
  | inl err => Failed err
  | inr dev =>
      let major := unixMajor dev in
      let minor := unixMinor dev in
      let rootDev := FormatInt major ++ ":" ++ FormatInt minor ++ LF in
      match ReadDir "/sys/class/block" with
      | inl err => Failed err
      | inr entries => findSourceDevice rootDev entries
      end
  end.

End SourceDevice.

(** *** [performInstall] *)

(** What [performInstall] does outside the process; an open file is named by
    its path. *)
Inductive InstallCall : Type :=
| GetTUI
| Command (name : string) (args : list string)
| Unmount (target : string) (flags : Z)
| OpenFile (path : string) (flag : Z) (perm : Z)
| Seek (path : string) (offset : Z) (whence : Z)
| CopyN (dst src : string) (n : Z)
| DisplayModal (title msg : string) (current max : Z)
| Close (path : string).

(** [os.O_RDONLY], [os.O_WRONLY], [io.SeekEnd] and the permission [0o0600]. *)
Definition O_RDONLY : Z := 0.
Definition O_WRONLY : Z := 1.
Definition SeekEnd : Z := 2.
Definition ownerReadWrite : Z := 384.

(** What a call returns: the output of a command, the offset of a seek, and
    the error. *)
Record Answer : Type := mkAnswer {
  answerOutput : string;
  answerOffset : Z;
  answerError : option Failure
}.

(** The system answers a call knowing the calls made before it. *)
Class InstallEnv : Type := {
  answer : list InstallCall -> InstallCall -> Answer
}.

(** A computation of [performInstall]: from the calls made so far to how it
    ends and the calls made then; [None] when it was not given turns enough
    to end. *)
Definition Inst (A : Type) : Type :=
  list InstallCall -> option (Outcome A * list InstallCall).

Definition returnWith {A : Type} (a : A) : Inst A :=
  fun calls => Some (Returned a, calls).

Definition failWith {A : Type} (err : Failure) : Inst A :=
  fun calls => Some (Failed err, calls).

Definition panicNil {A : Type} : Inst A :=
  fun calls => Some (Panicked, calls).

Definition andThen {A B : Type} (m : Inst A) (k : A -> Inst B) : Inst B :=
  fun calls =>
    match m calls with
    | None => None
    | Some (Returned a, calls') => k a calls'
    | Some (Failed err, calls') => Some (Failed err, calls')
    | Some (Panicked, calls') => Some (Panicked, calls')
    end.

Notation "x <- m ;; k" := (andThen m (fun x => k))
  (at level 61, m at next level, right associativity).

(** [defer c] before the rest [m] of a function: [c] is called when [m]
    ends, however it ends; what [c] returns is dropped. *)
Definition defer {A : Type} (c : InstallCall) (m : Inst A) : Inst A :=
  fun calls =>
    match m calls with
    | None => None
    | Some (r, calls') => Some (r, (calls' ++ [c])%list)
    end.

(** A [for] loop over a list whose body may return an error. *)
Fixpoint forEach {A : Type} (l : list A) (body : A -> Inst unit) : Inst unit :=
  match l with
  | [] => returnWith tt
  | x :: rest => _ <- body x ;; forEach rest body
  end.

Section PerformInstall.

Context {env : InstallEnv}.

Definition ask (c : InstallCall) : Inst Answer :=
  fun calls => Some (Returned (answer calls c), (calls ++ [c])%list).

(** [if err != nil { return err }]. *)
Definition check (a : Answer) : Inst unit :=
  match answerError a with
  | Some err => failWith err
  | None => returnWith tt
  end.

(** The loop of [doCopy] that copies a partition in chunks of 1 MiB, from
    its turn number [count]. *)
Fixpoint copyChunks (fuel : nat) (targetPartition sourcePartition : string)
  (i partitionSize count : Z) : Inst unit :=
  match fuel with
  | O => fun _ => None
  | S fuel' =>
      a <- ask (CopyN targetPartition sourcePartition (1024 * 1024)) ;;
      match answerError a with
      | Some err =>
          if errorsIsEOF (Some err) then returnWith tt else failWith err
      | None =>
          _ <- (if (count mod 10 =? 0)%Z
                then _ <- ask (DisplayModal "Incus OS Install"
                                 ("Copying partition " ++ FormatInt i ++ " of 8.")
                                 (count * 1024 * 1024) partitionSize) ;;
                     returnWith tt
                else returnWith tt) ;;
          copyChunks fuel' targetPartition sourcePartition i partitionSize
                     (count + 1)
      end
  end.

(** The closure [doCopy] of [performInstall], with the variables it
    captures. *)
Definition doCopy (fuel : nat)
  (sourceDevice sourcePartitionPrefix targetDevice targetPartitionPrefix : string)
  (i : Z) : Inst unit :=
  let sourcePartition := sourceDevice ++ sourcePartitionPrefix ++ FormatInt i in
  a <- ask (OpenFile sourcePartition O_RDONLY ownerReadWrite) ;;
  _ <- check a ;;
  defer (Close sourcePartition)
    (a <- ask (Seek sourcePartition 0 SeekEnd) ;;
     _ <- check a ;;
     let partitionSize := answerOffset a in
     a <- ask (Seek sourcePartition 0 0) ;;
     _ <- check a ;;
     let targetPartition :=
       targetDevice ++ targetPartitionPrefix ++ FormatInt i in
     a <- ask (OpenFile targetPartition O_WRONLY ownerReadWrite) ;;
     _ <- check a ;;
     defer (Close targetPartition)
       (copyChunks fuel targetPartition sourcePartition i partitionSize 0)).

Definition performInstall (fuel : nat) (i : Install)
  (sourceDevice targetDevice : string) : Inst unit :=
  a <- ask GetTUI ;;
  _ <- check a ;;
  a <- ask (Command "sgdisk" ["-v"; targetDevice]) ;;
  _ <- check a ;;
  let output := answerOutput a in
  _ <- (if negb (Contains output "Creating new GPT entries in memory")
        then match config i with
             | None => panicNil
             | Some c =>
                 if negb (InstallConfig.ForceInstall c)
                 then failWith (errorsNew
                        ("a partition table already exists on device '"
                         ++ targetDevice
                         ++ "', and `ForceInstall` from install configuration isn't true"))
                 else returnWith tt
             end
        else returnWith tt) ;;
  a <- ask (Command "swapoff" ["-a"]) ;;
  _ <- check a ;;
  a <- ask (Unmount "/boot/" 0) ;;
  _ <- check a ;;
  _ <- forEach [9; 10; 11]%Z (fun n =>
         a <- ask (Command "sgdisk" ["-d"; FormatInt n; sourceDevice]) ;;
         check a) ;;
  a <- ask (Command "sgdisk" ["-R"; targetDevice; sourceDevice]) ;;
  _ <- check a ;;
  let sourcePartitionPrefix := getPartitionPrefix sourceDevice in
  let targetPartitionPrefix := getPartitionPrefix targetDevice in
  _ <- forEach [1; 2; 3; 4; 5; 6; 7; 8]%Z
         (doCopy fuel sourceDevice sourcePartitionPrefix
                 targetDevice targetPartitionPrefix) ;;
  let targetSeedPartition := targetDevice ++ targetPartitionPrefix ++ "2" in
  forEach ["install.json"; "install.yaml"] (fun filename =>
    a <- ask (Command "tar" ["-f"; targetSeedPartition; "--delete"; filename]) ;;
    match answerError a with
    | Some err =>
        if negb (Contains (message err)
                   ("tar: " ++ filename ++ ": Not found in archive"))
        then failWith err
        else returnWith tt
    | None => returnWith tt
    end).

End PerformInstall.

(* ================================================================== *)
(** ** The start-up of the daemon *)

Definition ghOrganization : string := "lxc".
Definition ghRepository : string := "incus-os".
Definition incusExtensions : list string := ["debug.raw.gz"; "incus.raw.gz"].

(** [strings.SplitN(s, sep, 2)] for a separator of one byte, and
    [strings.TrimSuffix]. *)
Fixpoint cutAt (sep : ascii) (s : string) : option (string * string) :=
  match s with
  | EmptyString => None
  | String c rest =>
      if Ascii.eqb c sep then Some ("", rest)
      else match cutAt sep rest with
           | Some (before, after) => Some (String c before, after)
           | None => None
           end
  end.

Definition SplitN2 (s : string) (sep : ascii) : list string :=
  match cutAt sep s with
  | Some (before, after) => [before; after]
  | None => [s]
  end.

Fixpoint TrimSuffix (s suffix : string) : string :=
  if String.eqb s suffix then ""
  else match s with
       | EmptyString => ""
       | String c rest => String c (TrimSuffix rest suffix)
       end.

(** [slices.Contains] on strings. *)
Definition slicesContains (l : list string) (s : string) : bool :=
  existsb (String.eqb s) l.

(** The entries of the keyring and the release of the project with its
    assets are declared outside the sources; the records have the fields
    [run] reads. *)
Module Key.
Record t : Type := mk { Fingerprint : string; Description : string }.
End Key.

Module Release.
Record t : Type := mk { TagName : string; Name : string; ID : Z }.
End Release.

Module Asset.
Record t : Type := mk { Name : string; ID : Z; BrowserDownloadURL : string }.
End Asset.

(** What [run] opens: the body of a download, the gzip reader over it, both
    named by the asset, and the file created. *)
Inductive Handle : Type :=
| AssetBody (id : Z)
| GzipReader (id : Z)
| CreatedFile (path : string).

(** What [run] does outside the process. *)
Inductive MainCall : Type :=
| GetCurrentRelease
| Info (msg : string) (attrs : list (string * string))
| GetKeys (keyring : string)
| GetLatestRelease (owner repo : string)
| ListReleaseAssets (owner repo : string) (id : Z)
| MkdirAll (path : string) (perm : Z)
| DownloadReleaseAsset (owner repo : string) (id : Z)
| NewGzipReader (id : Z)
| Create (path : string)
| Copy (dst : string) (src : Z)
| ApplySystemUpdate (version : string) (reboot : bool)
| RefreshExtensions
| RefreshUsers
| EnableUnit (now : bool) (units : list string)
| CloseHandle (h : Handle).

(** The constants of [keyring] and [systemd], [filepath.Join], the values
    the four queries return when they succeed, and the error of each call
    given the calls made before it. *)
Class MainEnv : Type := {
  PlatformKeyring : string;
  SystemUpdatesPath : string;
  SystemExtensionsPath : string;
  pathJoin : string -> string -> string;
  currentRelease : string;
  trustedKeys : list Key.t;
  latestRelease : Release.t;
  releaseAssets : list Asset.t;
  callError : list MainCall -> MainCall -> option Failure
}.

(** A computation of [run]: from the calls made and the deferred closes,
    the last deferred first, to how it ends and the same then. *)
Definition MainState : Type := (list MainCall * list Handle)%type.

Definition Main (A : Type) : Type := MainState -> Outcome A * MainState.

Definition finish {A : Type} (a : A) : Main A := fun st => (Returned a, st).

Definition next {A B : Type} (m : Main A) (k : A -> Main B) : Main B :=
  fun st =>
    match m st with
    | (Returned a, st') => k a st'
    | (Failed err, st') => (Failed err, st')
    | (Panicked, st') => (Panicked, st')
    end.

Notation "x <-- m ;; k" := (next m (fun x => k))
  (at level 61, m at next level, right associativity).

(** [slog.Info]. *)
Definition logInfo (msg : string) (attrs : list (string * string))
  : Main unit :=
  fun st => (Returned tt, ((fst st ++ [Info msg attrs])%list, snd st)).

(** [defer h.Close()]. *)
Definition deferClose (h : Handle) : Main unit :=
  fun st => (Returned tt, (fst st, h :: snd st)).

(** A [for] loop over a list whose body may return an error. *)
Fixpoint forEachM {A : Type} (l : list A) (body : A -> Main unit)
  : Main unit :=
  match l with
  | [] => finish tt
  | x :: rest => _ <-- body x ;; forEachM rest body
  end.

Section Run.

Context {env : MainEnv}.

(** A call followed by [if err != nil { return err }]. *)
Definition perform (c : MainCall) : Main unit :=
  fun st =>
    match callError (fst st) c with
    | Some err => (Failed err, ((fst st ++ [c])%list, snd st))
    | None => (Returned tt, ((fst st ++ [c])%list, snd st))
    end.

(** The loop over the keys that determines the runtime mode. *)
Fixpoint keyringLoop (keys : list Key.t) (mode : string) : Main string :=
  match keys with
  | [] => finish mode
  | key :: rest =>
      let mode :=
        if String.eqb (Key.Fingerprint key)
                      "7d4dc2ac7ad1ef27365ff599612e07e2312adf79"
        then "release" else mode in
      let mode :=
        if andb (String.eqb mode "unsafe")
                (HasPrefix (Key.Description key) "mkosi of ")
        then "dev" else mode in
      _ <-- logInfo "Platform keyring entry"
              [("name", Key.Description key); ("key", Key.Fingerprint key)] ;;
      keyringLoop rest mode
  end.

(** The body of [run], up to the deferred closes. *)
Definition runBody : Main unit :=
  _ <-- perform GetCurrentRelease ;;
  let release := currentRelease in
  _ <-- logInfo "Getting trusted system keys" [] ;;
  _ <-- perform (GetKeys PlatformKeyring) ;;
  let keys := trustedKeys in
  mode <-- keyringLoop keys "unsafe" ;;
  _ <-- logInfo "Starting up"
          [("mode", mode); ("app", "incus"); ("release", release)] ;;
  _ <-- perform (GetLatestRelease ghOrganization ghRepository) ;;
  let ghRelease := latestRelease in
  _ <-- logInfo ("Found latest " ++ ghOrganization ++ "/" ++ ghRepository
                 ++ " release")
          [("tag", Release.TagName ghRelease)] ;;
  _ <-- perform (ListReleaseAssets ghOrganization ghRepository
                   (Release.ID ghRelease)) ;;
  let assets := releaseAssets in
  _ <-- perform (MkdirAll SystemUpdatesPath 448) ;;
  if negb (String.eqb release (Release.Name ghRelease)) then
    _ <-- forEachM assets (fun asset =>
      if negb (HasPrefix (Asset.Name asset) "IncusOS_") then finish tt
      else
        let fields := SplitN2 (Asset.Name asset) "."%char in
        if negb (length fields =? 2)%nat then finish tt
        else if String.eqb (nth 1 fields "") "raw.gz" then finish tt
        else
          _ <-- logInfo "Downloading OS update"
                  [("file", Asset.Name asset);
                   ("url", Asset.BrowserDownloadURL asset)] ;;
          _ <-- perform (DownloadReleaseAsset ghOrganization ghRepository
                           (Asset.ID asset)) ;;
          _ <-- deferClose (AssetBody (Asset.ID asset)) ;;
          _ <-- perform (NewGzipReader (Asset.ID asset)) ;;
          _ <-- deferClose (GzipReader (Asset.ID asset)) ;;
          let path := pathJoin SystemUpdatesPath
                        (TrimSuffix (Asset.Name asset) ".gz") in
          _ <-- perform (Create path) ;;
          _ <-- deferClose (CreatedFile path) ;;
          perform (Copy path (Asset.ID asset))) ;;
    _ <-- perform (ApplySystemUpdate (Release.Name ghRelease) true) ;;
    finish tt
  else
    _ <-- perform (MkdirAll SystemExtensionsPath 448) ;;
    _ <-- forEachM assets (fun asset =>
      if negb (slicesContains incusExtensions (Asset.Name asset))
      then finish tt
      else
        _ <-- logInfo "Downloading system extension"
                [("file", Asset.Name asset);
                 ("url", Asset.BrowserDownloadURL asset)] ;;
        _ <-- perform (DownloadReleaseAsset ghOrganization ghRepository
                         (Asset.ID asset)) ;;
        _ <-- deferClose (AssetBody (Asset.ID asset)) ;;
        _ <-- perform (NewGzipReader (Asset.ID asset)) ;;
        _ <-- deferClose (GzipReader (Asset.ID asset)) ;;
        let path := pathJoin SystemExtensionsPath
                      (TrimSuffix (Asset.Name asset) ".gz") in
        _ <-- perform (Create path) ;;
        _ <-- deferClose (CreatedFile path) ;;
        perform (Copy path (Asset.ID asset))) ;;
    _ <-- logInfo "Refreshing system extensions" [] ;;
    _ <-- perform RefreshExtensions ;;
    _ <-- logInfo "Refreshing users" [] ;;
    _ <-- perform RefreshUsers ;;
    _ <-- logInfo "Starting Incus" [] ;;
    _ <-- perform (EnableUnit true
                     ["incus.socket"; "incus-lxcfs.service";
                      "incus-startup.service"; "incus.service"]) ;;
    finish tt.

(** [run]: the body, then the deferred closes, the last deferred first. *)
Definition run : Outcome unit * list MainCall :=
  let '(r, (calls, deferred)) := runBody ([], []) in
  (r, (calls ++ map CloseHandle deferred)%list).

End Run.

(* ================================================================== *)
(** * Part II: the vocabulary of the statements *)

(** ** Lines of the generated artifacts *)

Section ArtifactLines.

Context {unicode : Unicode}.

(** The three reserved address tokens. *)
Definition reserved (addr : string) : bool :=
  orb (String.eqb addr "dhcp4")
      (orb (String.eqb addr "dhcp6") (String.eqb addr "slaac")).

Definition hasToken (tok : string) (addresses : list string) : bool :=
  existsb (fun a => String.eqb a tok) addresses.

(** The lines [processAddresses] writes, in order. *)
Definition addressLines (addresses : list string) : list string :=
  ((match addresses with
    | [] => ["LinkLocalAddressing=no"; "ConfigureWithoutCarrier=yes"]
    | _ :: _ => ["LinkLocalAddressing=ipv6"]
    end)
   ++ map (fun a => ("Address=" ++ a)%string)
          (filter (fun a => negb (reserved a)) addresses)
   ++ [if hasToken "slaac" addresses
       then "IPv6AcceptRA=true" else "IPv6AcceptRA=false"]
   ++ (if andb (hasToken "dhcp4" addresses) (hasToken "dhcp6" addresses)
       then ["DHCP=yes"]
       else if hasToken "dhcp4" addresses then ["DHCP=ipv4"]
       else if hasToken "dhcp6" addresses then ["DHCP=ipv6"]
       else []))%list.

(** The [Gateway=] line of a route: the two gateway tokens are renamed,
    any other value is written as it is. *)
Definition gatewayLine (route : Route.t) : string :=
  if String.eqb (Route.Via route) "dhcp4" then "Gateway=_dhcp4"
  else if String.eqb (Route.Via route) "slaac" then "Gateway=_ipv6ra"
  else "Gateway=" ++ Route.Via route.

Definition destinationLine (route : Route.t) : string :=
  "Destination=" ++ Route.To route.

Definition routeLines (route : Route.t) : list string :=
  [gatewayLine route; destinationLine route].

(** A route whose two fields hold no line feed. *)
Definition routeOneLine (route : Route.t) : bool :=
  andb (noLF (Route.Via route)) (noLF (Route.To route)).

(** The member artifacts of a bond, numbered from [index]. *)
Fixpoint bondMemberFiles (b : Bond.t) (index : nat) (members : list string)
  : list networkdConfigFile :=
  match members with
  | [] => []
  | m :: ms => bondMemberNetwork b index m :: bondMemberFiles b (S index) ms
  end.

(** The artifacts a bond contributes to the [.network] files. *)
Definition bondNetworkFiles (dns : option DNS.t) (ntp : option NTP.t)
  (b : Bond.t) : list networkdConfigFile :=
  bondNetwork dns ntp b :: bondBridgeNetwork b
    :: bondMemberFiles b 0 (Bond.Members b).

(** The [[DHCP]] block of the specification on lines of its own, with its
    three settings, followed by a blank line and the header of the
    [[Network]] block. *)
Definition dhcpThenNetwork : string :=
  LF ++ unlines [ "[DHCP]"; "ClientIdentifier=mac"; "RouteMetric=100";
                  "UseMTU=true"; ""; "[Network]" ].

(** The device names and hardware addresses of interfaces and bonds hold
    no line feed. *)
Definition interfaceOneLine (i : Interface.t) : bool :=
  andb (noLF (Interface.Name i)) (noLF (Interface.Hwaddr i)).

Definition bondOneLine (b : Bond.t) : bool :=
  andb (noLF (Bond.Name b))
       (andb (noLF (Bond.Hwaddr b)) (forallb noLF (Bond.Members b))).

Definition interfaceBridgeNetworkLines (i : Interface.t) : list string :=
  [ "[Match]";
    "Name=en" ++ strippedHwaddr (Interface.Hwaddr i);
    "";
    "[Network]";
    "Bridge=" ++ Interface.Name i;
    "LLDP=" ++ FormatBool (Interface.LLDP i);
    "EmitLLDP=" ++ FormatBool (Interface.LLDP i) ].

Definition bondBridgeNetworkLines (b : Bond.t) : list string :=
  [ "[Match]";
    "Name=bn" ++ strippedHwaddr (Bond.Hwaddr b);
    "";
    "[Network]";
    "Bridge=" ++ Bond.Name b ].

Definition bondMemberNetworkLines (b : Bond.t) (member : string)
  : list string :=
  [ "[Match]";
    "Name=en" ++ strippedHwaddr member;
    "";
    "[Network]";
    "Bond=bn" ++ strippedHwaddr (Bond.Hwaddr b);
    "LLDP=" ++ FormatBool (Bond.LLDP b);
    "EmitLLDP=" ++ FormatBool (Bond.LLDP b) ].

(** The addressing artifacts of a configuration: one per interface, per
    bond and per VLAN. *)
Definition addressingArtifact (cfg : SystemNetworkConfig)
  (f : networkdConfigFile) : Prop :=
  (exists i, In i (Interfaces cfg) /\ f = interfaceNetwork (DNS cfg) (NTP cfg) i)
  \/ (exists b, In b (Bonds cfg) /\ f = bondNetwork (DNS cfg) (NTP cfg) b)
  \/ (exists v, In v (VLANs cfg) /\ f = vlanNetwork (DNS cfg) (NTP cfg) v).

(** The binding artifacts: link into bridge, bond into bridge, member link
    into bond; [oneLine] says that the device that gives the artifact its
    names holds no line feed in them. *)
Definition bindingArtifact (cfg : SystemNetworkConfig)
  (f : networkdConfigFile) (oneLine : bool) : Prop :=
  (exists i, In i (Interfaces cfg) /\ f = interfaceBridgeNetwork i
             /\ oneLine = interfaceOneLine i)
  \/ (exists b, In b (Bonds cfg) /\ f = bondBridgeNetwork b
                /\ oneLine = bondOneLine b)
  \/ (exists b index m, In b (Bonds cfg) /\ In m (Bond.Members b)
                        /\ f = bondMemberNetwork b index m
                        /\ oneLine = bondOneLine b).

(** The lines [generateNetworkSectionContents] writes. *)
Definition networkSectionLines (dns : option DNS.t) (ntp : option NTP.t)
  : list string :=
  (match dns with
   | Some d =>
       (if (0 <? length (DNS.SearchDomains d))%nat
        then [("Domains=" ++ Join (DNS.SearchDomains d) " ")%string] else [])
       ++ map (fun ns => ("DNS=" ++ ns)%string) (DNS.Nameservers d)
   | None => []
   end
   ++ match ntp with
      | Some n => map (fun ts => ("NTP=" ++ ts)%string) (NTP.Timeservers n)
      | None => []
      end)%list.

(** The lines of the addressing artifact of an interface or a bond. *)
Definition bridgeNetworkLines
  (dns : option DNS.t) (ntp : option NTP.t)
  (name : string) (addresses : list string) (routes : list Route.t)
  (vlan : Z) : list string :=
  ([ "[Match]"; ("Name=" ++ name)%string; "";
     "[DHCP]"; "ClientIdentifier=mac"; "RouteMetric=100"; "UseMTU=true"; "";
     "[Network]" ]
   ++ networkSectionLines dns ntp
   ++ addressLines addresses
   ++ (if (0 <? length routes)%nat
       then "" :: "[Route]" :: flat_map routeLines routes else [])
   ++ (if negb (vlan =? 0)%Z
       then [""; "[BridgeVLAN]"; "VLAN=1-4094";
             ("PVID=" ++ FormatInt vlan)%string]
       else []))%list.

Definition dnsOneLine (dns : option DNS.t) : bool :=
  match dns with
  | Some d => andb (forallb noLF (DNS.SearchDomains d))
                   (forallb noLF (DNS.Nameservers d))
  | None => true
  end.

Definition ntpOneLine (ntp : option NTP.t) : bool :=
  match ntp with
  | Some n => forallb noLF (NTP.Timeservers n)
  | None => true
  end.

(** The configuration of the end-to-end property: one interface with the
    given hardware address, name and address list; every other setting is
    left open. *)
Definition endToEndConfig (mtu : Z) (routes : list Route.t) (vlan : Z)
  (lldp : bool) (dns : option DNS.t) (ntp : option NTP.t)
  (proxy : option Proxy.t) : SystemNetworkConfig :=
  {| Interfaces :=
       [Interface.mk "eth-main" "aa:bb:cc:dd:ee:ff" mtu ["192.0.2.5/24"]
                     routes vlan lldp];
     Bonds := []; VLANs := [];
     DNS := dns; NTP := ntp; Proxy := proxy |}.

End ArtifactLines.

(** ** Verdicts of the wait *)

(** The verdict of one category under a routability assignment: the
    conjunction when all are required, the disjunction otherwise; an empty
    category does not count. *)
Definition categoryVerdict (requireAll : bool) (routable : string -> bool)
  (names : list string) : bool :=
  match names with
  | [] => true
  | _ :: _ =>
      if requireAll then forallb routable names else existsb routable names
  end.

Definition cycleVerdict (requireAll : bool) (routable : string -> bool)
  (networkCfg : SystemNetworkConfig) : bool :=
  andb (categoryVerdict requireAll routable
          (map Interface.Name (Interfaces networkCfg)))
       (andb (categoryVerdict requireAll routable
                (map Bond.Name (Bonds networkCfg)))
             (categoryVerdict requireAll routable
                (map VLAN.Name (VLANs networkCfg)))).

(** The verdict of poll cycle [k]. *)
Definition verdictAt {env : WaitEnv} (networkCfg : SystemNetworkConfig)
  (requireAll : bool) (k : nat) : bool :=
  cycleVerdict requireAll (isRoutable k) networkCfg.

(** The number of turns after which the deadline has passed for sure. *)
Definition waitBound (timeout : Z) : nat :=
  S (Z.to_nat (timeout / (500 * Millisecond))).

Definition hasDevices (networkCfg : SystemNetworkConfig) : bool :=
  negb (andb (length (Interfaces networkCfg) =? 0)%nat
             (andb (length (Bonds networkCfg) =? 0)%nat
                   (length (VLANs networkCfg) =? 0)%nat)).

(** The names one poll cycle asks [networkctl] about, in order: a category
    is reached only when those before it passed. *)
Definition queriedNames (networkCfg : SystemNetworkConfig)
  (requireAll : bool) (routable : string -> bool) : list string :=
  let interfaces := map Interface.Name (Interfaces networkCfg) in
  let bonds := map Bond.Name (Bonds networkCfg) in
  let vlans := map VLAN.Name (VLANs networkCfg) in
  (interfaces
   ++ if categoryVerdict requireAll routable interfaces
      then bonds ++ (if categoryVerdict requireAll routable bonds
                     then vlans else [])
      else [])%list.

Definition isQuery (e : WaitEvent) : bool :=
  match e with Queried _ => true | _ => false end.

(** ** Steps of the apply sequence *)

(** A step: a call, and whether its failure ends the operation. *)
Definition Step : Type := (bool * Effect)%type.

Definition must (e : Effect) : Step := (true, e).

Definition may (e : Effect) : Step := (false, e).

(** The calls of the first [n] steps. *)
Definition callsOf (n : nat) (steps : list Step) : list Effect :=
  map snd (firstn n steps).

(** The host name of section 4.2, step 1: none when the configuration has
    no DNS settings or an empty host name there; else the host name of the
    DNS settings, followed by a dot and the domain when a domain is set. *)
Definition statedHostname (networkCfg : SystemNetworkConfig) : string :=
  match DNS networkCfg with
  | None => ""
  | Some dns =>
      if String.eqb (DNS.Hostname dns) "" then ""
      else if String.eqb (DNS.Domain dns) "" then DNS.Hostname dns
      else DNS.Hostname dns ++ "." ++ DNS.Domain dns
  end.

Section ApplySteps.

Context {unicode : Unicode} {env : ApplyEnv}.

Definition writeSteps (files : list networkdConfigFile) : list Step :=
  map (fun cfg =>
         must (WriteFile (filepathJoin SystemdNetworkConfigPath (Name cfg))
                         (Contents cfg)))
      files.

(** The time-sync artifact: written when there are time servers, removed
    (whatever the removal answers) when there are none. *)
Definition timesyncSteps (networkCfg : SystemNetworkConfig) : list Step :=
  match NTP networkCfg with
  | Some ntp =>
      if negb (String.eqb (generateTimesyncContents ntp) "")
      then [must (WriteFile SystemdTimesyncConfigFile
                            (generateTimesyncContents ntp))]
      else [may (Remove SystemdTimesyncConfigFile)]
  | None => [may (Remove SystemdTimesyncConfigFile)]
  end.

(** The steps of section 4.2, in order. *)
Definition applySteps (networkCfg : SystemNetworkConfig) (timeout : Z)
  : list Step :=
  ([ must (SetHostname (statedHostname networkCfg));
     must (UpdateEnvironment (Proxy networkCfg));
     must (RemoveAll SystemdNetworkConfigPath);
     must (Mkdir SystemdNetworkConfigPath) ]
   ++ writeSteps (generateLinkFileContents networkCfg)
   ++ writeSteps (generateNetdevFileContents networkCfg)
   ++ writeSteps (generateNetworkFileContents networkCfg)
   ++ timesyncSteps networkCfg
   ++ [ may (Sleep (2 * Second));
        must (RunCommand "udevadm" ["trigger"; "--action=add"]);
        must (RunCommand "udevadm" ["settle"]);
        must (RestartUnit "systemd-networkd");
        must (RestartUnit "systemd-timesyncd");
        must (WaitForNetworkRoutable timeout NetworkSeedExists) ])%list.

(** Steps run one after the other; the first failure that counts ends the
    run. *)
Fixpoint runSteps (steps : list Step) : Run error :=
  match steps with
  | [] => skip
  | (true, e) :: rest => call e ;;; runSteps rest
  | (false, e) :: rest => callIgnoring e ;;; runSteps rest
  end.

End ApplySteps.

(** ** Sample configurations and environments *)

(** A sample of the Unicode lowering for the runs on ASCII input, which
    never reach it: it leaves its input as it is. *)
Definition noCasePairs : Unicode := {|
  mapToLower := fun s => s;
  mapToLower_noLF := fun _ H => H
|}.

(** A configuration with one interface and one bond of two members. *)
Definition sampleConfig : SystemNetworkConfig :=
  {| Interfaces :=
       [Interface.mk "eth0" "aa:bb:cc:dd:ee:ff" 0 ["dhcp4"] [] 0 false];
     Bonds :=
       [Bond.mk "bond0" "02:00:00:00:00:01" 1500 [] [] 0 true
                ["02:00:00:00:00:02"; "02:00:00:00:00:03"] "802.3ad"];
     VLANs := [VLAN.mk "mgmt" "bond0" 10 0 ["192.0.2.9/24"] []];
     DNS := None; NTP := None; Proxy := None |}.

(** A clock on which every turn of the loop takes exactly its sleep. *)
Definition steadyClock (k : nat) : Z := Z.of_nat k * (500 * Millisecond).

Definition bond0 : Bond.t :=
  Bond.mk "bond0" "02:00:00:00:00:01" 0 ["dhcp4"] [] 0 false
          ["02:00:00:00:00:02"] "active-backup".

Definition bond1 : Bond.t :=
  Bond.mk "bond1" "02:00:00:00:00:11" 0 ["dhcp4"] [] 0 false
          ["02:00:00:00:00:12"] "active-backup".

Definition twoBonds : SystemNetworkConfig :=
  {| Interfaces := []; Bonds := [bond0; bond1]; VLANs := [];
     DNS := None; NTP := None; Proxy := None |}.

(** [networkctl status] reports [bond0] routable and anything else without
    carrier. *)
Definition onlyBond0 (k : nat) (name : string) : option string :=
  if String.eqb name "bond0"
  then Some ("       State: routable (configured)")
  else Some ("       State: no-carrier (configuring)").

Definition neverDone (k : nat) : bool := false.

Definition alwaysDone (k : nat) : bool := true.

Definition oneInterface : SystemNetworkConfig :=
  {| Interfaces :=
       [Interface.mk "eth0" "aa:bb:cc:dd:ee:ff" 0 ["dhcp4"] [] 0 false];
     Bonds := []; VLANs := [];
     DNS := None; NTP := None; Proxy := None |}.

(** [oneInterface] on a host named in the DNS settings. *)
Definition namedHost : SystemNetworkConfig :=
  {| Interfaces :=
       [Interface.mk "eth0" "aa:bb:cc:dd:ee:ff" 0 ["dhcp4"] [] 0 false];
     Bonds := []; VLANs := [];
     DNS := Some (DNS.mk "host" "example.net" [] []);
     NTP := None; Proxy := None |}.

Definition allRoutable (k : nat) (name : string) : option string :=
  Some ("       State: routable (configured)").

(** [bond0] alone is routable, the context stays live. *)
Definition onlyBond0Env : WaitEnv :=
  {| startTime := 0; nowAt := steadyClock;
     ctxDone := neverDone; networkctlStatus := onlyBond0 |}.

(** Every device is routable, but the context is done from the start. *)
Definition cancelledEnv : WaitEnv :=
  {| startTime := 0; nowAt := steadyClock;
     ctxDone := alwaysDone; networkctlStatus := allRoutable |}.

(** Every device is routable and the context stays live. *)
Definition allRoutableEnv : WaitEnv :=
  {| startTime := 0; nowAt := steadyClock;
     ctxDone := neverDone; networkctlStatus := allRoutable |}.

(** An environment in which the creation of a directory fails and every
    other call succeeds. *)
Definition mkdirFails (done : list Effect) (e : Effect) : error :=
  match e with
  | Mkdir _ => Some "mkdir: permission denied"
  | _ => None
  end.

Definition joinSlash (dir name : string) : string := dir ++ "/" ++ name.

Definition mkdirFailsEnv : ApplyEnv :=
  {| SystemdNetworkConfigPath := "/run/systemd/network";
     SystemdTimesyncConfigFile := "/run/systemd/timesyncd.conf";
     filepathJoin := joinSlash;
     NetworkSeedExists := true;
     outcome := mkdirFails |}.

(** A codec whose decoding yields [oneInterface], and an applier that times
    out. *)
Definition noMarshal (config : option SystemNetworkConfig) : string + string :=
  inr "null".

Definition keepBase (bytes : string) (base : SystemNetworkConfig)
  : string + SystemNetworkConfig := inr base.

Definition decodeOneInterface (body : string) (base : SystemNetworkConfig)
  : string + SystemNetworkConfig := inr oneInterface.

Definition applyTimesOut (config : option SystemNetworkConfig) (timeout : Z)
  : error := Some timedOut.

Definition applyTimesOutEnv : HandlerEnv :=
  {| jsonMarshal := noMarshal; jsonUnmarshal := keepBase;
     jsonDecode := decodeOneInterface; Apply := applyTimesOut |}.

(** ** Names, bytes and calls used by the further properties *)

(** [strings.HasSuffix(s, suffix)], as a proposition. *)
Definition HasSuffix (s suffix : string) : Prop :=
  exists pre, s = pre ++ suffix.

(** An upper-case ASCII letter. *)
Definition isUpper (c : ascii) : bool :=
  let n := nat_of_ascii c in andb (Nat.leb 65 n) (Nat.leb n 90).

(** A test holds of every byte of a text. *)
Fixpoint allBytes (test : ascii -> bool) (s : string) : bool :=
  match s with
  | EmptyString => true
  | String c t => andb (test c) (allBytes test t)
  end.

(** The names of interfaces, bonds and bond members hold no line feed. *)
Definition devicesOneLine (cfg : SystemNetworkConfig) : bool :=
  andb (forallb interfaceOneLine (Interfaces cfg))
       (forallb bondOneLine (Bonds cfg)).

Section GenerateCalls.

Context {unicode : Unicode} {env : ApplyEnv}.

(** The writes of the artifacts of a configuration, in the order of
    [generateNetworkConfiguration]. *)
Definition artifactWrites (networkCfg : SystemNetworkConfig) : list Effect :=
  map (fun cfg =>
         WriteFile (filepathJoin SystemdNetworkConfigPath (Name cfg))
                   (Contents cfg))
      (generateLinkFileContents networkCfg
       ++ generateNetdevFileContents networkCfg
       ++ generateNetworkFileContents networkCfg)%list.

(** The one call on the time-sync file: it is written when there is a time
    server, removed otherwise. *)
Definition timesyncCall (networkCfg : SystemNetworkConfig) : Effect :=
  match NTP networkCfg with
  | Some ntp =>
      match NTP.Timeservers ntp with
      | [] => Remove SystemdTimesyncConfigFile
      | _ :: _ =>
          WriteFile SystemdTimesyncConfigFile
            ("[Time]" ++ LF ++ "FallbackNTP="
               ++ Join (NTP.Timeservers ntp) " " ++ LF)
      end
  | None => Remove SystemdTimesyncConfigFile
  end.

(** The steps of [generateNetworkConfiguration]. *)
Definition generateSteps (networkCfg : SystemNetworkConfig) : list Step :=
  ([ must (RemoveAll SystemdNetworkConfigPath);
     must (Mkdir SystemdNetworkConfigPath) ]
   ++ writeSteps (generateLinkFileContents networkCfg)
   ++ writeSteps (generateNetdevFileContents networkCfg)
   ++ writeSteps (generateNetworkFileContents networkCfg)
   ++ timesyncSteps networkCfg)%list.

End GenerateCalls.

(** The [MTUBytes=] lines of a text. *)
Definition mtuLines (text : string) : list string :=
  filter (fun l => HasPrefix l "MTUBytes=") (lines text).

(** The section headers of a text: its lines that start with a bracket. *)
Definition sectionHeaders (text : string) : list string :=
  filter (fun l => HasPrefix l "[") (lines text).

(** The bytes a stripped hardware address is made of: no colon, no
    upper-case letter. *)
Definition strippedByte (c : ascii) : bool :=
  andb (negb (Ascii.eqb c ":"%char)) (negb (isUpper c)).

(** The lines of the addressing artifact of a VLAN. *)
Definition vlanNetworkLines (dns : option DNS.t) (ntp : option NTP.t)
  (v : VLAN.t) : list string :=
  ([ "[Match]"; ("Name=" ++ VLAN.Parent v)%string; "";
     "[DHCP]"; "ClientIdentifier=mac"; "RouteMetric=100"; "UseMTU=true"; "";
     "[Network]"; ("VLAN=vl" ++ VLAN.Name v)%string ]
   ++ networkSectionLines dns ntp
   ++ addressLines (VLAN.Addresses v)
   ++ (if (0 <? length (VLAN.Routes v))%nat
       then "" :: "[Route]" :: flat_map routeLines (VLAN.Routes v) else []))%list.

(** The settings of a device hold no line feed: addresses, routes, and the
    DNS and NTP settings of the configuration. *)
Definition settingsOneLine (dns : option DNS.t) (ntp : option NTP.t)
  (addresses : list string) (routes : list Route.t) : bool :=
  andb (forallb noLF addresses)
       (andb (forallb routeOneLine routes)
             (andb (dnsOneLine dns) (ntpOneLine ntp))).

(** ** Requests served one after the other *)

Section Serve.

Context {env : HandlerEnv}.

(** The state of the server after the requests of a list, each handled by
    [apiNetwork10] in the state the one before left. *)
Definition serve (s : ServerState) (requests : list (Method * string))
  : ServerState :=
  fold_left (fun s request => state (apiNetwork10 s (fst request) (snd request)))
            requests s.

End Serve.

(** The active configuration is there and defines a device. *)
Definition activeHasDevices (s : ServerState) : Prop :=
  exists config, NetworkConfig s = Some config /\ hasDevices config = true.

(** *** Installation *)

(** A disk qualifies as the target when it is not the source and its ID
    contains the configured target's ID, if one is configured. *)
Definition matchesTarget (target : option InstallTarget.t)
  (device : Blockdevice.t) : bool :=
  match target with
  | None => true
  | Some t => Contains (Blockdevice.ID device) (InstallTarget.ID t)
  end.

Definition qualifies (target : option InstallTarget.t) (sourceDevice : string)
  (device : Blockdevice.t) : bool :=
  andb (negb (String.eqb (Blockdevice.KName device) sourceDevice))
       (matchesTarget target device).

(** The partition [rebootUponDeviceRemoval] watches. *)
Definition watchedPartition (device : string) : string :=
  device ++ getPartitionPrefix device ++ "1".

(** [n] turns of the waiting loop that found the partition in place. *)
Definition waitTurns (partition : string) (n : nat) : list RebootCall :=
  concat (repeat [Stat partition; SleepSecond] n).

(** The two calls that reboot the machine. *)
Definition rebootCalls : list RebootCall :=
  [Sync; WriteSysrq "/proc/sysrq-trigger" "b"].

Definition isWriteSysrq (c : RebootCall) : bool :=
  match c with
  | WriteSysrq _ _ => true
  | _ => false
  end.

(** Sample disks and environments. *)
Definition usbStick : Blockdevice.t := Blockdevice.mk "/dev/sda" "usb-stick".
Definition nvmeDisk : Blockdevice.t :=
  Blockdevice.mk "/dev/nvme0n1" "nvme-Samsung_SSD_980".
Definition vdaDisk : Blockdevice.t := Blockdevice.mk "/dev/vda" "virtio-root".

Definition threeDisks : LsblkEnv := {|
  RunLsblk := fun args => inr (hd "" args);
  UnmarshalLsblk := fun output =>
    if String.eqb output "-N" then inr [nvmeDisk]
    else if String.eqb output "-S" then inr [usbStick]
    else inr [vdaDisk]
|}.

Definition twoDisks : LsblkEnv := {|
  RunLsblk := fun args => inr (hd "" args);
  UnmarshalLsblk := fun output =>
    if String.eqb output "-N" then inr [nvmeDisk]
    else if String.eqb output "-S" then inr [usbStick]
    else inr []
|}.

Definition oneDisk : LsblkEnv := {|
  RunLsblk := fun args => inr (hd "" args);
  UnmarshalLsblk := fun output =>
    if String.eqb output "-S" then inr [usbStick] else inr []
|}.

Definition targetVirtio : Install :=
  mkInstall (Some (InstallConfig.mk (Some (InstallTarget.mk "virtio"))
                                    false false)).

Definition noTarget : Install :=
  mkInstall (Some (InstallConfig.mk None false false)).

Definition forcedReboot : Install :=
  mkInstall (Some (InstallConfig.mk None false true)).

Definition removedAfterThree : RebootEnv := {|
  statAt := fun k _ =>
    if (k <? 3)%nat then None
    else Some (mkFailure IsNotExist "stat /dev/sda1: no such file or directory");
  writeSysrq := None
|}.

Definition neverRemoved : RebootEnv := {|
  statAt := fun _ _ => None;
  writeSysrq := None
|}.

(** A path element: a string without a separator. *)
Fixpoint noSeparator (s : string) : bool :=
  match s with
  | EmptyString => true
  | String c rest => andb (negb (Filepath.isSeparator c)) (noSeparator rest)
  end.

(** Whether the [dev] file of a block device names the given device number. *)
Definition namesDevice {env : SourceEnv} (rootDev entry : string) : bool :=
  match ReadFile (JoinPath (JoinPath "/sys/class/block" entry) "dev") with
  | inl _ => false
  | inr dev => String.eqb dev rootDev
  end.

(** The device number of /boot/EFI as [getSourceDevice] prints it. *)
Definition rootDevOf {env : SourceEnv} (dev : Z) : string :=
  FormatInt (unixMajor dev) ++ ":" ++ FormatInt (unixMinor dev) ++ LF.

(** A sample system: /boot/EFI is on device 8:1, which is sda1. *)
Definition bootOnSda1 : SourceEnv := {|
  unixStat := fun _ => inr 2049%Z;
  unixMajor := fun dev => (dev / 256)%Z;
  unixMinor := fun dev => (dev mod 256)%Z;
  ReadDir := fun _ => inr ["loop0"; "sda"; "sda1"; "sda2"];
  ReadFile := fun path =>
    if String.eqb path "/sys/class/block/sda/dev" then inr ("8:0" ++ LF)
    else if String.eqb path "/sys/class/block/sda1/dev" then inr ("8:1" ++ LF)
    else if String.eqb path "/sys/class/block/sda2/dev" then inr ("8:2" ++ LF)
    else inl (mkFailure IsNotExist "no such file or directory");
  Readlink := fun path =>
    inr ("../../devices/pci0000:00/0000:00:1f.2/ata1/host0/target0:0:0/0:0:0:0/block/sda/sda1");
  JoinPath := fun dir name => dir ++ "/" ++ name
|}.

(** The commands among the calls of an installation, and the files opened
    and closed. *)
Definition commandOf (c : InstallCall) : list (string * list string) :=
  match c with
  | Command name args => [(name, args)]
  | _ => []
  end.

Definition closedBy (c : InstallCall) : list string :=
  match c with
  | Close path => [path]
  | _ => []
  end.

Definition commandsRun (calls : list InstallCall)
  : list (string * list string) :=
  flat_map commandOf calls.

Definition filesClosed (calls : list InstallCall) : list string :=
  flat_map closedBy calls.

(** A computation that, when it returns without error, has made calls whose
    image under [f] is [xs]. *)
Definition emits {X A : Type} (f : InstallCall -> list X) (m : Inst A)
  (xs : list X) : Prop :=
  forall calls a calls',
    m calls = Some (Returned a, calls') ->
    exists body, calls' = (calls ++ body)%list /\ flat_map f body = xs.

(** The files opened with success by the calls [body] made after [earlier]. *)
Fixpoint filesOpened {env : InstallEnv} (earlier body : list InstallCall)
  : list string :=
  match body with
  | [] => []
  | c :: rest =>
      (match c, answerError (answer earlier c) with
       | OpenFile path _ _, None => [path]
       | _, _ => []
       end ++ filesOpened (earlier ++ [c]) rest)%list
  end.

(** The calls of the copying loop. *)
Definition isChunkCall (c : InstallCall) : bool :=
  match c with
  | CopyN _ _ _ => true
  | DisplayModal _ _ _ _ => true
  | _ => false
  end.

(** What [sgdisk -v] prints for a disk that has no partition table. *)
Definition noPartitionTable (output : string) : bool :=
  Contains output "Creating new GPT entries in memory".

(** The commands of a complete installation. *)
Definition installCommands (sourceDevice targetDevice : string)
  : list (string * list string) :=
  [("sgdisk", ["-v"; targetDevice]);
   ("swapoff", ["-a"]);
   ("sgdisk", ["-d"; "9"; sourceDevice]);
   ("sgdisk", ["-d"; "10"; sourceDevice]);
   ("sgdisk", ["-d"; "11"; sourceDevice]);
   ("sgdisk", ["-R"; targetDevice; sourceDevice]);
   ("tar", ["-f"; targetDevice ++ getPartitionPrefix targetDevice ++ "2";
            "--delete"; "install.json"]);
   ("tar", ["-f"; targetDevice ++ getPartitionPrefix targetDevice ++ "2";
            "--delete"; "install.yaml"])].

(** The partitions copied by a complete installation, each one closed
    target first. *)
Definition partitionsClosed (sourceDevice targetDevice : string)
  : list string :=
  flat_map (fun n : Z =>
              [targetDevice ++ getPartitionPrefix targetDevice ++ FormatInt n;
               sourceDevice ++ getPartitionPrefix sourceDevice ++ FormatInt n])
           [1; 2; 3; 4; 5; 6; 7; 8]%Z.

(** Sample systems. The number of chunks copied since the last file was
    opened; a blank target disk on which every call succeeds, each partition
    ends after two chunks and the install files are not in the archive; a
    target disk that has a partition table. *)
Definition lastOpenAt (calls : list InstallCall) : nat :=
  (fix go (l : list InstallCall) (n : nat) : nat :=
     match l with
     | [] => n
     | OpenFile _ _ _ :: rest => go rest 0%nat
     | CopyN _ _ _ :: rest => go rest (S n)
     | _ :: rest => go rest n
     end) calls 0%nat.

Definition blankDisk : InstallEnv := {|
  answer := fun calls c =>
    match c with
    | Command "sgdisk" ("-v" :: _) =>
        mkAnswer "Creating new GPT entries in memory." 0 None
    | Command "tar" _ =>
        mkAnswer "" 0
          (Some (errorsNew "tar: install.json: Not found in archive; tar: install.yaml: Not found in archive"))
    | Seek _ _ _ => mkAnswer "" 2097152 None
    | CopyN _ _ _ =>
        if (lastOpenAt calls <? 2)%nat then mkAnswer "" 0 None
        else mkAnswer "" 0 (Some (mkFailure IsEOF "EOF"))
    | _ => mkAnswer "" 0 None
    end
|}.

Definition usedDisk : InstallEnv := {|
  answer := fun calls c =>
    match c with
    | Command "sgdisk" ("-v" :: _) =>
        mkAnswer "No problems found. 2014 free sectors available." 0 None
    | _ => mkAnswer "" 0 None
    end
|}.

(** *** The start-up of the daemon *)

(** The key of the releases, the keys of development builds, and the mode
    they give. *)
Definition isReleaseKey (key : Key.t) : bool :=
  String.eqb (Key.Fingerprint key) "7d4dc2ac7ad1ef27365ff599612e07e2312adf79".

Definition isDevKey (key : Key.t) : bool :=
  HasPrefix (Key.Description key) "mkosi of ".

Definition modeOf (keys : list Key.t) : string :=
  if existsb isReleaseKey keys then "release"
  else if existsb isDevKey keys then "dev"
  else "unsafe".

Definition keyEntry (key : Key.t) : MainCall :=
  Info "Platform keyring entry"
       [("name", Key.Description key); ("key", Key.Fingerprint key)].

(** The names of the assets of an OS update: they start with "IncusOS_" and
    what follows their first dot is not "raw.gz"; and the names of the
    system extensions. *)
Fixpoint noDot (s : string) : bool :=
  match s with
  | EmptyString => true
  | String c rest => andb (negb (Ascii.eqb c "."%char)) (noDot rest)
  end.

Definition updateAssetName (name : string) : Prop :=
  HasPrefix name "IncusOS_" = true /\
  exists base ext,
    name = base ++ "." ++ ext /\ noDot base = true /\ ext <> "raw.gz".

Definition extensionName (name : string) : Prop :=
  name = "debug.raw.gz" \/ name = "incus.raw.gz".

(** A state of [run] all of whose calls satisfy [P], and a computation that
    keeps a property of the state however it ends. *)
Definition allCalls (P : MainCall -> Prop) (st : MainState) : Prop :=
  Forall P (fst st).

Definition preserves {A : Type} (Inv : MainState -> Prop) (m : Main A)
  : Prop :=
  forall st r st', m st = (r, st') -> Inv st -> Inv st'.

(** The handle a call opens, the handles opened with success by the calls
    [body] made after [earlier], and the closing calls. *)
Definition opens (c : MainCall) : option Handle :=
  match c with
  | DownloadReleaseAsset _ _ id => Some (AssetBody id)
  | NewGzipReader id => Some (GzipReader id)
  | Create path => Some (CreatedFile path)
  | _ => None
  end.

Fixpoint handlesOpened {env : MainEnv} (earlier body : list MainCall)
  : list Handle :=
  match body with
  | [] => []
  | c :: rest =>
      (match opens c, callError earlier c with
       | Some h, None => [h]
       | _, _ => []
       end ++ handlesOpened (earlier ++ [c]) rest)%list
  end.

Definition isClose (c : MainCall) : bool :=
  match c with
  | CloseHandle _ => true
  | _ => false
  end.

Definition closesInOrder {env : MainEnv} (st : MainState) : Prop :=
  snd st = rev (handlesOpened [] (fst st)) /\ existsb isClose (fst st) = false.

Section RunCalls.

Context {env : MainEnv}.

(** A download or a created file that comes from an asset whose name is
    [wanted], the file being created in [dir] under the name of the asset
    without its ".gz". *)
Definition fromAsset (dir : string) (wanted : string -> Prop)
  (c : MainCall) : Prop :=
  match c with
  | DownloadReleaseAsset owner repo id =>
      owner = "lxc" /\ repo = "incus-os" /\
      exists a, In a releaseAssets /\ Asset.ID a = id /\
                wanted (Asset.Name a)
  | Create path =>
      exists a, In a releaseAssets /\ wanted (Asset.Name a) /\
                path = pathJoin dir (TrimSuffix (Asset.Name a) ".gz")
  | _ => True
  end.

(** The calls of a start-up that updates the system, and of one that
    installs the system extensions. *)
Definition updateCall (c : MainCall) : Prop :=
  fromAsset SystemUpdatesPath updateAssetName c /\
  match c with
  | RefreshExtensions | RefreshUsers | EnableUnit _ _ => False
  | MkdirAll path _ => path = SystemUpdatesPath
  | ApplySystemUpdate version reboot =>
      version = Release.Name latestRelease /\ reboot = true
  | _ => True
  end.

Definition extensionCall (c : MainCall) : Prop :=
  fromAsset SystemExtensionsPath extensionName c /\
  match c with
  | ApplySystemUpdate _ _ => False
  | _ => True
  end.

End RunCalls.

(** A sample start-up: a development build behind the latest release. *)
Definition devKeys : list Key.t :=
  [Key.mk "0a1b2c" "mkosi of root"; Key.mk "ffee00" "vendor key"].

Definition sampleAssets : list Asset.t :=
  [Asset.mk "IncusOS_202501.efi.gz" 1 "https://example.org/1";
   Asset.mk "IncusOS_202501.raw.gz" 2 "https://example.org/2";
   Asset.mk "debug.raw.gz" 3 "https://example.org/3";
   Asset.mk "incus.raw.gz" 4 "https://example.org/4";
   Asset.mk "IncusOS_202501.usr-x86-64.raw.gz" 5 "https://example.org/5"].

Definition behindLatest : MainEnv := {|
  PlatformKeyring := "%:.platform";
  SystemUpdatesPath := "/var/lib/updates";
  SystemExtensionsPath := "/var/lib/extensions";
  pathJoin := fun dir name => dir ++ "/" ++ name;
  currentRelease := "202412";
  trustedKeys := devKeys;
  latestRelease := Release.mk "v202501" "202501" 77;
  releaseAssets := sampleAssets;
  callError := fun _ _ => None
|}.

Definition upToDate : MainEnv := {|
  PlatformKeyring := "%:.platform";
  SystemUpdatesPath := "/var/lib/updates";
  SystemExtensionsPath := "/var/lib/extensions";
  pathJoin := fun dir name => dir ++ "/" ++ name;
  currentRelease := "202501";
  trustedKeys := devKeys;
  latestRelease := Release.mk "v202501" "202501" 77;
  releaseAssets := sampleAssets;
  callError := fun _ c =>
    match c with
    | Create "/var/lib/extensions/incus.raw" =>
        Some (errorsNew "open /var/lib/extensions/incus.raw: read-only file system")
    | _ => None
    end
|}.

(* ================================================================== *)
(** * Part III: lemmas and theorems *)

(* ================================================================== *)
(** ** Lemmas on strings and lines *)

Section StringFacts.

Context {unicode : Unicode}.

Lemma append_nil_r (s : string) : s ++ "" = s.
Proof. induction s as [|c s IH]; simpl; [reflexivity | now rewrite IH]. Qed.

Lemma append_assoc (a b c : string) : (a ++ b) ++ c = a ++ b ++ c.
Proof. induction a as [|x a IH]; simpl; [reflexivity | now rewrite IH]. Qed.

Lemma lines_not_nil (s : string) : lines s <> [].
Proof.
  destruct s as [|c s]; simpl; [discriminate|].
  destruct (isLF c); [discriminate|].
  destruct (lines s); discriminate.
Qed.

(** Splitting at line feeds distributes over a line feed between two
    texts. *)
Lemma lines_app_LF (a b : string) : lines (a ++ LF ++ b) = (lines a ++ lines b)%list.
Proof.
  induction a as [|c a IH]; [reflexivity|].
  change (String c a ++ LF ++ b) with (String c (a ++ LF ++ b)).
  cbn [lines]. rewrite IH.
  destruct (isLF c); [reflexivity|].
  destruct (lines a) as [|l ls] eqn:E; [now apply lines_not_nil in E|].
  reflexivity.
Qed.

Lemma lines_noLF (s : string) : noLF s = true -> lines s = [s].
Proof.
  induction s as [|c s IH]; [reflexivity|].
  cbn [noLF lines]. intros H. apply andb_true_iff in H as [Hc Hs].
  apply negb_true_iff in Hc. rewrite Hc, (IH Hs). reflexivity.
Qed.

Lemma noLF_app (a b : string) : noLF (a ++ b) = andb (noLF a) (noLF b).
Proof.
  induction a as [|c a IH]; [reflexivity|].
  simpl. rewrite IH. now rewrite andb_assoc.
Qed.

Lemma unlines_app (xs ys : list string) :
  unlines (xs ++ ys) = unlines xs ++ unlines ys.
Proof.
  induction xs as [|x xs IH]; [reflexivity|].
  simpl. rewrite IH. now rewrite !append_assoc.
Qed.

(** A text made of line-feed free lines splits back into these lines. *)
Lemma lines_unlines_app (ls : list string) (rest : string) :
  Forall (fun l => noLF l = true) ls ->
  lines (unlines ls ++ rest) = (ls ++ lines rest)%list.
Proof.
  induction 1 as [|l ls Hl _ IH]; [reflexivity|].
  cbn [unlines]. rewrite !append_assoc, lines_app_LF, IH, (lines_noLF _ Hl).
  reflexivity.
Qed.

Lemma lines_unlines (ls : list string) :
  Forall (fun l => noLF l = true) ls ->
  lines (unlines ls) = (ls ++ [""])%list.
Proof.
  intros H. rewrite <- (append_nil_r (unlines ls)).
  now rewrite lines_unlines_app.
Qed.

Lemma prefix_app (p s : string) : String.prefix p (p ++ s) = true.
Proof.
  induction p as [|c p IH]; simpl; [now destruct s|].
  destruct (ascii_dec c c); [exact IH | congruence].
Qed.

Lemma prefix_inv (p s : string) :
  String.prefix p s = true -> exists r, s = p ++ r.
Proof.
  revert s. induction p as [|c p IH]; intros s H.
  - now exists s.
  - destruct s as [|d s]; simpl in H; [discriminate|].
    destruct (ascii_dec c d) as [->|]; [|discriminate].
    destruct (IH _ H) as [r ->]. now exists r.
Qed.

Lemma append_inj_l (p a b : string) : p ++ a = p ++ b -> a = b.
Proof. induction p as [|c p IH]; simpl; intros H; [exact H | injection H; auto]. Qed.

Lemma lines_unlines_flat (ls : list string) :
  lines (unlines ls) = (flat_map lines ls ++ [""])%list.
Proof.
  induction ls as [|l ls IH]; [reflexivity|].
  cbn [unlines flat_map]. now rewrite lines_app_LF, IH, app_assoc.
Qed.

(** A text given line by line has the line [[Network]] when the list has
    it. *)
Lemma In_lines_unlines (l : string) (ls : list string) :
  noLF l = true -> In l ls -> In l (lines (unlines ls)).
Proof.
  intros Hl Hin. rewrite lines_unlines_flat. apply in_or_app. left.
  apply in_flat_map. exists l. split; [exact Hin|].
  rewrite (lines_noLF _ Hl). now left.
Qed.

Lemma Contains_app (pre sub post : string) :
  Contains (pre ++ sub ++ post) sub = true.
Proof.
  induction pre as [|c pre IH].
  - cbn [append]. destruct (sub ++ post) eqn:E; cbn [Contains];
      rewrite <- E, prefix_app; reflexivity.
  - change (String c pre ++ sub ++ post) with (String c (pre ++ sub ++ post)).
    cbn [Contains]. rewrite IH. apply orb_true_r.
Qed.

Lemma lowerByte_not_LF (c : ascii) : isLF c = false -> isLF (lowerByte c) = false.
Proof.
  destruct c as [[] [] [] [] [] [] [] []]; intros H;
    solve [reflexivity | discriminate H].
Qed.

Lemma noLF_removeColons (s : string) :
  noLF s = true -> noLF (removeColons s) = true.
Proof.
  induction s as [|c s IH]; [reflexivity|].
  cbn [noLF removeColons]. intros H. apply andb_true_iff in H as [Hc Hs].
  destruct (Ascii.eqb c ":"); [now apply IH|].
  cbn [noLF]. now rewrite Hc, IH.
Qed.

Lemma noLF_lowerASCII (s : string) :
  noLF s = true -> noLF (lowerASCII s) = true.
Proof.
  induction s as [|c s IH]; [reflexivity|].
  cbn [noLF lowerASCII]. intros H. apply andb_true_iff in H as [Hc Hs].
  apply negb_true_iff in Hc. now rewrite (lowerByte_not_LF _ Hc), IH.
Qed.

Lemma noLF_ToLower (s : string) : noLF s = true -> noLF (ToLower s) = true.
Proof.
  intros H. unfold ToLower. destruct (isASCII s).
  - now apply noLF_lowerASCII.
  - now apply mapToLower_noLF.
Qed.

Lemma noLF_strippedHwaddr (hwaddr : string) :
  noLF hwaddr = true -> noLF (strippedHwaddr hwaddr) = true.
Proof. intros H. now apply noLF_ToLower, noLF_removeColons. Qed.

Lemma noLF_FormatBool (b : bool) : noLF (FormatBool b) = true.
Proof. now destruct b. Qed.

Lemma noLF_string_of_uint (u : Decimal.uint) :
  noLF (NilEmpty.string_of_uint u) = true.
Proof. induction u; cbn; auto. Qed.

Lemma noLF_FormatInt (n : Z) : noLF (FormatInt n) = true.
Proof.
  unfold FormatInt, NilZero.string_of_int, NilZero.string_of_uint.
  destruct (Z.to_int n) as [u|u]; destruct u; cbn;
    auto using noLF_string_of_uint;
    match goal with |- noLF (NilEmpty.string_of_uint ?u) = true =>
      apply noLF_string_of_uint end.
Qed.

Lemma noLF_mtuString (mtu : Z) : noLF (mtuString mtu) = true.
Proof.
  unfold mtuString. destruct (negb (mtu =? 0)%Z); [|reflexivity].
  rewrite noLF_app. cbn. apply noLF_FormatInt.
Qed.

Lemma noLF_Join (elems : list string) :
  forallb noLF elems = true -> noLF (Join elems " ") = true.
Proof.
  unfold Join. induction elems as [|x xs IH]; [reflexivity|].
  cbn [forallb]. intros H. apply andb_true_iff in H as [Hx Hxs].
  destruct xs as [|y ys]; [exact Hx|].
  change (String.concat " " (x :: y :: ys))
    with (x ++ " " ++ String.concat " " (y :: ys)).
  rewrite !noLF_app, Hx, (IH Hxs). reflexivity.
Qed.

Lemma fold_left_unlines {A : Type} (step : string -> A -> string)
  (g : A -> list string) :
  (forall ret x, step ret x = ret ++ unlines (g x)) ->
  forall (xs : list A) (ret : string),
    fold_left step xs ret = ret ++ unlines (flat_map g xs).
Proof.
  intros Hstep xs. induction xs as [|x xs IH]; intros ret.
  - cbn. now rewrite append_nil_r.
  - cbn [fold_left flat_map]. rewrite IH, Hstep, unlines_app.
    now rewrite append_assoc.
Qed.

Lemma fold_left_append {A B : Type} (step : list B -> A -> list B)
  (f : A -> list B) :
  (forall ret x, step ret x = (ret ++ f x)%list) ->
  forall (xs : list A) (ret : list B),
    fold_left step xs ret = (ret ++ flat_map f xs)%list.
Proof.
  intros Hstep xs. induction xs as [|x xs IH]; intros ret.
  - cbn. now rewrite app_nil_r.
  - cbn [fold_left flat_map]. rewrite IH, Hstep. now rewrite <- app_assoc.
Qed.

Lemma flat_map_single {A B : Type} (f : A -> B) (xs : list A) :
  flat_map (fun x => [f x]) xs = map f xs.
Proof. induction xs as [|x xs IH]; cbn; [reflexivity | now rewrite IH]. Qed.

End StringFacts.

(* ================================================================== *)
(** ** The address block *)

Section Addresses.

Lemma hasToken_In (tok : string) (addresses : list string) :
  hasToken tok addresses = true <-> In tok addresses.
Proof.
  unfold hasToken. rewrite existsb_exists. split.
  - intros [a [Ha E]]. apply String.eqb_eq in E. now subst.
  - intros H. exists tok. split; [exact H | apply String.eqb_refl].
Qed.

Lemma hasToken_not_In (tok : string) (addresses : list string) :
  hasToken tok addresses = false <-> ~ In tok addresses.
Proof.
  rewrite <- hasToken_In. destruct (hasToken tok addresses); split;
    intros H; try discriminate; try reflexivity; now elim H.
Qed.

Lemma fold_addrStep (addresses : list string) (st : addrState) :
  fold_left addrStep addresses st =
  mkAddrState
    (as_ret st ++
       unlines (map (fun a => "Address=" ++ a)
                    (filter (fun a => negb (reserved a)) addresses)))
    (orb (hasDHCP4 st) (hasToken "dhcp4" addresses))
    (orb (hasDHCP6 st) (hasToken "dhcp6" addresses))
    (orb (acceptIPv6RA st) (hasToken "slaac" addresses)).
Proof.
  revert st. induction addresses as [|a l IH]; intros [r h4 h6 ra].
  - cbn. now rewrite append_nil_r, !orb_false_r.
  - cbn [fold_left]. rewrite IH. unfold addrStep, reserved, hasToken.
    cbn [existsb filter map as_ret hasDHCP4 hasDHCP6 acceptIPv6RA].
    destruct (String.eqb_spec a "dhcp4") as [->|N4];
      [cbn; now rewrite !orb_true_r, ?orb_true_l|].
    destruct (String.eqb_spec a "dhcp6") as [->|N6];
      [cbn; now rewrite !orb_true_r, ?orb_true_l|].
    destruct (String.eqb_spec a "slaac") as [->|Ns];
      [cbn; now rewrite !orb_true_r, ?orb_true_l|].
    cbn [negb orb map unlines as_ret hasDHCP4 hasDHCP6 acceptIPv6RA].
    now rewrite !append_assoc.
Qed.

(** [processAddresses] writes exactly the lines of [addressLines]. *)
Lemma processAddresses_unlines (addresses : list string) :
  processAddresses addresses = unlines (addressLines addresses).
Proof.
  unfold processAddresses, addressLines. rewrite fold_addrStep.
  cbn [as_ret hasDHCP4 hasDHCP6 acceptIPv6RA orb].
  rewrite !unlines_app.
  destruct addresses as [|a l]; [reflexivity|].
  change (negb (length (a :: l) =? 0)%nat) with true.
  cbv iota. set (body := map _ _).
  destruct (hasToken "slaac" (a :: l)), (hasToken "dhcp4" (a :: l)),
    (hasToken "dhcp6" (a :: l)); cbn [andb unlines app];
    rewrite ?append_assoc, ?append_nil_r; reflexivity.
Qed.

Lemma addressLines_noLF (addresses : list string) :
  Forall (fun a => noLF a = true) addresses ->
  Forall (fun l => noLF l = true) (addressLines addresses).
Proof.
  intros H. unfold addressLines. rewrite !Forall_app. repeat split.
  - destruct addresses; repeat constructor.
  - rewrite Forall_map. rewrite Forall_forall in *.
    intros a Ha. apply filter_In in Ha as [Ha _]. cbn. now apply H.
  - destruct (hasToken "slaac" addresses); repeat constructor.
  - destruct (hasToken "dhcp4" addresses), (hasToken "dhcp6" addresses);
      repeat constructor.
Qed.

Lemma processAddresses_lines (addresses : list string) :
  Forall (fun a => noLF a = true) addresses ->
  lines (processAddresses addresses) = (addressLines addresses ++ [""])%list.
Proof.
  intros H. rewrite processAddresses_unlines.
  apply lines_unlines, addressLines_noLF, H.
Qed.

(** Membership in the lines of the block, case by case. *)
Lemma In_addressLines (l : string) (addresses : list string) :
  In l (addressLines addresses ++ [""])%list <->
  (addresses = [] /\
     (l = "LinkLocalAddressing=no" \/ l = "ConfigureWithoutCarrier=yes"))
  \/ (addresses <> [] /\ l = "LinkLocalAddressing=ipv6")
  \/ (exists a, In a addresses /\ reserved a = false /\ l = "Address=" ++ a)
  \/ (l = if hasToken "slaac" addresses
          then "IPv6AcceptRA=true" else "IPv6AcceptRA=false")
  \/ (hasToken "dhcp4" addresses = true /\ hasToken "dhcp6" addresses = true
        /\ l = "DHCP=yes")
  \/ (hasToken "dhcp4" addresses = true /\ hasToken "dhcp6" addresses = false
        /\ l = "DHCP=ipv4")
  \/ (hasToken "dhcp4" addresses = false /\ hasToken "dhcp6" addresses = true
        /\ l = "DHCP=ipv6")
  \/ l = "".
Proof.
  unfold addressLines. rewrite !in_app_iff, in_map_iff.
  setoid_rewrite filter_In. setoid_rewrite negb_true_iff.
  split.
  - intros [[H | [(a & E & Ha & Hr) | [H | H]]] | H].
    + destruct addresses; cbn in H.
      * left. split; [reflexivity|]. intuition auto.
      * right; left. split; [discriminate|]. intuition auto.
    + right; right; left. exists a. auto.
    + right; right; right; left. cbn in H. intuition auto.
    + right; right; right; right.
      destruct (hasToken "dhcp4" addresses), (hasToken "dhcp6" addresses);
        cbn in H; intuition auto.
    + cbn in H. intuition auto.
  - intros [[-> H] | [[N H] | [(a & Ha & Hr & E) | [H | [H | [H | [H | H]]]]]]].
    + left; left. cbn. intuition auto.
    + left; left. destruct addresses; [now elim N|]. cbn. auto.
    + left; right; left. exists a. auto.
    + left; right; right; left. cbn. auto.
    + left; right; right; right. destruct H as (-> & -> & ->). cbn. auto.
    + left; right; right; right. destruct H as (-> & -> & ->). cbn. auto.
    + left; right; right; right. destruct H as (-> & -> & ->). cbn. auto.
    + right. cbn. auto.
Qed.

Example processAddresses_dhcp4_slaac :
  lines (processAddresses ["dhcp4"; "slaac"])
  = ["LinkLocalAddressing=ipv6"; "IPv6AcceptRA=true"; "DHCP=ipv4"; ""].
Proof. reflexivity. Qed.

Example processAddresses_no_address :
  lines (processAddresses [])
  = ["LinkLocalAddressing=no"; "ConfigureWithoutCarrier=yes";
     "IPv6AcceptRA=false"; ""].
Proof. reflexivity. Qed.

Example processAddresses_static_and_dhcp :
  lines (processAddresses ["192.0.2.5/24"; "dhcp6"; "dhcp4"; "2001:db8::5/64"])
  = ["LinkLocalAddressing=ipv6"; "Address=192.0.2.5/24";
     "Address=2001:db8::5/64"; "IPv6AcceptRA=false"; "DHCP=yes"; ""].
Proof. reflexivity. Qed.

(** The addressing artifact of every device holds the text that
    [processAddresses] makes of the address list of that device. *)
Lemma addressing_artifacts_hold_address_block
  (dns : option DNS.t) (ntp : option NTP.t) :
  (forall i, exists pre post,
      Contents (interfaceNetwork dns ntp i)
      = pre ++ processAddresses (Interface.Addresses i) ++ post)
  /\ (forall b, exists pre post,
      Contents (bondNetwork dns ntp b)
      = pre ++ processAddresses (Bond.Addresses b) ++ post)
  /\ (forall v, exists pre post,
      Contents (vlanNetwork dns ntp v)
      = pre ++ processAddresses (VLAN.Addresses v) ++ post).
Proof.
  assert (Hbridge : forall name addresses routes vlan, exists pre post,
            bridgeNetworkContents dns ntp name addresses routes vlan
            = pre ++ processAddresses addresses ++ post).
  { intros name addresses routes vlan. unfold bridgeNetworkContents.
    set (pre := "[Match]" ++ _).
    exists pre.
    destruct (0 <? length routes)%nat, (negb (vlan =? 0)%Z).
    - exists (processRoutes routes ++ bridgeVLANBlock vlan).
      now rewrite !append_assoc.
    - exists (processRoutes routes). now rewrite !append_assoc.
    - exists (bridgeVLANBlock vlan). now rewrite !append_assoc.
    - exists "". now rewrite append_nil_r. }
  split; [|split].
  - intros i. apply Hbridge.
  - intros b. apply Hbridge.
  - intros v. unfold vlanNetwork. cbn [Contents].
    set (pre := "[Match]" ++ _).
    exists pre.
    destruct (0 <? length (VLAN.Routes v))%nat.
    + exists (processRoutes (VLAN.Routes v)). now rewrite !append_assoc.
    + exists "". now rewrite append_nil_r.
Qed.

Ltac pick_case H :=
  apply In_addressLines in H;
  destruct H as [[? [H|H]] | [[? H] | [(? & ? & ? & H) | [H | [(? & ? & H)
                 | [(? & ? & H) | [(? & ? & H) | H]]]]]]].

(** C2. For every address-token list (tokens free of line feeds, as CIDR
    literals and the reserved tokens are), the lines written by
    [processAddresses] satisfy: a non-empty list gives
    [LinkLocalAddressing=ipv6], the empty list gives [LinkLocalAddressing=no]
    and [ConfigureWithoutCarrier=yes] and never [LinkLocalAddressing=ipv6];
    [IPv6AcceptRA=true] is a line exactly when [slaac] is a token and
    [IPv6AcceptRA=false] exactly when it is not; [DHCP=yes], [DHCP=ipv4],
    [DHCP=ipv6] or no [DHCP=] line at all follow the presence of [dhcp4] and
    [dhcp6]; every other token [a] is the line [Address=a], and every
    [Address=] line comes from such a token, never from a reserved one. *)
Theorem processAddresses_network_body (addresses : list string) :
  Forall (fun a => noLF a = true) addresses ->
  let body := lines (processAddresses addresses) in
  (addresses <> [] -> In "LinkLocalAddressing=ipv6" body) /\
  (addresses = [] ->
     In "LinkLocalAddressing=no" body /\
     In "ConfigureWithoutCarrier=yes" body /\
     ~ In "LinkLocalAddressing=ipv6" body) /\
  (In "IPv6AcceptRA=true" body <-> In "slaac" addresses) /\
  (In "IPv6AcceptRA=false" body <-> ~ In "slaac" addresses) /\
  (In "dhcp4" addresses -> In "dhcp6" addresses -> In "DHCP=yes" body) /\
  (In "dhcp4" addresses -> ~ In "dhcp6" addresses -> In "DHCP=ipv4" body) /\
  (~ In "dhcp4" addresses -> In "dhcp6" addresses -> In "DHCP=ipv6" body) /\
  (~ In "dhcp4" addresses -> ~ In "dhcp6" addresses ->
     forall l, In l body -> HasPrefix l "DHCP=" = false) /\
  (forall a, In a addresses -> reserved a = false ->
     In ("Address=" ++ a) body) /\
  (forall l, In l body -> HasPrefix l "Address=" = true ->
     exists a, In a addresses /\ reserved a = false /\ l = "Address=" ++ a) /\
  ~ In "Address=dhcp4" body /\
  ~ In "Address=dhcp6" body /\
  ~ In "Address=slaac" body.
Proof.
  intros Hnl body. subst body. rewrite (processAddresses_lines _ Hnl).
  assert (Hres : forall l, In l (addressLines addresses ++ [""])%list ->
            HasPrefix l "Address=" = true ->
            exists a, In a addresses /\ reserved a = false /\ l = "Address=" ++ a).
  { intros l Hl Hp. pick_case Hl; try (subst l; discriminate Hp).
    - eauto.
    - subst l. destruct (hasToken "slaac" addresses); discriminate Hp. }
  assert (Hnot : forall tok, reserved tok = true ->
            ~ In ("Address=" ++ tok) (addressLines addresses ++ [""])%list).
  { intros tok Ht Hin. destruct (Hres _ Hin (prefix_app _ _)) as (a & _ & Ha & E).
    apply append_inj_l in E. subst a. congruence. }
  repeat split.
  - intros N. apply In_addressLines. auto.
  - apply In_addressLines. subst. auto.
  - apply In_addressLines. subst. auto.
  - intros Hin. pick_case Hin; try discriminate; try congruence.
    subst. discriminate.
  - intros H. pick_case H; try discriminate.
    destruct (hasToken "slaac" addresses) eqn:E; [|discriminate].
    now apply hasToken_In.
  - intros H. apply hasToken_In in H. apply In_addressLines.
    do 3 right; left. now rewrite H.
  - intros H Hs. apply hasToken_In in Hs. pick_case H; try discriminate.
    rewrite Hs in H. discriminate.
  - intros H. apply hasToken_not_In in H. apply In_addressLines.
    do 3 right; left. now rewrite H.
  - intros H4 H6. apply hasToken_In in H4, H6. apply In_addressLines.
    do 4 right; left. auto.
  - intros H4 H6. apply hasToken_In in H4. apply hasToken_not_In in H6.
    apply In_addressLines. do 5 right; left. auto.
  - intros H4 H6. apply hasToken_not_In in H4. apply hasToken_In in H6.
    apply In_addressLines. do 6 right; left. auto.
  - intros H4 H6 l Hl. apply hasToken_not_In in H4, H6.
    pick_case Hl; subst l; try reflexivity; try congruence.
    destruct (hasToken "slaac" addresses); reflexivity.
  - intros a Ha Hr. apply In_addressLines. do 2 right; left. eauto.
  - exact Hres.
  - now apply Hnot.
  - now apply Hnot.
  - now apply Hnot.
Qed.

(** C2 at the list [["dhcp4"; "slaac"; "192.0.2.5/24"]]. *)
Lemma processAddresses_network_body_witness :
  let addresses := ["dhcp4"; "slaac"; "192.0.2.5/24"] in
  let body := lines (processAddresses addresses) in
  In "LinkLocalAddressing=ipv6" body /\
  In "IPv6AcceptRA=true" body /\
  In "DHCP=ipv4" body /\
  In "Address=192.0.2.5/24" body /\
  ~ In "Address=dhcp4" body.
Proof.
  intros addresses body.
  assert (Hnl : Forall (fun a => noLF a = true) addresses)
    by (repeat constructor).
  destruct (processAddresses_network_body addresses Hnl)
    as (H1 & _ & H3 & _ & _ & H6 & _ & _ & H9 & _ & H11 & _).
  repeat split.
  - apply H1. discriminate.
  - apply H3. cbn. auto.
  - apply H6; cbn; [auto|]. intros [E|[E|[E|[]]]]; discriminate.
  - apply (H9 "192.0.2.5/24"); cbn; auto.
  - exact H11.
Defined.

End Addresses.

(* ================================================================== *)
(** ** The route block *)

Section Routes.

Lemma routeStep_unlines (ret : string) (route : Route.t) :
  routeStep ret route = ret ++ unlines (routeLines route).
Proof.
  unfold routeStep, routeLines, gatewayLine, destinationLine.
  destruct (String.eqb (Route.Via route) "dhcp4");
    [|destruct (String.eqb (Route.Via route) "slaac")];
    cbn [unlines]; rewrite ?append_assoc, ?append_nil_r; reflexivity.
Qed.

Lemma fold_routeStep (routes : list Route.t) (ret : string) :
  fold_left routeStep routes ret = ret ++ unlines (flat_map routeLines routes).
Proof.
  revert ret. induction routes as [|r rs IH]; intros ret.
  - cbn. now rewrite append_nil_r.
  - cbn [fold_left flat_map]. rewrite IH, routeStep_unlines, unlines_app.
    now rewrite append_assoc.
Qed.

Lemma processRoutes_unlines (routes : list Route.t) :
  processRoutes routes =
  unlines ("" :: "[Route]" :: flat_map routeLines routes).
Proof.
  unfold processRoutes. rewrite fold_routeStep. cbn [unlines].
  now rewrite ?append_assoc.
Qed.

Lemma routeLines_noLF (routes : list Route.t) :
  Forall (fun r => routeOneLine r = true) routes ->
  Forall (fun l => noLF l = true) (flat_map routeLines routes).
Proof.
  induction 1 as [|r rs Hr _ IH]; [constructor|].
  apply andb_true_iff in Hr as [Hv Ht].
  cbn [flat_map routeLines app]. constructor; [|constructor; [|exact IH]].
  - unfold gatewayLine.
    destruct (String.eqb (Route.Via r) "dhcp4"); [reflexivity|].
    destruct (String.eqb (Route.Via r) "slaac"); [reflexivity|].
    cbn. exact Hv.
  - cbn. exact Ht.
Qed.

Lemma routeLines_plain (routes : list Route.t) :
  Forall (fun r => routeOneLine r = true) routes ->
  Forall (fun l => noLF l = true /\ HasPrefix l "DHCP=" = false)
         (flat_map routeLines routes).
Proof.
  intros H. pose proof (routeLines_noLF _ H) as Hnl.
  rewrite Forall_forall in *. intros l Hl. split; [now apply Hnl|].
  apply in_flat_map in Hl as (r & _ & [<- | [<- | []]]).
  - unfold gatewayLine.
    destruct (String.eqb (Route.Via r) "dhcp4"); [reflexivity|].
    destruct (String.eqb (Route.Via r) "slaac"); reflexivity.
  - reflexivity.
Qed.

(** C8. For every route list whose fields are free of line feeds, the
    text of [processRoutes] is the [[Route]] header followed, route by route
    and in order, by the gateway line ([Gateway=_dhcp4] for [dhcp4],
    [Gateway=_ipv6ra] for [slaac], [Gateway=<via>] otherwise) and directly
    after it [Destination=<to>]. *)
Theorem processRoutes_lines (routes : list Route.t) :
  Forall (fun r => routeOneLine r = true) routes ->
  lines (processRoutes routes) =
  (["" ; "[Route]"]
     ++ flat_map (fun r =>
          [ (if String.eqb (Route.Via r) "dhcp4" then "Gateway=_dhcp4"
             else if String.eqb (Route.Via r) "slaac" then "Gateway=_ipv6ra"
             else "Gateway=" ++ Route.Via r)%string;
            ("Destination=" ++ Route.To r)%string ]) routes
     ++ [""])%list.
Proof.
  intros H. rewrite processRoutes_unlines.
  rewrite lines_unlines.
  - reflexivity.
  - repeat constructor. now apply routeLines_noLF.
Qed.

(** C8 at the route [{to: "0.0.0.0/0", via: "dhcp4"}]. *)
Lemma processRoutes_lines_witness :
  lines (processRoutes [Route.mk "0.0.0.0/0" "dhcp4"]) =
  [""; "[Route]"; "Gateway=_dhcp4"; "Destination=0.0.0.0/0"; ""].
Proof.
  apply (processRoutes_lines [Route.mk "0.0.0.0/0" "dhcp4"]).
  repeat constructor.
Defined.

End Routes.

(* ================================================================== *)
(** ** The generated file lists *)

Section FileLists.

Context {unicode : Unicode}.

Lemma fold_bondMembersStep (b : Bond.t) (members : list string)
  (ret : list networkdConfigFile) (index : nat) :
  fst (fold_left (bondMembersStep b) members (ret, index)) =
  (ret ++ bondMemberFiles b index members)%list.
Proof.
  revert ret index. induction members as [|m ms IH]; intros ret index.
  - cbn. now rewrite app_nil_r.
  - cbn [fold_left bondMemberFiles]. unfold bondMembersStep at 2.
    cbn [fst snd]. rewrite IH. now rewrite <- app_assoc.
Qed.

Lemma In_bondMemberFiles (b : Bond.t) (f : networkdConfigFile)
  (members : list string) (index : nat) :
  In f (bondMemberFiles b index members) ->
  exists i m, In m members /\ f = bondMemberNetwork b i m.
Proof.
  revert index. induction members as [|m ms IH]; intros index H.
  - destruct H.
  - destruct H as [<- | H].
    + exists index, m. split; [now left | reflexivity].
    + destruct (IH _ H) as (i & m' & Hm & E). exists i, m'.
      split; [now right | exact E].
Qed.

Lemma generateLinkFileContents_eq (cfg : SystemNetworkConfig) :
  generateLinkFileContents cfg =
  (map (fun i => linkFile "00" (Interface.Hwaddr i)) (Interfaces cfg)
   ++ flat_map (fun b => map (linkFile "01") (Bond.Members b)) (Bonds cfg))%list.
Proof.
  unfold generateLinkFileContents.
  rewrite (fold_left_append _
             (fun i => [linkFile "00" (Interface.Hwaddr i)]))
    by reflexivity.
  rewrite (fold_left_append _
             (fun b => map (linkFile "01") (Bond.Members b))).
  - cbn [app]. now rewrite flat_map_single.
  - intros ret b.
    rewrite (fold_left_append _ (fun m => [linkFile "01" m])) by reflexivity.
    now rewrite flat_map_single.
Qed.

Lemma generateNetdevFileContents_eq (cfg : SystemNetworkConfig) :
  generateNetdevFileContents cfg =
  (map interfaceNetdev (Interfaces cfg)
   ++ flat_map (fun b => [bondNetdev b; bondBridgeNetdev b]) (Bonds cfg)
   ++ map vlanNetdev (VLANs cfg))%list.
Proof.
  unfold generateNetdevFileContents.
  rewrite (fold_left_append _ (fun i => [interfaceNetdev i])) by reflexivity.
  rewrite (fold_left_append _ (fun b => [bondNetdev b; bondBridgeNetdev b]))
    by (intros; now rewrite <- app_assoc).
  rewrite (fold_left_append _ (fun v => [vlanNetdev v])) by reflexivity.
  cbn [app]. now rewrite !flat_map_single, <- app_assoc.
Qed.

Lemma generateNetworkFileContents_eq (cfg : SystemNetworkConfig) :
  generateNetworkFileContents cfg =
  (flat_map (fun i => [interfaceNetwork (DNS cfg) (NTP cfg) i;
                       interfaceBridgeNetwork i]) (Interfaces cfg)
   ++ flat_map (bondNetworkFiles (DNS cfg) (NTP cfg)) (Bonds cfg)
   ++ map (vlanNetwork (DNS cfg) (NTP cfg)) (VLANs cfg))%list.
Proof.
  unfold generateNetworkFileContents.
  rewrite (fold_left_append _
             (fun i => [interfaceNetwork (DNS cfg) (NTP cfg) i;
                        interfaceBridgeNetwork i]))
    by (intros; now rewrite <- app_assoc).
  rewrite (fold_left_append _ (bondNetworkFiles (DNS cfg) (NTP cfg))).
  - rewrite (fold_left_append _ (fun v => [vlanNetwork (DNS cfg) (NTP cfg) v]))
      by reflexivity.
    cbn [app]. now rewrite flat_map_single, <- app_assoc.
  - intros ret b. cbv zeta. rewrite fold_bondMembersStep.
    unfold bondNetworkFiles. now rewrite <- !app_assoc.
Qed.

Example sampleConfig_file_names :
  map Name (generateLinkFileContents sampleConfig
            ++ generateNetdevFileContents sampleConfig
            ++ generateNetworkFileContents sampleConfig)%list
  = [ "00-enaabbccddeeff.link";
      "01-en020000000002.link"; "01-en020000000003.link";
      "10-braabbccddeeff.netdev";
      "11-bn020000000001.netdev"; "11-br020000000001.netdev";
      "12-vlmgmt.netdev";
      "20-eth0.network"; "20-braabbccddeeff.network";
      "21-bond0.network"; "21-br020000000001.network";
      "21-bn020000000001-dev0.network"; "21-bn020000000001-dev1.network";
      "22-vlmgmt.network" ].
Proof. reflexivity. Qed.

End FileLists.

(* ================================================================== *)
(** ** Which [.network] artifacts carry the [[DHCP]] block *)

Section DHCPBlock.

Context {unicode : Unicode}.

Lemma interfaceBridgeNetwork_unlines (i : Interface.t) :
  Contents (interfaceBridgeNetwork i) = unlines (interfaceBridgeNetworkLines i).
Proof.
  unfold interfaceBridgeNetwork, interfaceBridgeNetworkLines.
  cbn [Contents unlines]. rewrite ?append_assoc, ?append_nil_r. reflexivity.
Qed.

Lemma bondBridgeNetwork_unlines (b : Bond.t) :
  Contents (bondBridgeNetwork b) = unlines (bondBridgeNetworkLines b).
Proof.
  unfold bondBridgeNetwork, bondBridgeNetworkLines.
  cbn [Contents unlines]. rewrite ?append_assoc, ?append_nil_r. reflexivity.
Qed.

Lemma bondMemberNetwork_unlines (b : Bond.t) (index : nat) (member : string) :
  Contents (bondMemberNetwork b index member) =
  unlines (bondMemberNetworkLines b member).
Proof.
  unfold bondMemberNetwork, bondMemberNetworkLines.
  cbn [Contents unlines]. rewrite ?append_assoc, ?append_nil_r. reflexivity.
Qed.

Lemma bridgeNetworkContents_block (dns : option DNS.t) (ntp : option NTP.t)
  (name : string) (addresses : list string) (routes : list Route.t)
  (vlan : Z) :
  Contains (bridgeNetworkContents dns ntp name addresses routes vlan)
           dhcpThenNetwork = true.
Proof.
  unfold bridgeNetworkContents.
  set (sect := generateNetworkSectionContents dns ntp).
  set (addr := processAddresses addresses).
  set (rts := processRoutes routes).
  set (blk := bridgeVLANBlock vlan).
  assert (E : forall tail : string,
             ((("[Match]" ++ LF ++ "Name=" ++ name ++ LF ++ LF ++ dhcpBlock
                  ++ LF ++ "[Network]" ++ LF ++ sect) ++ addr) ++ tail)
             = ("[Match]" ++ LF ++ "Name=" ++ name ++ LF)
                 ++ dhcpThenNetwork ++ (sect ++ addr ++ tail)).
  { intros tail. unfold dhcpThenNetwork.
    rewrite ?append_assoc. reflexivity. }
  destruct (0 <? length routes)%nat, (negb (vlan =? 0)%Z).
  - rewrite append_assoc, E. apply Contains_app.
  - rewrite E. apply Contains_app.
  - rewrite E. apply Contains_app.
  - rewrite <- (append_nil_r (_ ++ addr)), E. apply Contains_app.
Qed.

Lemma vlanNetwork_block (dns : option DNS.t) (ntp : option NTP.t)
  (v : VLAN.t) :
  Contains (Contents (vlanNetwork dns ntp v)) dhcpThenNetwork = true.
Proof.
  unfold vlanNetwork. cbn [Contents].
  set (sect := generateNetworkSectionContents dns ntp).
  set (addr := processAddresses (VLAN.Addresses v)).
  set (rts := processRoutes (VLAN.Routes v)).
  assert (E : forall tail : string,
             (("[Match]" ++ LF ++ "Name=" ++ VLAN.Parent v ++ LF ++ LF
                 ++ dhcpBlock ++ LF ++ "[Network]" ++ LF
                 ++ "VLAN=vl" ++ VLAN.Name v ++ LF ++ sect) ++ addr) ++ tail
             = ("[Match]" ++ LF ++ "Name=" ++ VLAN.Parent v ++ LF)
                 ++ dhcpThenNetwork
                 ++ ("VLAN=vl" ++ VLAN.Name v ++ LF ++ sect ++ addr ++ tail)).
  { intros tail. unfold dhcpThenNetwork.
    rewrite ?append_assoc. reflexivity. }
  destruct (0 <? length (VLAN.Routes v))%nat.
  - rewrite E. apply Contains_app.
  - rewrite <- (append_nil_r (_ ++ addr)), E. apply Contains_app.
Qed.

Ltac no_such_line H :=
  cbn in H;
  repeat (destruct H as [H|H]; [discriminate H|]); try contradiction.

Lemma interfaceBridgeNetwork_no_DHCP (i : Interface.t) :
  interfaceOneLine i = true ->
  ~ In "[DHCP]" (lines (Contents (interfaceBridgeNetwork i))).
Proof.
  intros Hw. apply andb_true_iff in Hw as [Hn Hh].
  rewrite interfaceBridgeNetwork_unlines, lines_unlines.
  - intros H. no_such_line H.
  - unfold interfaceBridgeNetworkLines.
    repeat constructor; cbn;
      auto using noLF_strippedHwaddr, noLF_FormatBool.
Qed.

Lemma bondBridgeNetwork_no_DHCP (b : Bond.t) :
  bondOneLine b = true ->
  ~ In "[DHCP]" (lines (Contents (bondBridgeNetwork b))).
Proof.
  intros Hw. apply andb_true_iff in Hw as [Hn Hw].
  apply andb_true_iff in Hw as [Hh _].
  rewrite bondBridgeNetwork_unlines, lines_unlines.
  - intros H. no_such_line H.
  - unfold bondBridgeNetworkLines.
    repeat constructor; cbn; auto using noLF_strippedHwaddr.
Qed.

Lemma bondMemberNetwork_no_DHCP (b : Bond.t) (index : nat) (m : string) :
  bondOneLine b = true -> In m (Bond.Members b) ->
  ~ In "[DHCP]" (lines (Contents (bondMemberNetwork b index m))).
Proof.
  intros Hw Hm. apply andb_true_iff in Hw as [Hn Hw].
  apply andb_true_iff in Hw as [Hh Hms].
  rewrite forallb_forall in Hms.
  rewrite bondMemberNetwork_unlines, lines_unlines.
  - intros H. no_such_line H.
  - unfold bondMemberNetworkLines.
    repeat constructor; cbn;
      auto using noLF_strippedHwaddr, noLF_FormatBool.
Qed.

(** C5, as the code has it. Every generated [.network] artifact is either
    an addressing artifact (of an interface, a bond or a VLAN), and then its
    text contains the lines [[DHCP]], [ClientIdentifier=mac],
    [RouteMetric=100], [UseMTU=true], a blank line and [[Network]], one
    after the other; or it is a binding artifact (bridge binding of an
    interface or of a bond, or a bond member), and then it has a [[Match]]
    line and a [[Network]] line and, when the names and hardware addresses
    of its device hold no line feed, no [[DHCP]] line. *)
Theorem network_artifact_dhcp_block (cfg : SystemNetworkConfig)
  (f : networkdConfigFile) :
  In f (generateNetworkFileContents cfg) ->
  (addressingArtifact cfg f /\
   Contains (Contents f) dhcpThenNetwork = true)
  \/
  (exists oneLine, bindingArtifact cfg f oneLine /\
     In "[Match]" (lines (Contents f)) /\
     In "[Network]" (lines (Contents f)) /\
     (oneLine = true -> ~ In "[DHCP]" (lines (Contents f)))).
Proof.
  rewrite generateNetworkFileContents_eq, !in_app_iff, !in_flat_map, in_map_iff.
  intros [(i & Hi & Hf) | [(b & Hb & Hf) | (v & <- & Hv)]].
  - destruct Hf as [<- | [<- | []]].
    + left. split; [left; eauto|]. apply bridgeNetworkContents_block.
    + right. exists (interfaceOneLine i). split; [left; eauto|]. split; [|split].
      * rewrite interfaceBridgeNetwork_unlines.
        apply In_lines_unlines; [reflexivity | cbn; auto].
      * rewrite interfaceBridgeNetwork_unlines.
        apply In_lines_unlines; [reflexivity | cbn; auto].
      * apply interfaceBridgeNetwork_no_DHCP.
  - destruct Hf as [<- | [<- | Hm]].
    + left. split; [right; left; eauto|]. apply bridgeNetworkContents_block.
    + right. exists (bondOneLine b). split; [right; left; eauto|]. split; [|split].
      * rewrite bondBridgeNetwork_unlines.
        apply In_lines_unlines; [reflexivity | cbn; auto].
      * rewrite bondBridgeNetwork_unlines.
        apply In_lines_unlines; [reflexivity | cbn; auto].
      * apply bondBridgeNetwork_no_DHCP.
    + apply In_bondMemberFiles in Hm as (idx & m & Hm & ->).
      right. exists (bondOneLine b).
      split; [right; right; exists b, idx, m; auto|]. split; [|split].
      * rewrite bondMemberNetwork_unlines.
        apply In_lines_unlines; [reflexivity | cbn; auto].
      * rewrite bondMemberNetwork_unlines.
        apply In_lines_unlines; [reflexivity | cbn; auto].
      * intros Hw. now apply bondMemberNetwork_no_DHCP.
  - left. split; [right; right; eauto|]. apply vlanNetwork_block.
Qed.


End DHCPBlock.

Section DHCPBlockExamples.

#[local] Existing Instance noCasePairs.

(** C5 at the bridge-binding artifact of the interface of [sampleConfig]. *)
Lemma network_artifact_dhcp_block_witness :
  let i := Interface.mk "eth0" "aa:bb:cc:dd:ee:ff" 0 ["dhcp4"] [] 0 false in
  let f := interfaceBridgeNetwork i in
  In f (generateNetworkFileContents sampleConfig) /\
  ((addressingArtifact sampleConfig f /\
    Contains (Contents f) dhcpThenNetwork = true)
   \/
   (exists oneLine, bindingArtifact sampleConfig f oneLine /\
      In "[Match]" (lines (Contents f)) /\
      In "[Network]" (lines (Contents f)) /\
      (oneLine = true -> ~ In "[DHCP]" (lines (Contents f))))).
Proof.
  cbv zeta.
  assert (H : In (interfaceBridgeNetwork
                    (Interface.mk "eth0" "aa:bb:cc:dd:ee:ff" 0 ["dhcp4"] [] 0
                                  false))
                 (generateNetworkFileContents sampleConfig))
    by (cbn; auto).
  split; [exact H|].
  exact (network_artifact_dhcp_block sampleConfig _ H).
Defined.

(** C5 as the specification words it fails: the bridge-binding artifact of
    an interface is a generated [.network] artifact and the text [[DHCP]]
    occurs nowhere in it. *)
Lemma bridge_binding_without_dhcp_block :
  let cfg :=
    {| Interfaces :=
         [Interface.mk "eth0" "aa:bb:cc:dd:ee:ff" 0 ["dhcp4"] [] 0 false];
       Bonds := []; VLANs := []; DNS := None; NTP := None; Proxy := None |} in
  let f :=
    {| Name := "20-braabbccddeeff.network";
       Contents :=
         unlines ["[Match]"; "Name=enaabbccddeeff"; ""; "[Network]";
                  "Bridge=eth0"; "LLDP=false"; "EmitLLDP=false"] |} in
  In f (generateNetworkFileContents cfg) /\
  Contains (Contents f) "[DHCP]" = false /\
  Contains (Contents f) dhcpThenNetwork = false.
Proof.
  cbv zeta. split; [|split].
  - vm_compute. right. left. reflexivity.
  - vm_compute. reflexivity.
  - vm_compute. reflexivity.
Qed.

End DHCPBlockExamples.

(* ================================================================== *)
(** ** One interface, end to end *)

Section EndToEnd.

Context {unicode : Unicode}.

Lemma generateNetworkSectionContents_unlines
  (dns : option DNS.t) (ntp : option NTP.t) :
  generateNetworkSectionContents dns ntp =
  unlines (networkSectionLines dns ntp).
Proof.
  unfold generateNetworkSectionContents, networkSectionLines.
  rewrite unlines_app.
  assert (Hd : forall (pre : string) (xs : list string) (ret : string),
             fold_left (fun ret x => ret ++ pre ++ x ++ LF) xs ret
             = ret ++ unlines (map (fun x => pre ++ x) xs)).
  { intros pre xs ret.
    rewrite (fold_left_unlines _ (fun x => [pre ++ x])).
    - now rewrite flat_map_single.
    - intros r x. cbn [unlines]. now rewrite append_assoc, append_nil_r. }
  destruct dns as [d|], ntp as [n|].
  - rewrite (Hd "NTP="), (Hd "DNS="), unlines_app.
    destruct (0 <? length (DNS.SearchDomains d))%nat;
      cbn [unlines]; rewrite ?append_assoc, ?append_nil_r; reflexivity.
  - rewrite (Hd "DNS="), unlines_app.
    destruct (0 <? length (DNS.SearchDomains d))%nat;
      cbn [unlines]; rewrite ?append_assoc, ?append_nil_r; reflexivity.
  - rewrite (Hd "NTP="). reflexivity.
  - reflexivity.
Qed.

Lemma bridgeNetworkContents_unlines
  (dns : option DNS.t) (ntp : option NTP.t)
  (name : string) (addresses : list string) (routes : list Route.t)
  (vlan : Z) :
  bridgeNetworkContents dns ntp name addresses routes vlan =
  unlines (bridgeNetworkLines dns ntp name addresses routes vlan).
Proof.
  unfold bridgeNetworkContents, bridgeNetworkLines.
  rewrite generateNetworkSectionContents_unlines, processAddresses_unlines,
    processRoutes_unlines.
  rewrite !unlines_app.
  set (sect := unlines (networkSectionLines dns ntp)).
  set (addr := unlines (addressLines addresses)).
  set (rts := unlines ("" :: "[Route]" :: flat_map routeLines routes)).
  unfold bridgeVLANBlock, dhcpBlock.
  destruct (0 <? length routes)%nat, (negb (vlan =? 0)%Z);
    fold rts; cbn [unlines];
    rewrite ?append_assoc, ?append_nil_r; reflexivity.
Qed.

(** No line of the [[Network]] section written from DNS and NTP settings
    starts with [DHCP=], and none holds a line feed. *)
Lemma networkSectionLines_plain (dns : option DNS.t) (ntp : option NTP.t) :
  dnsOneLine dns = true -> ntpOneLine ntp = true ->
  Forall (fun l => noLF l = true /\ HasPrefix l "DHCP=" = false)
         (networkSectionLines dns ntp).
Proof.
  intros Hd Hn. unfold networkSectionLines. rewrite !Forall_app. split.
  - destruct dns as [d|]; [|constructor].
    cbn in Hd. apply andb_true_iff in Hd as [Hs Hns].
    rewrite Forall_app. split.
    + destruct (0 <? length (DNS.SearchDomains d))%nat; constructor;
        [|constructor].
      split; [cbn; now apply noLF_Join | reflexivity].
    + rewrite Forall_map, Forall_forall. rewrite forallb_forall in Hns.
      intros ns Hin. split; [cbn; now apply Hns | reflexivity].
  - destruct ntp as [n|]; [|constructor].
    cbn in Hn. rewrite forallb_forall in Hn.
    rewrite Forall_map, Forall_forall.
    intros ts Hin. split; [cbn; now apply Hn | reflexivity].
Qed.

(** C7, as the code has it. A configuration with exactly one interface
    (hwaddr [aa:bb:cc:dd:ee:ff], name [eth-main], addresses
    [["192.0.2.5/24"]]) gives one link artifact that matches
    [PermanentMACAddress=aa:bb:cc:dd:ee:ff] and renames the device to
    [enaabbccddeeff] (the address in lower case without its colons, after
    [en]); one netdev artifact, a bridge named [eth-main]; and the network
    artifact [20-eth-main.network] with the line [Address=192.0.2.5/24] and
    no line that starts with [DHCP=]. Routes, DNS and NTP settings are free
    of line feeds. *)
Theorem end_to_end_single_interface
  (mtu : Z) (routes : list Route.t) (vlan : Z) (lldp : bool)
  (dns : option DNS.t) (ntp : option NTP.t) (proxy : option Proxy.t) :
  Forall (fun r => routeOneLine r = true) routes ->
  dnsOneLine dns = true ->
  ntpOneLine ntp = true ->
  let cfg := endToEndConfig mtu routes vlan lldp dns ntp proxy in
  generateLinkFileContents cfg =
    [ {| Name := "00-enaabbccddeeff.link";
         Contents :=
           unlines [ "[Match]"; "PermanentMACAddress=aa:bb:cc:dd:ee:ff"; "";
                     "[Link]"; "NamePolicy="; "Name=enaabbccddeeff" ] |} ]
  /\ map Name (generateNetdevFileContents cfg) = ["10-braabbccddeeff.netdev"]
  /\ map (fun f => lines (Contents f)) (generateNetdevFileContents cfg) =
       [ [ "[NetDev]"; "Name=eth-main"; "Kind=bridge";
           "MACAddress=aa:bb:cc:dd:ee:ff"; mtuString mtu; "";
           "[Bridge]"; "VLANFiltering=true"; "" ] ]
  /\ exists f,
       In f (generateNetworkFileContents cfg) /\
       Name f = "20-eth-main.network" /\
       In "Address=192.0.2.5/24" (lines (Contents f)) /\
       forall l, In l (lines (Contents f)) -> HasPrefix l "DHCP=" = false.
Proof.
  intros Hr Hd Hn cfg. subst cfg. split; [reflexivity|].
  split; [reflexivity|]. split.
  - cbn [generateNetdevFileContents endToEndConfig Interfaces Bonds VLANs
           fold_left app map interfaceNetdev Contents Interface.Name
           Interface.Hwaddr Interface.MTU].
    unfold bridgeNetdevContents.
    change ("[NetDev]" ++ LF ++ "Name=" ++ "eth-main" ++ LF ++ "Kind=bridge"
              ++ LF ++ "MACAddress=" ++ "aa:bb:cc:dd:ee:ff" ++ LF
              ++ mtuString mtu ++ LF ++ LF ++ "[Bridge]" ++ LF
              ++ "VLANFiltering=true" ++ LF)
      with (unlines [ "[NetDev]"; "Name=eth-main"; "Kind=bridge";
                      "MACAddress=aa:bb:cc:dd:ee:ff" ]
              ++ mtuString mtu ++ LF
              ++ unlines [""; "[Bridge]"; "VLANFiltering=true"]).
    rewrite lines_unlines_app by (repeat constructor).
    rewrite lines_app_LF, (lines_noLF _ (noLF_mtuString mtu)).
    reflexivity.
  - pose proof (networkSectionLines_plain dns ntp Hd Hn) as Hsect.
    pose proof (routeLines_plain routes Hr) as Hrts.
    set (i := Interface.mk "eth-main" "aa:bb:cc:dd:ee:ff" mtu
                ["192.0.2.5/24"] routes vlan lldp).
    exists (interfaceNetwork dns ntp i).
    assert (Hall : Forall (fun l => noLF l = true /\ HasPrefix l "DHCP=" = false)
                     (bridgeNetworkLines dns ntp "eth-main" ["192.0.2.5/24"]
                        routes vlan)).
    { unfold bridgeNetworkLines. rewrite !Forall_app. repeat split.
      - repeat constructor.
      - exact Hsect.
      - repeat constructor.
      - destruct (0 <? length routes)%nat; repeat constructor. exact Hrts.
      - destruct (negb (vlan =? 0)%Z); repeat constructor.
        cbn. apply noLF_FormatInt. }
    assert (Hlines : lines (Contents (interfaceNetwork dns ntp i)) =
              (bridgeNetworkLines dns ntp "eth-main" ["192.0.2.5/24"]
                 routes vlan ++ [""])%list).
    { cbn [interfaceNetwork Contents i Interface.Name Interface.Addresses
             Interface.Routes Interface.VLAN].
      rewrite bridgeNetworkContents_unlines. apply lines_unlines.
      eapply Forall_impl; [|exact Hall]. now intros l [Hl _]. }
    split; [|split; [reflexivity|split]].
    + rewrite generateNetworkFileContents_eq. cbn. auto.
    + rewrite Hlines. unfold bridgeNetworkLines.
      apply in_or_app. left. apply in_or_app. right.
      apply in_or_app. right. apply in_or_app. left. cbn. auto.
    + rewrite Hlines. intros l Hl. apply in_app_or in Hl as [Hl | Hl].
      * rewrite Forall_forall in Hall. now apply Hall.
      * destruct Hl as [<- | []]. reflexivity.
Qed.


End EndToEnd.

Section EndToEndExamples.

#[local] Existing Instance noCasePairs.

(** C7 at the configuration whose other settings are all zero. *)
Lemma end_to_end_single_interface_witness :
  let cfg := endToEndConfig 0 [] 0 false None None None in
  generateLinkFileContents cfg =
    [ {| Name := "00-enaabbccddeeff.link";
         Contents :=
           unlines [ "[Match]"; "PermanentMACAddress=aa:bb:cc:dd:ee:ff"; "";
                     "[Link]"; "NamePolicy="; "Name=enaabbccddeeff" ] |} ]
  /\ map Name (generateNetdevFileContents cfg) = ["10-braabbccddeeff.netdev"]
  /\ map (fun f => lines (Contents f)) (generateNetdevFileContents cfg) =
       [ [ "[NetDev]"; "Name=eth-main"; "Kind=bridge";
           "MACAddress=aa:bb:cc:dd:ee:ff"; ""; "";
           "[Bridge]"; "VLANFiltering=true"; "" ] ]
  /\ exists f,
       In f (generateNetworkFileContents cfg) /\
       Name f = "20-eth-main.network" /\
       In "Address=192.0.2.5/24" (lines (Contents f)) /\
       forall l, In l (lines (Contents f)) -> HasPrefix l "DHCP=" = false.
Proof.
  apply (end_to_end_single_interface 0 [] 0 false None None None).
  - constructor.
  - reflexivity.
  - reflexivity.
Defined.

(** C7 as the specification words it fails: the link artifact of that
    configuration renames the device to [enaabbccddeeff]; the name
    [eneabbccddeeff] occurs nowhere in it. *)
Lemma link_name_not_eneabbccddeeff :
  let cfg := endToEndConfig 0 [] 0 false None None None in
  let contents :=
    unlines [ "[Match]"; "PermanentMACAddress=aa:bb:cc:dd:ee:ff"; "";
              "[Link]"; "NamePolicy="; "Name=enaabbccddeeff" ] in
  map Contents (generateLinkFileContents cfg) = [contents] /\
  ~ In "Name=eneabbccddeeff" (lines contents) /\
  Contains contents "eneabbccddeeff" = false /\
  In "Name=enaabbccddeeff" (lines contents).
Proof.
  cbv zeta. split; [reflexivity|]. split; [|split].
  - vm_compute. intros H.
    repeat (destruct H as [H|H]; [discriminate H|]). exact H.
  - vm_compute. reflexivity.
  - vm_compute. auto 10.
Qed.

End EndToEndExamples.

(* ================================================================== *)
(** ** The convergence wait *)

Section WaiterFacts.

Context {unicode : Unicode} {env : WaitEnv}.

Lemma pollDevices_spec {A : Type} (name : A -> string) (devices : list A)
  (k : nat) (all any : bool) (evs : list WaitEvent) :
  fold_left
    (fun '(allRoutable, atLeastOneRoutable, evs) d =>
       let routable := isRoutable k (name d) in
       (andb allRoutable routable, orb atLeastOneRoutable routable,
        (evs ++ [Queried (name d)])%list))
    devices (all, any, evs)
  = (andb all (forallb (isRoutable k) (map name devices)),
     orb any (existsb (isRoutable k) (map name devices)),
     (evs ++ map (fun d => Queried (name d)) devices)%list).
Proof.
  revert all any evs. induction devices as [|d ds IH]; intros all any evs.
  - cbn. now rewrite andb_true_r, orb_false_r, app_nil_r.
  - cbn [fold_left map forallb existsb]. rewrite IH.
    now rewrite andb_assoc, orb_assoc, <- app_assoc.
Qed.

Lemma pollCategory_spec {A : Type} (name : A -> string) (devices : list A)
  (requireAll : bool) (k : nat) (evs : list WaitEvent) :
  pollCategory name devices requireAll k evs
  = (negb (categoryVerdict requireAll (isRoutable k) (map name devices)),
     (evs ++ map (fun d => Queried (name d)) devices)%list).
Proof.
  unfold pollCategory, pollDevices. destruct devices as [|d ds].
  - cbn. now rewrite app_nil_r.
  - change (0 <? length (d :: ds))%nat with true. cbv iota.
    rewrite pollDevices_spec. cbn [andb orb].
    unfold mustContinue, categoryVerdict. cbn [map].
    destruct requireAll; cbn [andb orb negb];
      now rewrite ?orb_false_r.
Qed.

Lemma pollCycle_verdict (networkCfg : SystemNetworkConfig)
  (requireAll : bool) (k : nat) (evs : list WaitEvent) :
  fst (pollCycle networkCfg requireAll k evs)
  = cycleVerdict requireAll (isRoutable k) networkCfg.
Proof.
  unfold pollCycle, cycleVerdict. rewrite pollCategory_spec.
  destruct (categoryVerdict requireAll (isRoutable k)
              (map Interface.Name (Interfaces networkCfg))); cbn [negb andb];
    [|reflexivity].
  rewrite pollCategory_spec.
  destruct (categoryVerdict requireAll (isRoutable k)
              (map Bond.Name (Bonds networkCfg))); cbn [negb andb];
    [|reflexivity].
  rewrite pollCategory_spec.
  destruct (categoryVerdict requireAll (isRoutable k)
              (map VLAN.Name (VLANs networkCfg))); reflexivity.
Qed.

Lemma pollCycle_events (networkCfg : SystemNetworkConfig)
  (requireAll : bool) (k : nat) (evs : list WaitEvent) :
  snd (pollCycle networkCfg requireAll k evs)
  = (evs ++ map Queried (queriedNames networkCfg requireAll (isRoutable k)))%list.
Proof.
  unfold pollCycle, queriedNames. rewrite pollCategory_spec.
  rewrite !map_app, !map_map.
  destruct (categoryVerdict requireAll _ (map Interface.Name _));
    cbn [negb snd]; [|now rewrite app_nil_r].
  rewrite pollCategory_spec.
  destruct (categoryVerdict requireAll _ (map Bond.Name _));
    cbn [negb snd]; [|now rewrite map_app, !map_map, app_nil_r, app_assoc].
  rewrite pollCategory_spec.
  destruct (categoryVerdict requireAll _ (map VLAN.Name _));
    cbn [negb snd]; now rewrite !map_app, !map_map, !app_assoc.
Qed.

(** If the [n] cycles from the current one on all start by the deadline and
    fail, the loop reaches cycle [cycle st + n] and returns there: the
    timeout error if the clock is past the deadline, [nil] if it is not and
    the verdict holds. *)
Lemma waitLoop_reaches (networkCfg : SystemNetworkConfig) (requireAll : bool)
  (endTime : Z) (n : nat) :
  forall (fuel : nat) (st : WaitState),
    (forall j, (j < n)%nat ->
       (nowAt (cycle st + j) <= endTime)%Z /\ verdictAt networkCfg requireAll (cycle st + j) = false) ->
    (n < fuel)%nat ->
    ((nowAt (cycle st + n) > endTime)%Z ->
       exists evs,
         waitLoop fuel endTime networkCfg requireAll st
         = Some (Some timedOut, mkWaitState (cycle st + n) evs))
    /\
    ((nowAt (cycle st + n) <= endTime)%Z ->
     verdictAt networkCfg requireAll (cycle st + n) = true ->
       exists evs,
         waitLoop fuel endTime networkCfg requireAll st
         = Some (None, mkWaitState (cycle st + n) evs)).
Proof.
  induction n as [|n IH]; intros fuel st Hfail Hfuel;
    (destruct fuel as [|fuel]; [lia|]); cbn [waitLoop].
  - rewrite Nat.add_0_r. split.
    + intros Hlate. apply Z.gtb_gt in Hlate. rewrite Hlate. eauto.
    + intros Hin Hok.
      assert (E : (nowAt (cycle st) >? endTime)%Z = false)
        by (rewrite Z.gtb_ltb; apply Z.ltb_ge; lia).
      rewrite E.
      destruct (pollCycle networkCfg requireAll (cycle st) _) as [done evs] eqn:P.
      pose proof (pollCycle_verdict networkCfg requireAll (cycle st)
                    ((events st ++ [ReadClock (nowAt (cycle st))])
                       ++ [Slept (500 * Millisecond)])%list) as V.
      rewrite P in V. cbn in V. unfold verdictAt in Hok.
      rewrite V, Hok. eauto.
  - destruct (Hfail 0%nat ltac:(lia)) as [Hin Hno].
    rewrite Nat.add_0_r in Hin, Hno.
    assert (E : (nowAt (cycle st) >? endTime)%Z = false)
      by (rewrite Z.gtb_ltb; apply Z.ltb_ge; lia).
    rewrite E.
    destruct (pollCycle networkCfg requireAll (cycle st) _) as [done evs] eqn:P.
    pose proof (pollCycle_verdict networkCfg requireAll (cycle st)
                  ((events st ++ [ReadClock (nowAt (cycle st))])
                     ++ [Slept (500 * Millisecond)])%list) as V.
    rewrite P in V. cbn in V. unfold verdictAt in Hno.
    rewrite V, Hno.
    specialize (IH fuel (mkWaitState (S (cycle st)) evs)).
    cbn [cycle] in IH.
    replace (cycle st + S n)%nat with (S (cycle st) + n)%nat by lia.
    apply IH; [|lia].
    intros j Hj. replace (S (cycle st) + j)%nat with (cycle st + S j)%nat by lia.
    apply Hfail. lia.
Qed.

(** The least index at which a test holds, below an index where it
    holds. *)
Lemma least_index (P : nat -> bool) (n : nat) :
  P n = true ->
  exists k, (k <= n)%nat /\ P k = true /\ forall j, (j < k)%nat -> P j = false.
Proof.
  revert P. induction n as [|n IH]; intros P Hn.
  - exists 0%nat. repeat split; [lia | exact Hn | intros j Hj; lia].
  - destruct (P 0%nat) eqn:P0.
    + exists 0%nat. repeat split; [lia | exact P0 | intros j Hj; lia].
    + destruct (IH (fun k => P (S k)) Hn) as (k & Hk & Pk & Hlt).
      exists (S k). repeat split; [lia | exact Pk |].
      intros [|j] Hj; [exact P0 | apply Hlt; lia].
Qed.

Lemma categoryVerdict_none (requireAll : bool) (routable : string -> bool)
  (names : list string) :
  (forall n, routable n = false) -> names <> [] ->
  categoryVerdict requireAll routable names = false.
Proof.
  intros Hr Hn. destruct names as [|n ns]; [now elim Hn|].
  unfold categoryVerdict. destruct requireAll.
  - cbn. now rewrite Hr.
  - apply not_true_is_false. intros H.
    apply existsb_exists in H as (x & _ & Hx). rewrite Hr in Hx. discriminate.
Qed.

Lemma verdictAt_cancelled (networkCfg : SystemNetworkConfig)
  (requireAll : bool) (k : nat) :
  hasDevices networkCfg = true -> ctxDone k = true ->
  verdictAt networkCfg requireAll k = false.
Proof.
  intros Hd Hc.
  assert (Hr : forall n, isRoutable k n = false).
  { intros n. unfold isRoutable, runNetworkctlStatus. now rewrite Hc. }
  unfold verdictAt, cycleVerdict. unfold hasDevices in Hd.
  destruct (Interfaces networkCfg) as [|i ifs] eqn:Ei.
  - destruct (Bonds networkCfg) as [|b bs] eqn:Eb.
    + destruct (VLANs networkCfg) as [|v vs] eqn:Ev; [discriminate Hd|].
      rewrite (categoryVerdict_none _ _ (map VLAN.Name (v :: vs)) Hr)
        by discriminate.
      now rewrite !andb_false_r.
    + rewrite (categoryVerdict_none _ _ (map Bond.Name (b :: bs)) Hr)
        by discriminate.
      now rewrite andb_false_r.
  - rewrite (categoryVerdict_none _ _ (map Interface.Name (i :: ifs)) Hr)
      by discriminate.
    reflexivity.
Qed.

Lemma vl_prefix_differs (name : string) : "vl" ++ name <> name.
Proof.
  intros E. apply (f_equal String.length) in E. cbn in E. lia.
Qed.

(** *** The clock *)

Section Clock.

(** The deadline is computed before the first turn, and each turn sleeps
    for 500 milliseconds. *)
Hypothesis start_before_loop : (startTime <= nowAt 0)%Z.

Hypothesis sleep_elapses :
  forall k, (nowAt k + 500 * Millisecond <= nowAt (S k))%Z.

Lemma nowAt_lower (k : nat) :
  (startTime + Z.of_nat k * (500 * Millisecond) <= nowAt k)%Z.
Proof.
  induction k as [|k IH]; [cbn; lia|].
  specialize (sleep_elapses k). lia.
Qed.

Lemma nowAt_mono (j k : nat) : (j <= k)%nat -> (nowAt j <= nowAt k)%Z.
Proof.
  induction 1 as [|k _ IH]; [lia|].
  specialize (sleep_elapses k). unfold Millisecond in *. lia.
Qed.

Lemma deadline_passes (timeout : Z) :
  (nowAt (waitBound timeout) > startTime + timeout)%Z.
Proof.
  pose proof (nowAt_lower (waitBound timeout)) as H.
  unfold waitBound in *. rewrite Nat2Z.inj_succ in H.
  set (d := (500 * Millisecond)%Z) in *.
  assert (Hd : (0 < d)%Z) by (unfold d, Millisecond; lia).
  destruct (Z.le_gt_cases 0 timeout) as [Hpos | Hneg].
  - rewrite Z2Nat.id in H by (apply Z.div_pos; lia).
    pose proof (Z.mul_succ_div_gt timeout d Hd). lia.
  - assert (0 <= Z.of_nat (Z.to_nat (timeout / d)))%Z by lia. nia.
Qed.

(** Every call returns: at the first cycle that is past the deadline or
    whose verdict holds. *)
Lemma wait_first_exit (networkCfg : SystemNetworkConfig) (timeout : Z)
  (requireAll : bool) (fuel : nat) :
  (waitBound timeout < fuel)%nat ->
  exists k evs,
    (forall j, (j < k)%nat ->
       (nowAt j <= startTime + timeout)%Z
       /\ verdictAt networkCfg requireAll j = false)
    /\ ((nowAt k > startTime + timeout)%Z
        /\ waitForNetworkRoutable fuel networkCfg timeout requireAll
           = Some (Some timedOut, mkWaitState k evs)
        \/
        (nowAt k <= startTime + timeout)%Z
        /\ verdictAt networkCfg requireAll k = true
        /\ waitForNetworkRoutable fuel networkCfg timeout requireAll
           = Some (None, mkWaitState k evs)).
Proof.
  intros Hfuel.
  set (endTime := (startTime + timeout)%Z).
  set (P := fun k => orb (nowAt k >? endTime)%Z
                         (verdictAt networkCfg requireAll k)).
  assert (HP : P (waitBound timeout) = true).
  { unfold P. pose proof (deadline_passes timeout) as H.
    apply Z.gtb_gt in H. fold endTime in H. now rewrite H. }
  destruct (least_index P _ HP) as (k & Hk & Pk & Hlt).
  assert (Hbefore : forall j, (j < k)%nat ->
            (nowAt j <= endTime)%Z /\ verdictAt networkCfg requireAll j = false).
  { intros j Hj. specialize (Hlt j Hj). unfold P in Hlt.
    apply orb_false_iff in Hlt as [Hc Hv]. split; [|exact Hv].
    rewrite Z.gtb_ltb in Hc. apply Z.ltb_ge in Hc. exact Hc. }
  destruct (waitLoop_reaches networkCfg requireAll endTime k fuel
              (mkWaitState 0 [ReadClock startTime])) as [Hto Hok].
  { exact Hbefore. }
  { lia. }
  cbn [cycle Nat.add] in Hto, Hok.
  destruct (nowAt k >? endTime)%Z eqn:Hc.
  - apply Z.gtb_gt in Hc. destruct (Hto Hc) as [evs E].
    exists k, evs. split; [exact Hbefore|]. left. split; [exact Hc | exact E].
  - unfold P in Pk. rewrite Hc in Pk. cbn in Pk.
    rewrite Z.gtb_ltb in Hc. apply Z.ltb_ge in Hc.
    destruct (Hok Hc Pk) as [evs E].
    exists k, evs. split; [exact Hbefore|]. right. auto.
Qed.

(** The wait returns [nil] at the first cycle whose verdict holds, if that
    cycle starts by the deadline. *)
Lemma wait_succeeds_at (networkCfg : SystemNetworkConfig) (timeout : Z)
  (requireAll : bool) (k fuel : nat) :
  verdictAt networkCfg requireAll k = true ->
  (forall j, (j < k)%nat -> verdictAt networkCfg requireAll j = false) ->
  (nowAt k <= startTime + timeout)%Z ->
  (k < fuel)%nat ->
  exists evs,
    waitForNetworkRoutable fuel networkCfg timeout requireAll
    = Some (None, mkWaitState k evs).
Proof.
  intros Hok Hfail Hin Hfuel.
  destruct (waitLoop_reaches networkCfg requireAll (startTime + timeout) k fuel
              (mkWaitState 0 [ReadClock startTime])) as [_ H].
  - intros j Hj. cbn [cycle Nat.add]. split; [|now apply Hfail].
    pose proof (nowAt_mono j k ltac:(lia)). lia.
  - exact Hfuel.
  - cbn [cycle Nat.add] in H. now apply H.
Qed.

(** The wait returns the timeout error, at the first turn past the
    deadline, if no cycle that starts by the deadline has a verdict that
    holds. *)
Lemma wait_times_out (networkCfg : SystemNetworkConfig) (timeout : Z)
  (requireAll : bool) :
  (forall j, (nowAt j <= startTime + timeout)%Z ->
             verdictAt networkCfg requireAll j = false) ->
  forall fuel, (waitBound timeout < fuel)%nat ->
    exists k evs,
      waitForNetworkRoutable fuel networkCfg timeout requireAll
      = Some (Some timedOut, mkWaitState k evs)
      /\ (nowAt k > startTime + timeout)%Z
      /\ forall j, (j < k)%nat -> (nowAt j <= startTime + timeout)%Z.
Proof.
  intros Hnone fuel Hfuel.
  destruct (wait_first_exit networkCfg timeout requireAll fuel Hfuel)
    as (k & evs & Hbefore & [[Hc E] | (Hc & Hv & E)]).
  - exists k, evs. repeat split; [exact E | exact Hc |].
    intros j Hj. now apply Hbefore.
  - rewrite (Hnone k Hc) in Hv. discriminate.
Qed.

(** C1. With a clock that advances by the sleep of each turn, and for
    every configuration, timeout, policy and per-cycle routability:
    (0) the wait returns, within [waitBound timeout] turns;
    (1) the wait returns [nil] at the first poll cycle whose verdict holds
    (every non-empty category: all members routable when all are required,
    one member otherwise), if that cycle starts by the deadline;
    (2) if no cycle that starts by the deadline has a verdict that holds,
    the wait returns the timeout error, at the first turn whose clock
    reading is past the deadline;
    (3) for two bonds of which exactly one is routable and no other device,
    requiring all gives the timeout error and requiring one gives [nil] in
    the first cycle. *)
Theorem wait_quorum (networkCfg : SystemNetworkConfig) (timeout : Z)
  (requireAll : bool) :
  let endTime := (startTime + timeout)%Z in
  let verdict := verdictAt networkCfg requireAll in
  (forall fuel, (waitBound timeout < fuel)%nat ->
     exists result,
       waitForNetworkRoutable fuel networkCfg timeout requireAll
       = Some result)
  /\
  (forall k fuel,
     verdict k = true ->
     (forall j, (j < k)%nat -> verdict j = false) ->
     (nowAt k <= endTime)%Z ->
     (k < fuel)%nat ->
     exists evs,
       waitForNetworkRoutable fuel networkCfg timeout requireAll
       = Some (None, mkWaitState k evs))
  /\
  ((forall j, (nowAt j <= endTime)%Z -> verdict j = false) ->
   forall fuel, (waitBound timeout < fuel)%nat ->
     exists k evs,
       waitForNetworkRoutable fuel networkCfg timeout requireAll
       = Some (Some timedOut, mkWaitState k evs)
       /\ (nowAt k > endTime)%Z
       /\ forall j, (j < k)%nat -> (nowAt j <= endTime)%Z)
  /\
  (forall b1 b2,
     Interfaces networkCfg = [] ->
     Bonds networkCfg = [b1; b2] ->
     VLANs networkCfg = [] ->
     (forall k, xorb (isRoutable k (Bond.Name b1))
                     (isRoutable k (Bond.Name b2)) = true) ->
     forall fuel, (waitBound timeout < fuel)%nat ->
       (requireAll = true ->
          exists k evs,
            waitForNetworkRoutable fuel networkCfg timeout requireAll
            = Some (Some timedOut, mkWaitState k evs)
            /\ (nowAt k > endTime)%Z)
       /\
       (requireAll = false -> (nowAt 0 <= endTime)%Z ->
          exists evs,
            waitForNetworkRoutable fuel networkCfg timeout requireAll
            = Some (None, mkWaitState 0 evs))).
Proof.
  intros endTime verdict.
  split.
  { intros fuel Hfuel.
    destruct (wait_first_exit networkCfg timeout requireAll fuel Hfuel)
      as (k & evs & _ & [[_ E] | (_ & _ & E)]); rewrite E; eauto. }
  split; [intros k fuel; apply wait_succeeds_at|].
  split; [apply wait_times_out|].
  intros b1 b2 Hi Hb Hv Hx fuel Hfuel.
  assert (Hverdict : forall k,
            verdict k = if requireAll
                        then andb (isRoutable k (Bond.Name b1))
                                  (isRoutable k (Bond.Name b2))
                        else orb (isRoutable k (Bond.Name b1))
                                 (isRoutable k (Bond.Name b2))).
  { intros k. unfold verdict, verdictAt, cycleVerdict.
    rewrite Hi, Hb, Hv. cbn.
    destruct requireAll; now rewrite ?andb_true_r, ?orb_false_r. }
  split.
  - intros ->.
    destruct (wait_times_out networkCfg timeout true) with (fuel := fuel)
      as (k & evs & E & Hc & _); [|exact Hfuel|eauto].
    intros j _. fold verdict. rewrite Hverdict. specialize (Hx j).
    destruct (isRoutable j (Bond.Name b1)), (isRoutable j (Bond.Name b2));
      cbn in *; congruence.
  - intros -> Hin.
    apply wait_succeeds_at; [|intros j Hj; lia|exact Hin|lia].
    fold verdict. rewrite Hverdict. specialize (Hx 0%nat).
    destruct (isRoutable 0 (Bond.Name b1)), (isRoutable 0 (Bond.Name b2));
      cbn in *; congruence.
Qed.

(** C6, as the code has it. The loop never looks at the caller's context;
    the context only makes the routability queries fail. So when the
    context is done from cycle [c] on and no earlier cycle had converged,
    a wait over at least one device returns only at the first turn whose
    clock reading is past the wait's own deadline, and with the timeout
    error. *)
Theorem wait_runs_to_deadline_when_cancelled
  (networkCfg : SystemNetworkConfig) (timeout : Z) (requireAll : bool)
  (c : nat) :
  hasDevices networkCfg = true ->
  (forall k, (c <= k)%nat -> ctxDone k = true) ->
  (forall j, (j < c)%nat -> verdictAt networkCfg requireAll j = false) ->
  forall fuel, (waitBound timeout < fuel)%nat ->
    exists k evs,
      waitForNetworkRoutable fuel networkCfg timeout requireAll
      = Some (Some timedOut, mkWaitState k evs)
      /\ (nowAt k > startTime + timeout)%Z
      /\ forall j, (j < k)%nat -> (nowAt j <= startTime + timeout)%Z.
Proof.
  intros Hd Hc Hbefore fuel Hfuel.
  apply wait_times_out; [|exact Hfuel].
  intros j _. destruct (Nat.lt_ge_cases j c) as [Hlt | Hge].
  - now apply Hbefore.
  - apply verdictAt_cancelled; [exact Hd | now apply Hc].
Qed.

End Clock.

(** C9. For every VLAN of a configuration: the netdev artifact generated
    for it, [12-vl<name>.netdev], declares the device [vl<name>]; a poll
    cycle of the wait that reaches the VLAN category asks for the
    routability of [<name>], and a poll cycle asks only for names of the
    configuration; and [vl<name>] is never [<name>]. *)
Theorem vlan_declared_and_queried_names_differ
  (networkCfg : SystemNetworkConfig) (v : VLAN.t)
  (requireAll : bool) (k : nat) (evs : list WaitEvent) :
  In v (VLANs networkCfg) ->
  (exists f rest,
     In f (generateNetdevFileContents networkCfg)
     /\ Name f = "12-vl" ++ VLAN.Name v ++ ".netdev"
     /\ Contents f =
          unlines ["[NetDev]"; "Name=" ++ ("vl" ++ VLAN.Name v); "Kind=vlan"]
            ++ rest)
  /\
  (categoryVerdict requireAll (isRoutable k)
     (map Interface.Name (Interfaces networkCfg)) = true ->
   categoryVerdict requireAll (isRoutable k)
     (map Bond.Name (Bonds networkCfg)) = true ->
   In (Queried (VLAN.Name v))
      (snd (pollCycle networkCfg requireAll k evs)))
  /\
  (forall name,
     In (Queried name)
        (snd (pollCycle networkCfg requireAll k evs)) ->
     In (Queried name) evs
     \/ In name (map Interface.Name (Interfaces networkCfg))
     \/ In name (map Bond.Name (Bonds networkCfg))
     \/ In name (map VLAN.Name (VLANs networkCfg)))
  /\
  "vl" ++ VLAN.Name v <> VLAN.Name v.
Proof.
  intros Hv. split; [|split; [|split]].
  - exists (vlanNetdev v),
      (mtuString (VLAN.MTU v) ++ LF ++ LF ++ "[VLAN]" ++ LF
         ++ "Id=" ++ FormatInt (VLAN.ID v) ++ LF).
    split; [|split; [reflexivity|]].
    + rewrite generateNetdevFileContents_eq, !in_app_iff. right. right.
      now apply in_map.
    + cbn [vlanNetdev Contents unlines].
      rewrite ?append_assoc, ?append_nil_r. reflexivity.
  - intros Hi Hb. rewrite pollCycle_events. unfold queriedNames.
    rewrite Hi, Hb. apply in_or_app. right. apply in_map.
    apply in_or_app. right. apply in_or_app. right.
    now apply in_map.
  - intros name Hin. rewrite pollCycle_events in Hin.
    apply in_app_or in Hin as [Hin | Hin]; [now left|]. right.
    apply in_map_iff in Hin as (n & E & Hn). injection E as ->.
    unfold queriedNames in Hn.
    apply in_app_or in Hn as [Hn | Hn]; [now left|].
    destruct (categoryVerdict requireAll _ (map Interface.Name _));
      [|destruct Hn].
    apply in_app_or in Hn as [Hn | Hn]; [now right; left|].
    destruct (categoryVerdict requireAll _ (map Bond.Name _));
      [|destruct Hn].
    now right; right.
  - apply vl_prefix_differs.
Qed.

End WaiterFacts.

(* ================================================================== *)
(** ** The wait on concrete runs *)

Section WaitExamples.

#[local] Existing Instance noCasePairs.

Lemma steadyClock_start : (0 <= steadyClock 0)%Z.
Proof. unfold steadyClock. lia. Defined.

Lemma steadyClock_step (k : nat) :
  (steadyClock k + 500 * Millisecond <= steadyClock (S k))%Z.
Proof. unfold steadyClock, Millisecond. lia. Defined.

(** C1 at [twoBonds] with a ten second timeout: the timeout error when all
    bonds are required, [nil] in the first cycle when one is enough. *)
Lemma wait_quorum_witness :
  (exists k evs,
     @waitForNetworkRoutable onlyBond0Env 30 twoBonds (10 * Second) true
     = Some (Some timedOut, mkWaitState k evs)
     /\ (steadyClock k > 0 + 10 * Second)%Z)
  /\
  (exists evs,
     @waitForNetworkRoutable onlyBond0Env 30 twoBonds (10 * Second) false
     = Some (None, mkWaitState 0 evs)).
Proof.
  assert (Hx : forall k,
            xorb (@isRoutable onlyBond0Env k (Bond.Name bond0))
                 (@isRoutable onlyBond0Env k (Bond.Name bond1)) = true)
    by (intros k; reflexivity).
  assert (Hfuel : (waitBound (10 * Second) < 30)%nat)
    by (vm_compute; lia).
  split.
  - destruct (@wait_quorum onlyBond0Env steadyClock_start steadyClock_step
                twoBonds (10 * Second) true) as (_ & _ & _ & H).
    destruct (H bond0 bond1 eq_refl eq_refl eq_refl Hx 30%nat Hfuel) as [Ht _].
    exact (Ht eq_refl).
  - destruct (@wait_quorum onlyBond0Env steadyClock_start steadyClock_step
                twoBonds (10 * Second) false) as (_ & _ & _ & H).
    destruct (H bond0 bond1 eq_refl eq_refl eq_refl Hx 30%nat Hfuel) as [_ Hs].
    apply (Hs eq_refl). vm_compute. discriminate.
Defined.

(** C6 at [oneInterface] under a context that is done from the start. *)
Lemma wait_runs_to_deadline_when_cancelled_witness :
  exists k evs,
    @waitForNetworkRoutable cancelledEnv 30 oneInterface (10 * Second) false
    = Some (Some timedOut, mkWaitState k evs)
    /\ (steadyClock k > 0 + 10 * Second)%Z
    /\ forall j, (j < k)%nat -> (steadyClock j <= 0 + 10 * Second)%Z.
Proof.
  apply (@wait_runs_to_deadline_when_cancelled cancelledEnv
           steadyClock_start steadyClock_step
           oneInterface (10 * Second) false 0).
  - reflexivity.
  - intros k _. reflexivity.
  - intros j Hj. lia.
  - vm_compute. lia.
Defined.

(** C6 as the specification words it fails: with the caller's context done
    before the first turn, a ten second wait for one interface does not
    stop early. It polls in twenty-one cycles, 500 milliseconds apart, and
    returns the timeout error at the turn whose clock reading, 10.5
    seconds, is the first past its own deadline. *)
Lemma cancelled_wait_is_not_aborted :
  let run :=
    @waitForNetworkRoutable cancelledEnv 30 oneInterface (10 * Second) false in
  option_map fst run = Some (Some timedOut)
  /\ option_map (fun r => cycle (snd r)) run = Some 21%nat
  /\ option_map (fun r => length (filter isQuery (events (snd r)))) run
     = Some 21%nat
  /\ (steadyClock 20 <= 0 + 10 * Second < steadyClock 21)%Z.
Proof.
  cbv zeta. repeat split; try (vm_compute; reflexivity).
  vm_compute. discriminate.
Qed.

(** C9 at the VLAN [mgmt] of [sampleConfig]: the artifact declares
    [vlmgmt], the wait asks for [mgmt]. *)
Lemma vlan_declared_and_queried_names_differ_witness :
  let v := VLAN.mk "mgmt" "bond0" 10 0 ["192.0.2.9/24"] [] in
  (exists f rest,
     In f (generateNetdevFileContents sampleConfig)
     /\ Name f = "12-vlmgmt.netdev"
     /\ Contents f = unlines ["[NetDev]"; "Name=vlmgmt"; "Kind=vlan"] ++ rest)
  /\ In (Queried "mgmt")
        (snd (@pollCycle allRoutableEnv sampleConfig true 0 []))
  /\ "vlmgmt" <> "mgmt".
Proof.
  cbv zeta.
  destruct (@vlan_declared_and_queried_names_differ _ allRoutableEnv
              sampleConfig (VLAN.mk "mgmt" "bond0" 10 0 ["192.0.2.9/24"] [])
              true 0 [])
    as (Hdecl & Hq & _ & Hne).
  - cbn. auto.
  - split; [exact Hdecl|]. split; [|exact Hne].
    apply Hq; reflexivity.
Defined.

End WaitExamples.

(* ================================================================== *)
(** ** The apply sequence *)

Section ApplierFacts.

Context {unicode : Unicode} {env : ApplyEnv}.

Lemma runSteps_app (xs ys : list Step) (done : list Effect) :
  runSteps (xs ++ ys) done = (runSteps xs ;;; runSteps ys) done.
Proof.
  revert done. induction xs as [|[[] e] xs IH]; intros done.
  - reflexivity.
  - cbn [app runSteps]. unfold orReturn, call.
    destruct (outcome done e); [reflexivity|]. apply IH.
  - cbn [app runSteps]. unfold orReturn, callIgnoring. apply IH.
Qed.

Lemma writeFiles_runSteps (files : list networkdConfigFile)
  (done : list Effect) :
  writeFiles files done = runSteps (writeSteps files) done.
Proof.
  revert done. induction files as [|f fs IH]; intros done; [reflexivity|].
  cbn [writeFiles writeSteps map must runSteps]. unfold orReturn, call.
  destruct (outcome done _); [reflexivity|]. apply IH.
Qed.

Lemma orReturn_ext (m m' k k' : Run error) (done : list Effect) :
  m done = m' done -> (forall d, k d = k' d) ->
  (m ;;; k) done = (m' ;;; k') done.
Proof.
  intros Hm Hk. unfold orReturn. rewrite Hm.
  destruct (m' done) as [[err|] d]; [reflexivity | apply Hk].
Qed.

Lemma orReturn_assoc (a b c : Run error) (done : list Effect) :
  ((a ;;; b) ;;; c) done = (a ;;; (b ;;; c)) done.
Proof.
  unfold orReturn. destruct (a done) as [[err|] d]; reflexivity.
Qed.

Lemma orReturn_skip_l (k : Run error) (done : list Effect) :
  (skip ;;; k) done = k done.
Proof. reflexivity. Qed.

Lemma orReturn_skip_r (m : Run error) (done : list Effect) :
  (m ;;; skip) done = m done.
Proof.
  unfold orReturn, skip. destruct (m done) as [[err|] d]; reflexivity.
Qed.

Lemma timesync_runSteps (networkCfg : SystemNetworkConfig)
  (done : list Effect) :
  (let ntpCfg :=
     match NTP networkCfg with
     | Some ntp => generateTimesyncContents ntp
     | None => ""
     end in
   (match NTP networkCfg with
    | Some _ =>
        if negb (String.eqb ntpCfg "")
        then call (WriteFile SystemdTimesyncConfigFile ntpCfg)
        else skip
    | None => skip
    end) ;;;
   (if orb (match NTP networkCfg with None => true | Some _ => false end)
           (String.eqb ntpCfg "")
    then callIgnoring (Remove SystemdTimesyncConfigFile)
    else skip)) done
  = runSteps (timesyncSteps networkCfg) done.
Proof.
  unfold timesyncSteps. destruct (NTP networkCfg) as [ntp|]; cbv zeta.
  - destruct (String.eqb (generateTimesyncContents ntp) ""); reflexivity.
  - reflexivity.
Qed.

(** The host name the code computes is the one of the specification. *)
Lemma targetHostname_stated (networkCfg : SystemNetworkConfig) :
  targetHostname networkCfg = statedHostname networkCfg.
Proof.
  unfold targetHostname, statedHostname.
  destruct (DNS networkCfg) as [dns|]; [|reflexivity].
  destruct (String.eqb (DNS.Hostname dns) ""); [reflexivity|].
  destruct (String.eqb (DNS.Domain dns) ""); reflexivity.
Qed.

(** The code runs the steps of the specification. *)
Lemma ApplyNetworkConfiguration_runSteps (networkCfg : SystemNetworkConfig)
  (timeout : Z) (done : list Effect) :
  ApplyNetworkConfiguration (Some networkCfg) timeout done
  = runSteps (applySteps networkCfg timeout) done.
Proof.
  unfold ApplyNetworkConfiguration, applySteps.
  rewrite targetHostname_stated.
  cbn [app runSteps must may].
  apply orReturn_ext; [reflexivity | intros d1].
  apply orReturn_ext; [reflexivity | intros d2].
  unfold generateNetworkConfiguration.
  rewrite orReturn_assoc. apply orReturn_ext; [reflexivity | intros d3].
  rewrite orReturn_assoc. apply orReturn_ext; [reflexivity | intros d4].
  rewrite orReturn_assoc, runSteps_app.
  apply orReturn_ext; [apply writeFiles_runSteps | intros d5].
  rewrite orReturn_assoc, runSteps_app.
  apply orReturn_ext; [apply writeFiles_runSteps | intros d6].
  rewrite orReturn_assoc, runSteps_app.
  apply orReturn_ext; [apply writeFiles_runSteps | intros d7].
  rewrite runSteps_app.
  apply orReturn_ext; [apply timesync_runSteps | intros d8].
  cbn [runSteps].
  apply orReturn_ext; [reflexivity | intros d9].
  apply orReturn_ext; [reflexivity | intros d10].
  apply orReturn_ext; [reflexivity | intros d11].
  apply orReturn_ext; [reflexivity | intros d12].
  apply orReturn_ext; [reflexivity | intros d13].
  unfold must. cbv iota beta. now rewrite orReturn_skip_r.
Qed.

(** A run of steps completes some number [m] of them: each of these that
    counts was answered without error; then either no step is left and the
    result is [nil], or step [m] counts, fails, its error is the result, and
    it is the last call made. *)
Lemma runSteps_first_failure (steps : list Step) :
  forall done : list Effect,
  exists m,
    (forall i e, (i < m)%nat -> nth_error steps i = Some (true, e) ->
       outcome (done ++ callsOf i steps) e = None)
    /\ match fst (runSteps steps done) with
       | None =>
           m = length steps
           /\ snd (runSteps steps done) = (done ++ map snd steps)%list
       | Some err =>
           exists e,
             nth_error steps m = Some (true, e)
             /\ outcome (done ++ callsOf m steps) e = Some err
             /\ snd (runSteps steps done) = (done ++ callsOf (S m) steps)%list
       end.
Proof.
  induction steps as [|[fallible e] rest IH]; intros done.
  - exists 0%nat. split; [intros i e Hi; lia|].
    cbn. now rewrite app_nil_r.
  - assert (Hnext :
      forall r, runSteps ((fallible, e) :: rest) done = r ->
        (fallible = true -> outcome done e = None) ->
        r = runSteps rest (done ++ [e])%list ->
        exists m,
          (forall i e0, (i < m)%nat ->
             nth_error ((fallible, e) :: rest) i = Some (true, e0) ->
             outcome (done ++ callsOf i ((fallible, e) :: rest)) e0 = None)
          /\ match fst r with
             | None =>
                 m = length ((fallible, e) :: rest)
                 /\ snd r = (done ++ map snd ((fallible, e) :: rest))%list
             | Some err =>
                 exists e0,
                   nth_error ((fallible, e) :: rest) m = Some (true, e0)
                   /\ outcome (done ++ callsOf m ((fallible, e) :: rest)) e0
                      = Some err
                   /\ snd r
                      = (done ++ callsOf (S m) ((fallible, e) :: rest))%list
             end).
    { intros r _ Hok ->.
      destruct (IH (done ++ [e])%list) as (m & Hbefore & Hend).
      exists (S m). split.
      - intros [|i] e0 Hi Hnth.
        + cbn in Hnth. injection Hnth as -> ->.
          unfold callsOf. cbn. rewrite app_nil_r. now apply Hok.
        + cbn in Hnth. unfold callsOf. rewrite firstn_cons. cbn [map snd].
          specialize (Hbefore i e0 ltac:(lia) Hnth).
          unfold callsOf in Hbefore. rewrite <- app_assoc in Hbefore.
          exact Hbefore.
      - destruct (fst (runSteps rest (done ++ [e])%list)) as [err|].
        + destruct Hend as (e0 & Hnth & Hout & Htr).
          exists e0. unfold callsOf in *. split; [exact Hnth|]. split.
          * rewrite firstn_cons. cbn [map snd].
            rewrite <- app_assoc in Hout. exact Hout.
          * rewrite Htr, (firstn_cons (S m)). cbn [map snd].
            now rewrite <- app_assoc.
        + destruct Hend as [-> Htr]. split; [reflexivity|].
          rewrite Htr. cbn [map snd]. now rewrite <- app_assoc. }
    destruct fallible.
    + destruct (outcome done e) as [err|] eqn:Hout.
      * exists 0%nat. split; [intros i e0 Hi; lia|].
        cbn [runSteps]. unfold orReturn, call. rewrite Hout. cbn [fst snd].
        exists e. unfold callsOf. cbn. now rewrite app_nil_r.
      * apply (Hnext _ eq_refl); [auto|].
        cbn [runSteps]. unfold orReturn, call. now rewrite Hout.
    + apply (Hnext _ eq_refl); [discriminate|]. reflexivity.
Qed.

(** C3. For every configuration and every behaviour of the environment,
    [ApplyNetworkConfiguration] makes the calls of [applySteps] in their
    order: the host name of section 4.2 ([statedHostname]: the host name of
    the DNS settings, joined with the domain when one is set, none without a
    host name), proxy environment, removal and creation of the
    configuration directory and the writing of every artifact, the sleep,
    the udev trigger, the udev settle, the restart of systemd-networkd, the
    restart of systemd-timesyncd, the wait. It completes a number [m] of
    them without a failure that counts; then either all steps are done and
    the result is that of the last one, [nil]; or step [m] fails, its error
    is returned, and it is the last call made: no step is made twice and
    none after the failure. *)
Theorem apply_runs_steps_until_first_failure
  (networkCfg : SystemNetworkConfig) (timeout : Z) (done : list Effect) :
  let steps := applySteps networkCfg timeout in
  let result := ApplyNetworkConfiguration (Some networkCfg) timeout done in
  exists m,
    (forall i e, (i < m)%nat -> nth_error steps i = Some (true, e) ->
       outcome (done ++ callsOf i steps) e = None)
    /\ match fst result with
       | None =>
           m = length steps
           /\ snd result = (done ++ map snd steps)%list
       | Some err =>
           exists e,
             nth_error steps m = Some (true, e)
             /\ outcome (done ++ callsOf m steps) e = Some err
             /\ snd result = (done ++ callsOf (S m) steps)%list
       end.
Proof.
  intros steps result. subst result.
  rewrite ApplyNetworkConfiguration_runSteps.
  apply runSteps_first_failure.
Qed.

(** C10. Called with [nil], [ApplyNetworkConfiguration] returns the error
    [no network configuration provided] and makes no call at all. *)
Theorem apply_nil_configuration (timeout : Z) (done : list Effect) :
  ApplyNetworkConfiguration None timeout done
  = (Some "no network configuration provided", done).
Proof. reflexivity. Qed.

End ApplierFacts.

(** C3 on a run in which the creation of the configuration directory
    fails: the host name of the DNS settings, joined with its domain, has
    been set first, and nothing is called after the failure. *)
Lemma apply_runs_steps_until_first_failure_witness :
  let steps :=
    @applySteps noCasePairs mkdirFailsEnv namedHost (10 * Second) in
  let result :=
    @ApplyNetworkConfiguration noCasePairs mkdirFailsEnv (Some namedHost)
                               (10 * Second) [] in
  result
  = (Some "mkdir: permission denied",
     [ SetHostname "host.example.net"; UpdateEnvironment None;
       RemoveAll "/run/systemd/network"; Mkdir "/run/systemd/network" ])
  /\
  exists m,
    (forall i e, (i < m)%nat -> nth_error steps i = Some (true, e) ->
       mkdirFails ([] ++ callsOf i steps) e = None)
    /\ match fst result with
       | None =>
           m = length steps /\ snd result = ([] ++ map snd steps)%list
       | Some err =>
           exists e,
             nth_error steps m = Some (true, e)
             /\ mkdirFails ([] ++ callsOf m steps) e = Some err
             /\ snd result = ([] ++ callsOf (S m) steps)%list
       end.
Proof.
  split; [reflexivity|].
  exact (@apply_runs_steps_until_first_failure noCasePairs mkdirFailsEnv
           namedHost (10 * Second) []).
Defined.

(* ================================================================== *)
(** ** The REST handler *)

Section RestHandlerFacts.

Context {env : HandlerEnv}.

(** C4. On PUT or PATCH, with [newConfig] the decoded configuration: if it
    defines no interface, bond or VLAN, the answer is a client error, the
    active configuration is unchanged, nothing is stored and the applier
    is not called; otherwise the active configuration is set to
    [newConfig] first and the applier is called next, on that
    configuration and with a ten second timeout, so that when the applier
    fails the answer is a client error with its message while the active
    configuration is [newConfig]. *)
Theorem update_rejects_empty_and_stores_before_apply
  (s : ServerState) (method : Method) (body : string)
  (newConfig : SystemNetworkConfig) :
  method = MethodPut \/ method = MethodPatch ->
  decodeRequest s method body = inr newConfig ->
  let handled := apiNetwork10 s method body in
  (Interfaces newConfig = [] /\ Bonds newConfig = [] /\ VLANs newConfig = [] ->
     response handled
       = BadRequest "network configuration has no devices defined"
     /\ state handled = s
     /\ serverEvents handled = [])
  /\
  (~ (Interfaces newConfig = [] /\ Bonds newConfig = []
      /\ VLANs newConfig = []) ->
     serverEvents handled
       = [ StoredNetworkConfig newConfig;
           CalledApply (Some newConfig) (10 * Second) ]
     /\ NetworkConfig (state handled) = Some newConfig
     /\ (forall err, Apply (Some newConfig) (10 * Second) = Some err ->
           response handled = BadRequest err)
     /\ (Apply (Some newConfig) (10 * Second) = None ->
           response handled = EmptySyncResponse)).
Proof.
  intros Hm Hdec handled. subst handled.
  assert (E : apiNetwork10 s method body =
              if NetworkConfigHasEmptyDevices newConfig then
                mkHandled
                  (BadRequest "network configuration has no devices defined")
                  s []
              else
                match Apply (Some newConfig) (10 * Second) with
                | Some err =>
                    mkHandled (BadRequest err) (mkServerState (Some newConfig))
                      [ StoredNetworkConfig newConfig;
                        CalledApply (Some newConfig) (10 * Second) ]
                | None =>
                    mkHandled EmptySyncResponse (mkServerState (Some newConfig))
                      [ StoredNetworkConfig newConfig;
                        CalledApply (Some newConfig) (10 * Second) ]
                end).
  { unfold apiNetwork10. destruct Hm as [-> | ->]; rewrite Hdec; reflexivity. }
  rewrite E. split.
  - intros (Hi & Hb & Hv). unfold NetworkConfigHasEmptyDevices.
    rewrite Hi, Hb, Hv. cbn. auto.
  - intros Hne.
    assert (Hfalse : NetworkConfigHasEmptyDevices newConfig = false).
    { unfold NetworkConfigHasEmptyDevices.
      destruct (Interfaces newConfig) as [|i ifs]; [|reflexivity].
      destruct (Bonds newConfig) as [|b bs]; [|reflexivity].
      destruct (VLANs newConfig) as [|v vs]; [|reflexivity].
      elim Hne. auto. }
    rewrite Hfalse.
    destruct (Apply (Some newConfig) (10 * Second)) as [err|]; cbn.
    + repeat split; [intros e [= ->]; reflexivity | discriminate].
    + repeat split; discriminate.
Qed.

End RestHandlerFacts.

(** C4 on a PUT whose body decodes to [oneInterface] while the applier
    times out. *)
Lemma update_rejects_empty_and_stores_before_apply_witness :
  let before := mkServerState (Some twoBonds) in
  let handled := @apiNetwork10 applyTimesOutEnv before MethodPut "{}" in
  serverEvents handled
    = [ StoredNetworkConfig oneInterface;
        CalledApply (Some oneInterface) (10 * Second) ]
  /\ NetworkConfig (state handled) = Some oneInterface
  /\ response handled = BadRequest timedOut.
Proof.
  cbv zeta.
  destruct (@update_rejects_empty_and_stores_before_apply applyTimesOutEnv
              (mkServerState (Some twoBonds)) MethodPut "{}" oneInterface
              (or_introl eq_refl) eq_refl) as [_ H].
  destruct H as (Hev & Hst & Herr & _).
  - intros (Hi & _). discriminate Hi.
  - split; [exact Hev|]. split; [exact Hst|]. apply Herr. reflexivity.
Defined.

(* ================================================================== *)
(** ** Further properties of the generated artifacts *)

Section ArtifactFacts.

Context {unicode : Unicode}.

Lemma length_flat_map_sum {A B : Type} (f : A -> list B) (xs : list A) :
  length (flat_map f xs) = list_sum (map (fun x => length (f x)) xs).
Proof.
  induction xs as [|x xs IH]; [reflexivity|].
  unfold list_sum in *. cbn [flat_map map fold_right].
  now rewrite length_app, IH.
Qed.

Lemma length_bondMemberFiles (b : Bond.t) (index : nat)
  (members : list string) :
  length (bondMemberFiles b index members) = length members.
Proof.
  revert index. induction members as [|m ms IH]; intros index;
    [reflexivity | cbn; now rewrite IH].
Qed.

(** X1. The number of artifacts of each kind: a link file per interface and
    per bond member (none for the bond itself); a netdev file per interface
    and per VLAN and two per bond; two network files per interface, two per
    bond plus one per member, and one per VLAN. *)
Theorem artifact_counts (cfg : SystemNetworkConfig) :
  length (generateLinkFileContents cfg)
  = (length (Interfaces cfg)
     + list_sum (map (fun b => length (Bond.Members b)) (Bonds cfg)))%nat
  /\ length (generateNetdevFileContents cfg)
     = (length (Interfaces cfg) + 2 * length (Bonds cfg)
        + length (VLANs cfg))%nat
  /\ length (generateNetworkFileContents cfg)
     = (2 * length (Interfaces cfg)
        + list_sum (map (fun b => 2 + length (Bond.Members b)) (Bonds cfg))
        + length (VLANs cfg))%nat.
Proof.
  rewrite generateLinkFileContents_eq, generateNetdevFileContents_eq,
    generateNetworkFileContents_eq.
  rewrite !length_app, !length_map, !length_flat_map_sum.
  repeat split.
  - f_equal. f_equal. apply map_ext. intros b. now rewrite length_map.
  - assert (E : forall bs : list Bond.t,
               list_sum (map (fun _ => 2%nat) bs) = (2 * length bs)%nat)
      by (induction bs as [|b bs IH]; unfold list_sum in *;
          cbn [map fold_right length] in *; lia).
    cbn [length]. rewrite E. lia.
  - assert (E : forall xs : list Interface.t,
               list_sum (map (fun _ => 2%nat) xs) = (2 * length xs)%nat)
      by (induction xs as [|x xs IH]; unfold list_sum in *;
          cbn [map fold_right length] in *; lia).
    cbn [length]. rewrite E.
    assert (E2 : map (fun b => length (bondNetworkFiles (DNS cfg) (NTP cfg) b))
                     (Bonds cfg)
                 = map (fun b => (2 + length (Bond.Members b))%nat) (Bonds cfg)).
    { apply map_ext. intros b. unfold bondNetworkFiles. cbn [length].
      now rewrite length_bondMemberFiles. }
    rewrite E2. lia.
Qed.

Lemma HasSuffix_app (pre suffix : string) : HasSuffix (pre ++ suffix) suffix.
Proof. now exists pre. Qed.

Ltac name_shape :=
  cbn [Name linkFile interfaceNetdev bondNetdev bondBridgeNetdev vlanNetdev
       interfaceNetwork interfaceBridgeNetwork bondNetwork
       bondBridgeNetwork bondMemberNetwork vlanNetwork];
  rewrite ?append_assoc; reflexivity.

(** X2. The priority encoding of the file names: every link file is named
    [00-...] or [01-...] and ends in [.link]; every netdev file is named
    [10-...], [11-...] or [12-...] and ends in [.netdev]; every network file
    is named [20-...], [21-...] or [22-...] and ends in [.network]. *)
Theorem artifact_name_classes (cfg : SystemNetworkConfig) :
  (forall f, In f (generateLinkFileContents cfg) ->
     (HasPrefix (Name f) "00-" = true \/ HasPrefix (Name f) "01-" = true)
     /\ HasSuffix (Name f) ".link")
  /\ (forall f, In f (generateNetdevFileContents cfg) ->
     (HasPrefix (Name f) "10-" = true \/ HasPrefix (Name f) "11-" = true
      \/ HasPrefix (Name f) "12-" = true)
     /\ HasSuffix (Name f) ".netdev")
  /\ (forall f, In f (generateNetworkFileContents cfg) ->
     (HasPrefix (Name f) "20-" = true \/ HasPrefix (Name f) "21-" = true
      \/ HasPrefix (Name f) "22-" = true)
     /\ HasSuffix (Name f) ".network").
Proof.
  rewrite generateLinkFileContents_eq, generateNetdevFileContents_eq,
    generateNetworkFileContents_eq.
  split; [|split]; intros f Hf.
  - apply in_app_or in Hf as [Hf | Hf].
    + apply in_map_iff in Hf as (i & <- & _).
      split; [left; reflexivity|].
      exists ("00-en" ++ strippedHwaddr (Interface.Hwaddr i)). name_shape.
    + apply in_flat_map in Hf as (b & _ & Hm).
      apply in_map_iff in Hm as (m & <- & _).
      split; [right; reflexivity|].
      exists ("01-en" ++ strippedHwaddr m). name_shape.
  - apply in_app_or in Hf as [Hf | Hf];
      [|apply in_app_or in Hf as [Hf | Hf]].
    + apply in_map_iff in Hf as (i & <- & _).
      split; [left; reflexivity|].
      exists ("10-br" ++ strippedHwaddr (Interface.Hwaddr i)). name_shape.
    + apply in_flat_map in Hf as (b & _ & [<- | [<- | []]]).
      * split; [right; left; reflexivity|].
        exists ("11-bn" ++ strippedHwaddr (Bond.Hwaddr b)). name_shape.
      * split; [right; left; reflexivity|].
        exists ("11-br" ++ strippedHwaddr (Bond.Hwaddr b)). name_shape.
    + apply in_map_iff in Hf as (v & <- & _).
      split; [right; right; reflexivity|].
      exists ("12-vl" ++ VLAN.Name v). name_shape.
  - apply in_app_or in Hf as [Hf | Hf];
      [|apply in_app_or in Hf as [Hf | Hf]].
    + apply in_flat_map in Hf as (i & _ & [<- | [<- | []]]).
      * split; [left; apply (prefix_app "20-")|].
        exists ("20-" ++ Interface.Name i). name_shape.
      * split; [left; reflexivity|].
        exists ("20-br" ++ strippedHwaddr (Interface.Hwaddr i)). name_shape.
    + apply in_flat_map in Hf as (b & _ & [<- | [<- | Hm]]).
      * split; [right; left; apply (prefix_app "21-")|].
        exists ("21-" ++ Bond.Name b). name_shape.
      * split; [right; left; reflexivity|].
        exists ("21-br" ++ strippedHwaddr (Bond.Hwaddr b)). name_shape.
      * apply In_bondMemberFiles in Hm as (idx & m & _ & ->).
        split; [right; left; reflexivity|].
        exists ("21-bn" ++ strippedHwaddr (Bond.Hwaddr b) ++ "-dev"
                  ++ FormatInt (Z.of_nat idx)).
        name_shape.
    + apply in_map_iff in Hf as (v & <- & _).
      split; [right; right; reflexivity|].
      exists ("22-vl" ++ VLAN.Name v). name_shape.
Qed.


Lemma nth_error_bondMemberFiles (b : Bond.t) (members : list string)
  (index k : nat) (m : string) :
  nth_error members k = Some m ->
  nth_error (bondMemberFiles b index members) k
  = Some (bondMemberNetwork b (index + k) m).
Proof.
  revert index k. induction members as [|x xs IH]; intros index k H.
  - destruct k; discriminate H.
  - destruct k as [|k]; cbn in H.
    + injection H as ->. cbn. now rewrite Nat.add_0_r.
    + cbn [bondMemberFiles nth_error]. rewrite (IH (S index) k H).
      do 2 f_equal. lia.
Qed.

(** X3. The members of a bond are numbered from zero in the order of the
    configuration: the network file of member number [k] of a bond is
    [21-bn<bond address>-dev<k>.network], it matches the member link
    [en<member address>] and enslaves it to [bn<bond address>]. *)
Theorem bond_member_file_number (cfg : SystemNetworkConfig) (b : Bond.t)
  (k : nat) (m : string) :
  In b (Bonds cfg) ->
  nth_error (Bond.Members b) k = Some m ->
  exists f,
    In f (generateNetworkFileContents cfg)
    /\ Name f = "21-bn" ++ strippedHwaddr (Bond.Hwaddr b) ++ "-dev"
                  ++ FormatInt (Z.of_nat k) ++ ".network"
    /\ Contents f
       = unlines [ "[Match]"; "Name=en" ++ strippedHwaddr m; "";
                   "[Network]"; "Bond=bn" ++ strippedHwaddr (Bond.Hwaddr b);
                   "LLDP=" ++ FormatBool (Bond.LLDP b);
                   "EmitLLDP=" ++ FormatBool (Bond.LLDP b) ].
Proof.
  intros Hb Hk. exists (bondMemberNetwork b k m). split; [|split].
  - rewrite generateNetworkFileContents_eq, !in_app_iff. right. left.
    apply in_flat_map. exists b. split; [exact Hb|].
    unfold bondNetworkFiles. right. right.
    apply (nth_error_In _ k).
    now rewrite (nth_error_bondMemberFiles b _ 0 k m Hk).
  - reflexivity.
  - apply bondMemberNetwork_unlines.
Qed.


End ArtifactFacts.

Section ArtifactExamples.

#[local] Existing Instance noCasePairs.

(** X2 at the first link file of [sampleConfig]. *)
Lemma artifact_name_classes_witness :
  let f := linkFile "00" "aa:bb:cc:dd:ee:ff" in
  (HasPrefix (Name f) "00-" = true \/ HasPrefix (Name f) "01-" = true)
  /\ HasSuffix (Name f) ".link".
Proof.
  cbv zeta.
  destruct (artifact_name_classes sampleConfig) as (Hlink & _ & _).
  apply Hlink. cbn. auto.
Defined.

(** X3 at the second member of the bond of [sampleConfig]. *)
Lemma bond_member_file_number_witness :
  exists f,
    In f (generateNetworkFileContents sampleConfig)
    /\ Name f = "21-bn020000000001-dev1.network"
    /\ Contents f
       = unlines [ "[Match]"; "Name=en020000000003"; "";
                   "[Network]"; "Bond=bn020000000001";
                   "LLDP=true"; "EmitLLDP=true" ].
Proof.
  apply (bond_member_file_number sampleConfig
           (Bond.mk "bond0" "02:00:00:00:00:01" 1500 [] [] 0 true
                    ["02:00:00:00:00:02"; "02:00:00:00:00:03"] "802.3ad")
           1 "02:00:00:00:00:03").
  - cbn. auto.
  - reflexivity.
Defined.

End ArtifactExamples.

(* ================================================================== *)
(** ** Optional lines and blocks of the artifacts *)

Section OptionalParts.

Context {unicode : Unicode}.

Lemma filter_none {A : Type} (test : A -> bool) (xs : list A) :
  Forall (fun x => test x = false) xs -> filter test xs = [].
Proof.
  induction 1 as [|x xs Hx _ IH]; [reflexivity|].
  cbn. now rewrite Hx.
Qed.

Lemma mtuLines_mtuString (mtu : Z) :
  filter (fun l => HasPrefix l "MTUBytes=") [mtuString mtu]
  = if (mtu =? 0)%Z then [] else ["MTUBytes=" ++ FormatInt mtu].
Proof.
  unfold mtuString. destruct (mtu =? 0)%Z; [reflexivity|].
  cbn [negb filter]. unfold HasPrefix. now rewrite (prefix_app "MTUBytes=").
Qed.

Lemma filter_middle {A : Type} (test : A -> bool) (pre post : list A)
  (x : A) :
  filter test pre = [] -> filter test post = [] ->
  filter test (pre ++ x :: post) = filter test [x].
Proof.
  intros Hpre Hpost. rewrite filter_app, Hpre. cbn.
  destruct (test x); now rewrite Hpost.
Qed.

Lemma bridgeNetdevContents_mtuLines (name hwaddr : string) (mtu : Z) :
  noLF name = true -> noLF hwaddr = true ->
  mtuLines (bridgeNetdevContents name hwaddr mtu)
  = if (mtu =? 0)%Z then [] else ["MTUBytes=" ++ FormatInt mtu].
Proof.
  intros Hn Hh. unfold mtuLines, bridgeNetdevContents.
  change ("[NetDev]" ++ LF ++ "Name=" ++ name ++ LF ++ "Kind=bridge" ++ LF
            ++ "MACAddress=" ++ hwaddr ++ LF ++ mtuString mtu ++ LF ++ LF
            ++ "[Bridge]" ++ LF ++ "VLANFiltering=true" ++ LF)
    with (unlines [ "[NetDev]"; "Name=" ++ name; "Kind=bridge";
                    "MACAddress=" ++ hwaddr; mtuString mtu; "";
                    "[Bridge]"; "VLANFiltering=true" ]).
  rewrite lines_unlines
    by (repeat constructor; cbn; auto using noLF_mtuString).
  rewrite <- mtuLines_mtuString.
  apply (filter_middle _
           [ "[NetDev]"; "Name=" ++ name; "Kind=bridge";
             "MACAddress=" ++ hwaddr ]
           [ ""; "[Bridge]"; "VLANFiltering=true"; "" ]); reflexivity.
Qed.

(** X4. A netdev artifact carries an [MTUBytes=] line exactly when the MTU
    of its device is not zero, and then with that value, a negative one
    included: for the bridge of an interface, the bond device and the
    bridge of a bond, and the VLAN device. Names, addresses and the bond
    mode hold no line feed. *)
Theorem netdev_mtu_line :
  (forall i, interfaceOneLine i = true ->
     mtuLines (Contents (interfaceNetdev i))
     = if (Interface.MTU i =? 0)%Z then []
       else ["MTUBytes=" ++ FormatInt (Interface.MTU i)])
  /\ (forall b, bondOneLine b = true -> noLF (Bond.Mode b) = true ->
     mtuLines (Contents (bondNetdev b))
     = (if (Bond.MTU b =? 0)%Z then []
        else ["MTUBytes=" ++ FormatInt (Bond.MTU b)])
     /\ mtuLines (Contents (bondBridgeNetdev b))
        = (if (Bond.MTU b =? 0)%Z then []
           else ["MTUBytes=" ++ FormatInt (Bond.MTU b)]))
  /\ (forall v, noLF (VLAN.Name v) = true ->
     mtuLines (Contents (vlanNetdev v))
     = if (VLAN.MTU v =? 0)%Z then []
       else ["MTUBytes=" ++ FormatInt (VLAN.MTU v)]).
Proof.
  split; [|split].
  - intros i Hi. apply andb_true_iff in Hi as [Hn Hh].
    now apply bridgeNetdevContents_mtuLines.
  - intros b Hb Hmode. apply andb_true_iff in Hb as [Hn Hb].
    apply andb_true_iff in Hb as [Hh _]. split.
    + unfold mtuLines, bondNetdev. cbn [Contents].
      set (st := strippedHwaddr (Bond.Hwaddr b)).
      assert (Hst : noLF st = true) by now apply noLF_strippedHwaddr.
      change ("[NetDev]" ++ LF ++ "Name=bn" ++ st ++ LF ++ "Kind=bond" ++ LF
                ++ "MACAddress=" ++ Bond.Hwaddr b ++ LF
                ++ mtuString (Bond.MTU b) ++ LF ++ LF
                ++ "[Bond]" ++ LF ++ "Mode=" ++ Bond.Mode b ++ LF)
        with (unlines [ "[NetDev]"; "Name=bn" ++ st; "Kind=bond";
                        "MACAddress=" ++ Bond.Hwaddr b;
                        mtuString (Bond.MTU b); "";
                        "[Bond]"; "Mode=" ++ Bond.Mode b ]).
      rewrite lines_unlines
        by (repeat constructor; cbn; auto using noLF_mtuString).
      rewrite <- mtuLines_mtuString.
      apply (filter_middle _
               [ "[NetDev]"; "Name=bn" ++ st; "Kind=bond";
                 "MACAddress=" ++ Bond.Hwaddr b ]
               [ ""; "[Bond]"; "Mode=" ++ Bond.Mode b; "" ]); reflexivity.
    + now apply bridgeNetdevContents_mtuLines.
  - intros v Hv. unfold mtuLines, vlanNetdev. cbn [Contents].
    change ("[NetDev]" ++ LF ++ "Name=vl" ++ VLAN.Name v ++ LF ++ "Kind=vlan"
              ++ LF ++ mtuString (VLAN.MTU v) ++ LF ++ LF
              ++ "[VLAN]" ++ LF ++ "Id=" ++ FormatInt (VLAN.ID v) ++ LF)
      with (unlines [ "[NetDev]"; "Name=vl" ++ VLAN.Name v; "Kind=vlan";
                      mtuString (VLAN.MTU v); "";
                      "[VLAN]"; "Id=" ++ FormatInt (VLAN.ID v) ]).
    rewrite lines_unlines
      by (repeat constructor; cbn;
          auto using noLF_mtuString, noLF_FormatInt).
    rewrite <- mtuLines_mtuString.
    apply (filter_middle _
             [ "[NetDev]"; "Name=vl" ++ VLAN.Name v; "Kind=vlan" ]
             [ ""; "[VLAN]"; "Id=" ++ FormatInt (VLAN.ID v); "" ]);
      reflexivity.
Qed.


End OptionalParts.

Section OptionalPartsExamples.

#[local] Existing Instance noCasePairs.

(** X4 at an interface with MTU 9000 and at a VLAN with MTU 0. *)
Lemma netdev_mtu_line_witness :
  mtuLines (Contents (interfaceNetdev
     (Interface.mk "eth0" "aa:bb:cc:dd:ee:ff" 9000 [] [] 0 false)))
  = ["MTUBytes=9000"]
  /\ mtuLines (Contents (vlanNetdev (VLAN.mk "mgmt" "bond0" 10 0 [] [])))
     = [].
Proof.
  destruct netdev_mtu_line as (Hi & _ & Hv). split.
  - apply (Hi (Interface.mk "eth0" "aa:bb:cc:dd:ee:ff" 9000 [] [] 0 false)).
    reflexivity.
  - apply (Hv (VLAN.mk "mgmt" "bond0" 10 0 [] [])). reflexivity.
Defined.

End OptionalPartsExamples.

(* ================================================================== *)
(** ** The sections of the addressing artifacts *)

Section Sections.

Context {unicode : Unicode}.

Lemma vlanNetwork_unlines (dns : option DNS.t) (ntp : option NTP.t)
  (v : VLAN.t) :
  Contents (vlanNetwork dns ntp v) = unlines (vlanNetworkLines dns ntp v).
Proof.
  unfold vlanNetwork, vlanNetworkLines. cbn [Contents].
  rewrite generateNetworkSectionContents_unlines, processAddresses_unlines,
    processRoutes_unlines.
  rewrite !unlines_app.
  set (sect := unlines (networkSectionLines dns ntp)).
  set (addr := unlines (addressLines (VLAN.Addresses v))).
  set (rts := unlines ("" :: "[Route]" :: flat_map routeLines (VLAN.Routes v))).
  unfold dhcpBlock.
  destruct (0 <? length (VLAN.Routes v))%nat;
    fold rts; cbn [unlines];
    rewrite ?append_assoc, ?append_nil_r; reflexivity.
Qed.

Lemma networkSectionLines_keys (dns : option DNS.t) (ntp : option NTP.t) :
  Forall (fun l => HasPrefix l "[" = false) (networkSectionLines dns ntp).
Proof.
  unfold networkSectionLines. rewrite !Forall_app. split.
  - destruct dns as [d|]; [|constructor]. rewrite Forall_app. split.
    + destruct (0 <? length (DNS.SearchDomains d))%nat; repeat constructor.
    + rewrite Forall_map, Forall_forall. reflexivity.
  - destruct ntp as [n|]; [|constructor].
    rewrite Forall_map, Forall_forall. reflexivity.
Qed.

Lemma addressLines_keys (addresses : list string) :
  Forall (fun l => HasPrefix l "[" = false) (addressLines addresses).
Proof.
  unfold addressLines. rewrite !Forall_app. repeat split.
  - destruct addresses; repeat constructor.
  - rewrite Forall_map, Forall_forall. reflexivity.
  - destruct (hasToken "slaac" addresses); repeat constructor.
  - destruct (hasToken "dhcp4" addresses), (hasToken "dhcp6" addresses);
      repeat constructor.
Qed.

Lemma routeLines_keys (routes : list Route.t) :
  Forall (fun l => HasPrefix l "[" = false) (flat_map routeLines routes).
Proof.
  rewrite Forall_forall. intros l Hl.
  apply in_flat_map in Hl as (r & _ & [<- | [<- | []]]); [|reflexivity].
  unfold gatewayLine.
  destruct (String.eqb (Route.Via r) "dhcp4"); [reflexivity|].
  destruct (String.eqb (Route.Via r) "slaac"); reflexivity.
Qed.

Lemma settingsOneLine_lines (dns : option DNS.t) (ntp : option NTP.t)
  (addresses : list string) (routes : list Route.t) :
  settingsOneLine dns ntp addresses routes = true ->
  Forall (fun l => noLF l = true) (networkSectionLines dns ntp)
  /\ Forall (fun l => noLF l = true) (addressLines addresses)
  /\ Forall (fun l => noLF l = true) (flat_map routeLines routes).
Proof.
  unfold settingsOneLine. intros H.
  apply andb_true_iff in H as [Ha H]. apply andb_true_iff in H as [Hr H].
  apply andb_true_iff in H as [Hd Hn].
  rewrite forallb_forall in Ha, Hr. split; [|split].
  - eapply Forall_impl; [|exact (networkSectionLines_plain dns ntp Hd Hn)].
    now intros l [Hl _].
  - apply addressLines_noLF. now rewrite Forall_forall.
  - apply routeLines_noLF. now rewrite Forall_forall.
Qed.

Lemma bridgeNetworkContents_sections (dns : option DNS.t)
  (ntp : option NTP.t) (name : string) (addresses : list string)
  (routes : list Route.t) (vlan : Z) :
  noLF name = true ->
  settingsOneLine dns ntp addresses routes = true ->
  sectionHeaders (bridgeNetworkContents dns ntp name addresses routes vlan)
  = (["[Match]"; "[DHCP]"; "[Network]"]
       ++ (match routes with [] => [] | _ :: _ => ["[Route]"] end)
       ++ (if (vlan =? 0)%Z then [] else ["[BridgeVLAN]"]))%list.
Proof.
  intros Hn Hs.
  destruct (settingsOneLine_lines _ _ _ _ Hs) as (Hsect & Haddr & Hrts).
  unfold sectionHeaders.
  rewrite bridgeNetworkContents_unlines, lines_unlines.
  - unfold bridgeNetworkLines. rewrite !filter_app.
    rewrite (filter_none _ _ (networkSectionLines_keys dns ntp)).
    rewrite (filter_none _ _ (addressLines_keys addresses)).
    cbn [app]. f_equal.
    + destruct routes as [|r rs]; [now destruct (vlan =? 0)%Z|].
      change (0 <? length (r :: rs))%nat with true. cbv iota.
      change (filter (fun l => HasPrefix l "[")
                ("" :: "[Route]" :: flat_map routeLines (r :: rs)))
        with ("[Route]"
                :: filter (fun l => HasPrefix l "[")
                     (flat_map routeLines (r :: rs))).
      rewrite (filter_none _ _ (routeLines_keys (r :: rs))).
      now destruct (vlan =? 0)%Z.
  - unfold bridgeNetworkLines. rewrite !Forall_app. repeat split; auto.
    + repeat constructor. exact Hn.
    + destruct (0 <? length routes)%nat; repeat constructor. exact Hrts.
    + destruct (negb (vlan =? 0)%Z); repeat constructor.
      cbn. apply noLF_FormatInt.
Qed.

(** X5. The sections of the addressing artifacts, in order: [[Match]],
    [[DHCP]], [[Network]], then [[Route]] exactly when the device has a
    route, then, for interfaces and bonds, [[BridgeVLAN]] exactly when its
    PVID is not zero. The artifact of a VLAN never has a [[BridgeVLAN]]
    section. Names and settings hold no line feed. *)
Theorem addressing_artifact_sections (dns : option DNS.t)
  (ntp : option NTP.t) :
  (forall i,
     noLF (Interface.Name i) = true ->
     settingsOneLine dns ntp (Interface.Addresses i) (Interface.Routes i)
     = true ->
     sectionHeaders (Contents (interfaceNetwork dns ntp i))
     = (["[Match]"; "[DHCP]"; "[Network]"]
          ++ (match Interface.Routes i with [] => [] | _ :: _ => ["[Route]"] end)
          ++ (if (Interface.VLAN i =? 0)%Z then [] else ["[BridgeVLAN]"]))%list)
  /\ (forall b,
     noLF (Bond.Name b) = true ->
     settingsOneLine dns ntp (Bond.Addresses b) (Bond.Routes b) = true ->
     sectionHeaders (Contents (bondNetwork dns ntp b))
     = (["[Match]"; "[DHCP]"; "[Network]"]
          ++ (match Bond.Routes b with [] => [] | _ :: _ => ["[Route]"] end)
          ++ (if (Bond.VLAN b =? 0)%Z then [] else ["[BridgeVLAN]"]))%list)
  /\ (forall v,
     noLF (VLAN.Parent v) = true -> noLF (VLAN.Name v) = true ->
     settingsOneLine dns ntp (VLAN.Addresses v) (VLAN.Routes v) = true ->
     sectionHeaders (Contents (vlanNetwork dns ntp v))
     = (["[Match]"; "[DHCP]"; "[Network]"]
          ++ (match VLAN.Routes v with [] => [] | _ :: _ => ["[Route]"] end))%list).
Proof.
  split; [|split].
  - intros i Hn Hs. now apply bridgeNetworkContents_sections.
  - intros b Hn Hs. now apply bridgeNetworkContents_sections.
  - intros v Hp Hn Hs.
    destruct (settingsOneLine_lines _ _ _ _ Hs) as (Hsect & Haddr & Hrts).
    unfold sectionHeaders. rewrite vlanNetwork_unlines, lines_unlines.
    + unfold vlanNetworkLines. rewrite !filter_app.
      rewrite (filter_none _ _ (networkSectionLines_keys dns ntp)).
      rewrite (filter_none _ _ (addressLines_keys (VLAN.Addresses v))).
      cbn [app]. rewrite app_nil_r. f_equal.
      destruct (VLAN.Routes v) as [|r rs]; [reflexivity|].
      change (0 <? length (r :: rs))%nat with true. cbv iota.
      change (filter (fun l => HasPrefix l "[")
                ("" :: "[Route]" :: flat_map routeLines (r :: rs)))
        with ("[Route]"
                :: filter (fun l => HasPrefix l "[")
                     (flat_map routeLines (r :: rs))).
      now rewrite (filter_none _ _ (routeLines_keys (r :: rs))).
    + unfold vlanNetworkLines. rewrite !Forall_app. repeat split; auto.
      * repeat constructor; [exact Hp | exact Hn].
      * destruct (0 <? length (VLAN.Routes v))%nat; repeat constructor.
        exact Hrts.
Qed.

(** X5 at the interface of the end-to-end configuration with a default
    route and PVID 5. *)
Lemma addressing_artifact_sections_witness :
  sectionHeaders
    (Contents (interfaceNetwork None None
       (Interface.mk "eth-main" "aa:bb:cc:dd:ee:ff" 0 ["192.0.2.5/24"]
                     [Route.mk "0.0.0.0/0" "192.0.2.1"] 5 false)))
  = ["[Match]"; "[DHCP]"; "[Network]"; "[Route]"; "[BridgeVLAN]"].
Proof.
  destruct (addressing_artifact_sections None None) as (Hi & _ & _).
  apply (Hi (Interface.mk "eth-main" "aa:bb:cc:dd:ee:ff" 0 ["192.0.2.5/24"]
                          [Route.mk "0.0.0.0/0" "192.0.2.1"] 5 false));
    reflexivity.
Defined.

End Sections.

(* ================================================================== *)
(** ** DNS and NTP lines, stripped addresses, the host name *)

Section SmallParts.

Context {unicode : Unicode}.

(** X6. The DNS and NTP lines of the [[Network]] section, in order: one
    [Domains=] line with all search domains separated by spaces, when there
    is a search domain; one [DNS=] line per name server; one [NTP=] line per
    time server; nothing for an absent setting. The settings hold no line
    feed. *)
Theorem network_section_lines (dns : option DNS.t) (ntp : option NTP.t) :
  dnsOneLine dns = true ->
  ntpOneLine ntp = true ->
  lines (generateNetworkSectionContents dns ntp)
  = (match dns with
     | Some d =>
         match DNS.SearchDomains d with
         | [] => []
         | _ :: _ => [("Domains=" ++ Join (DNS.SearchDomains d) " ")%string]
         end
         ++ map (fun ns => ("DNS=" ++ ns)%string) (DNS.Nameservers d)
     | None => []
     end
     ++ match ntp with
        | Some n => map (fun ts => ("NTP=" ++ ts)%string) (NTP.Timeservers n)
        | None => []
        end
     ++ [""])%list.
Proof.
  intros Hd Hn.
  rewrite generateNetworkSectionContents_unlines, lines_unlines.
  - unfold networkSectionLines. rewrite <- app_assoc.
    destruct dns as [d|]; [|reflexivity].
    now destruct (DNS.SearchDomains d).
  - eapply Forall_impl; [|exact (networkSectionLines_plain dns ntp Hd Hn)].
    now intros l [Hl _].
Qed.

(** X6 at two search domains, one name server and two time servers. *)
Lemma network_section_lines_witness :
  lines (generateNetworkSectionContents
           (Some (DNS.mk "host" "example.net" ["example.net"; "example.org"]
                         ["192.0.2.53"]))
           (Some (NTP.mk ["ntp1.example.net"; "ntp2.example.net"])))
  = [ "Domains=example.net example.org"; "DNS=192.0.2.53";
      "NTP=ntp1.example.net"; "NTP=ntp2.example.net"; "" ].
Proof.
  apply (network_section_lines
           (Some (DNS.mk "host" "example.net" ["example.net"; "example.org"]
                         ["192.0.2.53"]))
           (Some (NTP.mk ["ntp1.example.net"; "ntp2.example.net"])));
    reflexivity.
Defined.

Lemma lowerByte_stripped (c : ascii) :
  Ascii.eqb c ":"%char = false -> strippedByte (lowerByte c) = true.
Proof.
  destruct c as [[] [] [] [] [] [] [] []]; intros H;
    solve [reflexivity | discriminate H].
Qed.

Lemma lowerByte_fixed (c : ascii) :
  strippedByte c = true -> lowerByte c = c.
Proof.
  destruct c as [[] [] [] [] [] [] [] []]; intros H;
    solve [reflexivity | discriminate H].
Qed.

Lemma lowerByte_ascii (c : ascii) :
  Nat.ltb (nat_of_ascii c) 128 = true ->
  Nat.ltb (nat_of_ascii (lowerByte c)) 128 = true.
Proof.
  destruct c as [[] [] [] [] [] [] [] []]; intros H;
    solve [reflexivity | discriminate H].
Qed.

Lemma isASCII_removeColons (s : string) :
  isASCII s = true -> isASCII (removeColons s) = true.
Proof.
  induction s as [|c s IH]; [reflexivity|].
  cbn [isASCII removeColons]. intros H. apply andb_true_iff in H as [Hc Hs].
  destruct (Ascii.eqb c ":"%char); [now apply IH|].
  cbn [isASCII]. now rewrite Hc, IH.
Qed.

Lemma isASCII_lowerASCII (s : string) :
  isASCII s = true -> isASCII (lowerASCII s) = true.
Proof.
  induction s as [|c s IH]; [reflexivity|].
  cbn [isASCII lowerASCII]. intros H. apply andb_true_iff in H as [Hc Hs].
  now rewrite (lowerByte_ascii _ Hc), IH.
Qed.

(** On ASCII bytes the stripped address is computed by the fast path. *)
Lemma strippedHwaddr_ascii (hwaddr : string) :
  isASCII hwaddr = true ->
  strippedHwaddr hwaddr = lowerASCII (removeColons hwaddr).
Proof.
  intros H. unfold strippedHwaddr, ToLower.
  now rewrite (isASCII_removeColons _ H).
Qed.

Lemma stripped_bytes (hwaddr : string) :
  allBytes strippedByte (lowerASCII (removeColons hwaddr)) = true.
Proof.
  induction hwaddr as [|c s IH]; [reflexivity|].
  cbn [removeColons]. destruct (Ascii.eqb c ":"%char) eqn:E; [exact IH|].
  cbn [lowerASCII allBytes]. now rewrite (lowerByte_stripped _ E), IH.
Qed.

Lemma stripped_fixed (s : string) :
  allBytes strippedByte s = true -> lowerASCII (removeColons s) = s.
Proof.
  induction s as [|c s IH]; [reflexivity|].
  cbn [allBytes]. intros H. apply andb_true_iff in H as [Hc Hs].
  cbn [removeColons].
  assert (E : Ascii.eqb c ":"%char = false).
  { unfold strippedByte in Hc. apply andb_true_iff in Hc as [Hc _].
    now apply negb_true_iff in Hc. }
  rewrite E. cbn [lowerASCII]. now rewrite (lowerByte_fixed _ Hc), (IH Hs).
Qed.

Lemma stripped_lowered (s : string) :
  lowerASCII (removeColons (lowerASCII s)) = lowerASCII (removeColons s).
Proof.
  induction s as [|c s IH]; [reflexivity|].
  cbn [lowerASCII removeColons].
  assert (E : Ascii.eqb (lowerByte c) ":"%char = Ascii.eqb c ":"%char)
    by (destruct c as [[] [] [] [] [] [] [] []]; reflexivity).
  rewrite E. destruct (Ascii.eqb c ":"%char); [exact IH|].
  cbn [lowerASCII]. rewrite IH. f_equal.
  destruct c as [[] [] [] [] [] [] [] []]; reflexivity.
Qed.

Lemma removeColons_twice (s : string) :
  removeColons (removeColons s) = removeColons s.
Proof.
  induction s as [|c s IH]; [reflexivity|].
  cbn [removeColons]. destruct (Ascii.eqb c ":"%char) eqn:E; [exact IH|].
  cbn [removeColons]. now rewrite E, IH.
Qed.

(** X7. Colons that are already removed make no difference to the stripped
    form of a hardware address. For an address of ASCII bytes, as hardware
    addresses are, the stripped form, which names the links and the files,
    holds no colon and no upper-case letter, stripping it again changes
    nothing, and lowering the address first gives the same: addresses that
    differ only in case or in their colons get the same link name. Outside
    ASCII the lowering is the one of the Unicode tables and nothing of this
    is claimed. *)
Theorem strippedHwaddr_canonical (hwaddr : string) :
  strippedHwaddr (removeColons hwaddr) = strippedHwaddr hwaddr
  /\ (isASCII hwaddr = true ->
      allBytes strippedByte (strippedHwaddr hwaddr) = true
      /\ strippedHwaddr (strippedHwaddr hwaddr) = strippedHwaddr hwaddr
      /\ strippedHwaddr (ToLower hwaddr) = strippedHwaddr hwaddr).
Proof.
  split.
  - unfold strippedHwaddr. now rewrite removeColons_twice.
  - intros H.
    assert (Hs : isASCII (strippedHwaddr hwaddr) = true).
    { rewrite (strippedHwaddr_ascii _ H).
      now apply isASCII_lowerASCII, isASCII_removeColons. }
    split; [|split].
    + rewrite (strippedHwaddr_ascii _ H). apply stripped_bytes.
    + rewrite (strippedHwaddr_ascii _ Hs). apply stripped_fixed.
      rewrite (strippedHwaddr_ascii _ H). apply stripped_bytes.
    + assert (Hl : ToLower hwaddr = lowerASCII hwaddr)
        by (unfold ToLower; now rewrite H).
      rewrite Hl, (strippedHwaddr_ascii _ (isASCII_lowerASCII _ H)),
        (strippedHwaddr_ascii _ H).
      apply stripped_lowered.
Qed.

(** The host name handed to [SetHostname] is empty exactly when the
    configuration has no DNS settings or an empty host name there; a domain
    alone gives no host name. Otherwise it starts with the configured host
    name, and is that name when the domain is empty. *)
Theorem targetHostname_empty_iff (networkCfg : SystemNetworkConfig) :
  (targetHostname networkCfg = ""
   <-> (DNS networkCfg = None
        \/ exists dns, DNS networkCfg = Some dns /\ DNS.Hostname dns = ""))
  /\ (forall dns, DNS networkCfg = Some dns -> DNS.Hostname dns <> "" ->
        targetHostname networkCfg
        = if String.eqb (DNS.Domain dns) ""
          then DNS.Hostname dns
          else DNS.Hostname dns ++ "." ++ DNS.Domain dns).
Proof.
  unfold targetHostname. destruct (DNS networkCfg) as [dns|]; split.
  - destruct (String.eqb_spec (DNS.Hostname dns) "") as [E|N]; cbn [negb].
    + split; [intros _; right; eauto | reflexivity].
    + split.
      * intros H. exfalso.
        destruct (String.eqb (DNS.Domain dns) ""); cbn [negb] in H;
          destruct (DNS.Hostname dns); try discriminate H; now apply N.
      * intros [H | (d & [= <-] & H)]; [discriminate H | now elim N].
  - intros d [= <-] N. apply String.eqb_neq in N. rewrite N. cbn [negb].
    now destruct (String.eqb (DNS.Domain dns) "").
  - split; [auto | reflexivity].
  - intros d H. discriminate H.
Qed.

(** [targetHostname_empty_iff] at a host name with a domain. *)
Lemma targetHostname_empty_iff_witness :
  targetHostname
    {| Interfaces := []; Bonds := []; VLANs := [];
       DNS := Some (DNS.mk "host" "example.net" [] []);
       NTP := None; Proxy := None |}
  = "host.example.net".
Proof.
  destruct (targetHostname_empty_iff
              {| Interfaces := []; Bonds := []; VLANs := [];
                 DNS := Some (DNS.mk "host" "example.net" [] []);
                 NTP := None; Proxy := None |}) as [_ H].
  apply (H (DNS.mk "host" "example.net" [] [])); [reflexivity | discriminate].
Defined.

End SmallParts.

Section SmallPartsExamples.

#[local] Existing Instance noCasePairs.

(** X7 at an address of mixed case. *)
Lemma strippedHwaddr_canonical_witness :
  strippedHwaddr "AA:bb:Cc:00:1E:ff" = "aabbcc001eff"
  /\ allBytes strippedByte (strippedHwaddr "AA:bb:Cc:00:1E:ff") = true
  /\ strippedHwaddr (strippedHwaddr "AA:bb:Cc:00:1E:ff")
     = strippedHwaddr "AA:bb:Cc:00:1E:ff"
  /\ strippedHwaddr (ToLower "AA:bb:Cc:00:1E:ff")
     = strippedHwaddr "AA:bb:Cc:00:1E:ff".
Proof.
  split; [reflexivity|].
  apply (proj2 (strippedHwaddr_canonical "AA:bb:Cc:00:1E:ff")).
  reflexivity.
Defined.

End SmallPartsExamples.

(* ================================================================== *)
(** ** The calls of [generateNetworkConfiguration] *)

Section GenerateFacts.

Context {unicode : Unicode} {env : ApplyEnv}.

Lemma generateNetworkConfiguration_runSteps
  (networkCfg : SystemNetworkConfig) (done : list Effect) :
  generateNetworkConfiguration networkCfg done
  = runSteps (generateSteps networkCfg) done.
Proof.
  unfold generateNetworkConfiguration, generateSteps.
  cbn [app runSteps must may].
  apply orReturn_ext; [reflexivity | intros d1].
  apply orReturn_ext; [reflexivity | intros d2].
  rewrite runSteps_app.
  apply orReturn_ext; [apply writeFiles_runSteps | intros d3].
  rewrite runSteps_app.
  apply orReturn_ext; [apply writeFiles_runSteps | intros d4].
  rewrite runSteps_app.
  apply orReturn_ext; [apply writeFiles_runSteps | intros d5].
  apply timesync_runSteps.
Qed.

Lemma timesyncSteps_call (networkCfg : SystemNetworkConfig) :
  map snd (timesyncSteps networkCfg) = [timesyncCall networkCfg].
Proof.
  unfold timesyncSteps, timesyncCall, generateTimesyncContents.
  destruct (NTP networkCfg) as [ntp|]; [|reflexivity].
  destruct (NTP.Timeservers ntp); reflexivity.
Qed.

Lemma generateSteps_calls (networkCfg : SystemNetworkConfig) :
  map snd (generateSteps networkCfg)
  = ([RemoveAll SystemdNetworkConfigPath; Mkdir SystemdNetworkConfigPath]
       ++ artifactWrites networkCfg ++ [timesyncCall networkCfg])%list.
Proof.
  unfold generateSteps, artifactWrites, writeSteps.
  rewrite !map_app, !map_map, timesyncSteps_call. cbn [map snd must app].
  now rewrite <- !app_assoc.
Qed.

Lemma generateSteps_must (networkCfg : SystemNetworkConfig) (e : Effect) :
  In (true, e) (generateSteps networkCfg) -> forall path, e <> Remove path.
Proof.
  unfold generateSteps, writeSteps, timesyncSteps. intros H path.
  rewrite !in_app_iff, !in_map_iff in H.
  destruct H as [H | [H | [H | [H | H]]]].
  - destruct H as [[= <-] | [[= <-] | []]]; discriminate.
  - destruct H as (f & [= <-] & _). discriminate.
  - destruct H as (f & [= <-] & _). discriminate.
  - destruct H as (f & [= <-] & _). discriminate.
  - destruct (NTP networkCfg) as [ntp|].
    + destruct (negb _); destruct H as [[= <-] | []]. discriminate.
    + destruct H as [[=] | []].
Qed.

(** X8. [generateNetworkConfiguration] on success has made exactly these
    calls: the removal of the configuration directory, its creation, the
    write of every link, netdev and network artifact in this order, and
    one call on the time-sync file, which is written when a time server is
    configured and removed otherwise. When it fails, the failing call is
    the last one made and is never the removal of the time-sync file; and
    it succeeds whenever every call other than that removal does. *)
Theorem generate_network_configuration_calls
  (networkCfg : SystemNetworkConfig) (done : list Effect) :
  let steps := generateSteps networkCfg in
  let result := generateNetworkConfiguration networkCfg done in
  (fst result = None ->
     snd result
     = (done ++ [RemoveAll SystemdNetworkConfigPath;
                 Mkdir SystemdNetworkConfigPath]
          ++ artifactWrites networkCfg ++ [timesyncCall networkCfg])%list)
  /\ (forall err, fst result = Some err ->
        exists m e,
          nth_error steps m = Some (true, e)
          /\ outcome (done ++ callsOf m steps) e = Some err
          /\ snd result = (done ++ callsOf (S m) steps)%list
          /\ forall path, e <> Remove path)
  /\ ((forall calls e, (forall path, e <> Remove path) ->
         outcome calls e = None) ->
      fst result = None).
Proof.
  intros steps result. subst steps result.
  rewrite generateNetworkConfiguration_runSteps.
  destruct (runSteps_first_failure (generateSteps networkCfg) done)
    as (m & Hbefore & Hend).
  destruct (fst (runSteps (generateSteps networkCfg) done)) as [err|] eqn:E.
  - destruct Hend as (e & Hnth & Hout & Htr).
    assert (Hmust : forall path, e <> Remove path)
      by (apply (generateSteps_must networkCfg), (nth_error_In _ m), Hnth).
    split; [discriminate|]. split.
    + intros err' [= <-]. exists m, e. auto.
    + intros Hok. rewrite (Hok _ e Hmust) in Hout. discriminate Hout.
  - destruct Hend as [_ Htr]. split; [|split; [discriminate | reflexivity]].
    intros _. now rewrite Htr, generateSteps_calls.
Qed.

End GenerateFacts.

(** X8 in an environment in which only the removal of a file fails. *)
Lemma generate_network_configuration_calls_witness :
  let removeFails :=
    {| SystemdNetworkConfigPath := "/run/systemd/network";
       SystemdTimesyncConfigFile := "/run/systemd/timesyncd.conf";
       filepathJoin := joinSlash;
       NetworkSeedExists := false;
       outcome := fun _ e => match e with
                             | Remove _ => Some "no such file"
                             | _ => None
                             end |} in
  let result := @generateNetworkConfiguration noCasePairs removeFails oneInterface [] in
  fst result = None
  /\ snd result
     = ([RemoveAll "/run/systemd/network"; Mkdir "/run/systemd/network"]
          ++ @artifactWrites noCasePairs removeFails oneInterface
          ++ [Remove "/run/systemd/timesyncd.conf"])%list.
Proof.
  cbv zeta.
  set (removeFails :=
    {| SystemdNetworkConfigPath := "/run/systemd/network";
       SystemdTimesyncConfigFile := "/run/systemd/timesyncd.conf";
       filepathJoin := joinSlash;
       NetworkSeedExists := false;
       outcome := fun _ e => match e with
                             | Remove _ => Some "no such file"
                             | _ => None
                             end |}).
  destruct (@generate_network_configuration_calls noCasePairs removeFails oneInterface [])
    as (Hok & _ & Hsucc).
  assert (E : fst (@generateNetworkConfiguration noCasePairs removeFails oneInterface [])
              = None).
  { apply Hsucc. intros calls e Hne. destruct e; try reflexivity.
    now elim (Hne path). }
  split; [exact E | exact (Hok E)].
Defined.

(* ================================================================== *)
(** ** Further properties of the convergence wait *)

Section WaiterMore.

Context {env : WaitEnv}.

(** What a result of the loop tells, whatever the clock does: the turns
    before the last started by the deadline and failed; [nil] comes from a
    turn that started by the deadline and whose verdict holds; an error is
    the timeout error and comes from a turn past the deadline. *)
Lemma waitLoop_sound (networkCfg : SystemNetworkConfig) (requireAll : bool)
  (endTime : Z) (fuel : nat) :
  forall (st st' : WaitState) (r : error),
    waitLoop fuel endTime networkCfg requireAll st = Some (r, st') ->
    (cycle st <= cycle st')%nat
    /\ (cycle st' - cycle st < fuel)%nat
    /\ (forall j, (cycle st <= j < cycle st')%nat ->
          (nowAt j <= endTime)%Z
          /\ verdictAt networkCfg requireAll j = false)
    /\ (r = None ->
          (nowAt (cycle st') <= endTime)%Z
          /\ verdictAt networkCfg requireAll (cycle st') = true)
    /\ (forall e, r = Some e ->
          e = timedOut /\ (nowAt (cycle st') > endTime)%Z).
Proof.
  induction fuel as [|fuel IH]; intros st st' r H; [discriminate H|].
  cbn [waitLoop] in H.
  destruct (nowAt (cycle st) >? endTime)%Z eqn:Hc.
  - injection H as <- <-. cbn [cycle]. apply Z.gtb_gt in Hc.
    split; [lia|]. split; [lia|]. split; [intros j Hj; lia|].
    split; [discriminate|].
    intros e [= <-]. split; [reflexivity | exact Hc].
  - rewrite Z.gtb_ltb in Hc. apply Z.ltb_ge in Hc.
    destruct (pollCycle networkCfg requireAll (cycle st) _)
      as [done evs] eqn:P.
    pose proof (pollCycle_verdict networkCfg requireAll (cycle st)
                  ((events st ++ [ReadClock (nowAt (cycle st))])
                     ++ [Slept (500 * Millisecond)])%list) as V.
    rewrite P in V. cbn [fst] in V.
    destruct done.
    + injection H as <- <-. cbn [cycle].
      split; [lia|]. split; [lia|]. split; [intros j Hj; lia|].
      split; [|discriminate].
      intros _. split; [exact Hc | now symmetry].
    + apply IH in H. cbn [cycle] in H.
      destruct H as (Hle & Hfuel & Hbefore & Hnil & Herr).
      split; [lia|]. split; [lia|]. split; [|split; assumption].
      intros j Hj.
      destruct (Nat.eq_dec j (cycle st)) as [-> | Hne].
      * split; [exact Hc | now symmetry].
      * apply Hbefore. lia.
Qed.

(** X9. Whatever the clock and for every bound on the turns: when the wait
    returns [nil], it does so from a poll cycle that started by the deadline
    and whose verdict holds, every earlier cycle having failed; the only
    error it returns is the timeout error, and then the clock reading of
    that turn is past the deadline. It never reports success without a
    cycle in which the policy was met. *)
Theorem wait_result_sound (networkCfg : SystemNetworkConfig) (timeout : Z)
  (requireAll : bool) (fuel : nat) (r : error) (st : WaitState) :
  waitForNetworkRoutable fuel networkCfg timeout requireAll = Some (r, st) ->
  (forall j, (j < cycle st)%nat ->
     (nowAt j <= startTime + timeout)%Z
     /\ verdictAt networkCfg requireAll j = false)
  /\ (r = None ->
        (nowAt (cycle st) <= startTime + timeout)%Z
        /\ verdictAt networkCfg requireAll (cycle st) = true)
  /\ (forall e, r = Some e ->
        e = timedOut /\ (nowAt (cycle st) > startTime + timeout)%Z).
Proof.
  intros H. apply waitLoop_sound in H. cbn [cycle] in H.
  destruct H as (_ & _ & Hbefore & Hnil & Herr).
  split; [|split; assumption].
  intros j Hj. apply Hbefore. lia.
Qed.

Lemma categoryVerdict_all_any (routable : string -> bool)
  (names : list string) :
  categoryVerdict true routable names = true ->
  categoryVerdict false routable names = true.
Proof.
  destruct names as [|n ns]; [reflexivity|]. cbn.
  intros H. apply andb_true_iff in H as [Hn _]. now rewrite Hn.
Qed.

Lemma cycleVerdict_all_any (routable : string -> bool)
  (networkCfg : SystemNetworkConfig) :
  cycleVerdict true routable networkCfg = true ->
  cycleVerdict false routable networkCfg = true.
Proof.
  unfold cycleVerdict. intros H.
  apply andb_true_iff in H as [Hi H]. apply andb_true_iff in H as [Hb Hv].
  now rewrite !categoryVerdict_all_any.
Qed.

(** X10. Requiring all devices is the stricter policy: whenever the wait
    that requires all devices returns [nil] at some poll cycle, the wait
    that requires one device per category, run in the same environment,
    returns [nil] at that cycle or an earlier one. *)
Theorem wait_all_implies_any (networkCfg : SystemNetworkConfig)
  (timeout : Z) (fuel k : nat) (evs : list WaitEvent) :
  waitForNetworkRoutable fuel networkCfg timeout true
  = Some (None, mkWaitState k evs) ->
  exists k' evs',
    (k' <= k)%nat
    /\ waitForNetworkRoutable fuel networkCfg timeout false
       = Some (None, mkWaitState k' evs').
Proof.
  intros H. pose proof H as Hs. apply waitLoop_sound in Hs.
  cbn [cycle] in Hs. destruct Hs as (_ & Hfuel & Hbefore & Hnil & _).
  destruct (Hnil eq_refl) as [Hin Hall].
  assert (Hany : verdictAt networkCfg false k = true)
    by (now apply cycleVerdict_all_any).
  destruct (least_index (verdictAt networkCfg false) k Hany)
    as (k' & Hle & Hk' & Hlt).
  destruct (waitLoop_reaches networkCfg false (startTime + timeout) k' fuel
              (mkWaitState 0 [ReadClock startTime])) as [_ Hok].
  - intros j Hj. cbn [cycle Nat.add]. split; [|now apply Hlt].
    apply Hbefore. lia.
  - lia.
  - cbn [cycle Nat.add] in Hok.
    destruct Hok as [evs' E]; [|exact Hk'|].
    + destruct (Nat.eq_dec k' k) as [-> | Hne]; [exact Hin|].
      apply Hbefore. lia.
    + exists k', evs'. split; [exact Hle | exact E].
Qed.

(** X11. The two cases without any query. When the first clock reading of
    the loop is already past the deadline (a negative timeout, say) the
    wait returns the timeout error at once: it does not sleep and asks for
    no device, routable or not. When the configuration has no device at
    all, the wait returns [nil] after its first sleep. *)
Theorem wait_without_queries (networkCfg : SystemNetworkConfig)
  (timeout : Z) (requireAll : bool) (fuel : nat) :
  ((nowAt 0 > startTime + timeout)%Z ->
     waitForNetworkRoutable (S fuel) networkCfg timeout requireAll
     = Some (Some timedOut,
             mkWaitState 0 [ReadClock startTime; ReadClock (nowAt 0)]))
  /\ ((nowAt 0 <= startTime + timeout)%Z ->
      hasDevices networkCfg = false ->
      waitForNetworkRoutable (S fuel) networkCfg timeout requireAll
      = Some (None,
              mkWaitState 0 [ReadClock startTime; ReadClock (nowAt 0);
                             Slept (500 * Millisecond)])).
Proof.
  unfold waitForNetworkRoutable. cbn [waitLoop cycle events app]. split.
  - intros Hc. apply Z.gtb_gt in Hc. now rewrite Hc.
  - intros Hc Hd.
    assert (E : (nowAt 0 >? startTime + timeout)%Z = false)
      by (rewrite Z.gtb_ltb; apply Z.ltb_ge; lia).
    rewrite E. unfold hasDevices in Hd. apply negb_false_iff in Hd.
    apply andb_true_iff in Hd as [Hi Hd].
    apply andb_true_iff in Hd as [Hb Hv].
    apply Nat.eqb_eq, length_zero_iff_nil in Hi, Hb, Hv.
    unfold pollCycle. rewrite Hi, Hb, Hv. reflexivity.
Qed.

(** X12. A category that fails ends the poll cycle: when the verdict of the
    interfaces fails, no bond and no VLAN is asked for in that cycle; when
    the interfaces pass and the bonds fail, no VLAN is; every category
    that is reached is asked for all its devices, passing or not. *)
Theorem poll_cycle_queries (networkCfg : SystemNetworkConfig)
  (requireAll : bool) (k : nat) (evs : list WaitEvent) :
  let interfaces := map Interface.Name (Interfaces networkCfg) in
  let bonds := map Bond.Name (Bonds networkCfg) in
  let vlans := map VLAN.Name (VLANs networkCfg) in
  let queried := snd (pollCycle networkCfg requireAll k evs) in
  (categoryVerdict requireAll (isRoutable k) interfaces = false ->
     queried = (evs ++ map Queried interfaces)%list)
  /\ (categoryVerdict requireAll (isRoutable k) interfaces = true ->
      categoryVerdict requireAll (isRoutable k) bonds = false ->
      queried = (evs ++ map Queried (interfaces ++ bonds))%list)
  /\ (categoryVerdict requireAll (isRoutable k) interfaces = true ->
      categoryVerdict requireAll (isRoutable k) bonds = true ->
      queried = (evs ++ map Queried (interfaces ++ bonds ++ vlans))%list).
Proof.
  cbv zeta. rewrite pollCycle_events. unfold queriedNames.
  repeat split.
  - intros ->. now rewrite app_nil_r.
  - intros -> ->. now rewrite app_nil_r.
  - intros -> ->. reflexivity.
Qed.

Section ClockMore.

Hypothesis start_before_loop : (startTime <= nowAt 0)%Z.
Hypothesis sleep_elapses :
  forall k, (nowAt k + 500 * Millisecond <= nowAt (S k))%Z.

(** X13. With a clock that advances by the sleep of each turn, the wait,
    given more turns than [timeout / 500ms + 1], returns, with success or
    with the timeout error, and it does so after at most
    [timeout / 500ms + 1] poll cycles: the number of queries it makes is
    bounded by the timeout. *)
Theorem wait_cycle_bound (networkCfg : SystemNetworkConfig) (timeout : Z)
  (requireAll : bool) (fuel : nat) :
  (waitBound timeout < fuel)%nat ->
  exists r st,
    waitForNetworkRoutable fuel networkCfg timeout requireAll = Some (r, st)
    /\ (r = None \/ r = Some timedOut)
    /\ (cycle st <= waitBound timeout)%nat.
Proof.
  intros Hfuel.
  destruct (wait_first_exit start_before_loop sleep_elapses networkCfg
              timeout requireAll fuel Hfuel)
    as (k & evs & Hbefore & [(Hc & E) | (Hc & Hv & E)]).
  - exists (Some timedOut), (mkWaitState k evs).
    split; [exact E|]. split; [right; reflexivity|]. cbn [cycle].
    destruct (Nat.le_gt_cases k (waitBound timeout)) as [Hle | Hgt];
      [exact Hle|].
    destruct (Hbefore _ Hgt) as [Hin _].
    pose proof (deadline_passes start_before_loop sleep_elapses timeout).
    lia.
  - exists None, (mkWaitState k evs).
    split; [exact E|]. split; [left; reflexivity|]. cbn [cycle].
    destruct (Nat.le_gt_cases k (waitBound timeout)) as [Hle | Hgt];
      [exact Hle|].
    destruct (Hbefore _ Hgt) as [Hin _].
    pose proof (deadline_passes start_before_loop sleep_elapses timeout).
    lia.
Qed.

End ClockMore.

End WaiterMore.

Section WaiterMoreExamples.

(** X9 on the run of [wait_quorum_witness] that requires one bond. *)
Lemma wait_result_sound_witness :
  exists st,
    @waitForNetworkRoutable onlyBond0Env 30 twoBonds (10 * Second) false
    = Some (None, st)
    /\ @verdictAt onlyBond0Env twoBonds false (cycle st) = true.
Proof.
  destruct (@waitForNetworkRoutable onlyBond0Env 30 twoBonds (10 * Second)
              false) as [[r st]|] eqn:E; [|discriminate E].
  assert (Hr : r = None) by (vm_compute in E; congruence).
  subst r. exists st. split; [reflexivity|].
  destruct (@wait_result_sound onlyBond0Env twoBonds (10 * Second) false 30
              None st E) as (_ & Hnil & _).
  now apply Hnil.
Defined.

(** X10 at a configuration whose devices are all routable. *)
Lemma wait_all_implies_any_witness :
  exists k' evs',
    (k' <= 0)%nat
    /\ @waitForNetworkRoutable allRoutableEnv 5 sampleConfig (10 * Second)
         false
       = Some (None, mkWaitState k' evs').
Proof.
  eapply (@wait_all_implies_any allRoutableEnv sampleConfig (10 * Second) 5 0).
  vm_compute. reflexivity.
Defined.

(** X11 at a negative timeout. *)
Lemma wait_without_queries_witness :
  @waitForNetworkRoutable allRoutableEnv 5 sampleConfig (-1) true
  = Some (Some timedOut, mkWaitState 0 [ReadClock 0; ReadClock 0]).
Proof.
  destruct (@wait_without_queries allRoutableEnv sampleConfig (-1) true 4)
    as [H _].
  apply H. vm_compute. reflexivity.
Defined.

(** X12 at [twoBonds] when all bonds are required: the cycle asks for both
    bonds. *)
Lemma poll_cycle_queries_witness :
  snd (@pollCycle onlyBond0Env twoBonds true 0 [])
  = [Queried "bond0"; Queried "bond1"].
Proof.
  destruct (@poll_cycle_queries onlyBond0Env twoBonds true 0 [])
    as (_ & H & _).
  apply H; reflexivity.
Defined.

(** X13 on the cancelled run: at most twenty-one cycles for ten seconds,
    whatever the turns given beyond that. *)
Lemma wait_cycle_bound_witness :
  exists r st,
    @waitForNetworkRoutable cancelledEnv 30 oneInterface (10 * Second) false
    = Some (r, st)
    /\ (r = None \/ r = Some timedOut)
    /\ (cycle st <= waitBound (10 * Second))%nat.
Proof.
  apply (@wait_cycle_bound cancelledEnv steadyClock_start steadyClock_step
           oneInterface (10 * Second) false 30).
  vm_compute. lia.
Defined.

End WaiterMoreExamples.

(* ================================================================== *)
(** ** Further properties of the REST handler *)

Section RestHandlerMore.

Context {env : HandlerEnv}.

(** A request leaves an active configuration with a device in place or
    replaces it by another one with a device. *)
Lemma apiNetwork10_keeps_devices
  (s : ServerState) (method : Method) (body : string) :
  activeHasDevices s -> activeHasDevices (state (apiNetwork10 s method body)).
Proof.
  intro Hs. unfold apiNetwork10.
  destruct method as [| | |name]; try exact Hs.
  all: destruct (decodeRequest s _ body) as [err|newConfig]; [exact Hs|];
    destruct (NetworkConfigHasEmptyDevices newConfig) eqn:E; [exact Hs|];
    cbn [NetworkConfig app];
    assert (Hd : hasDevices newConfig = true)
      by (unfold hasDevices; unfold NetworkConfigHasEmptyDevices in E;
          rewrite E; reflexivity);
    destruct (Apply (Some newConfig) (10 * Second)); cbn;
    exists newConfig; (split; [reflexivity | exact Hd]).
Qed.

(** X14. What a request does to the state, for every request. A PUT or
    PATCH whose body decodes to a configuration with a device stores that
    configuration and calls the applier on it once, with a timeout of ten
    seconds, whatever the applier answers. Every other request (GET, another
    method, a body that does not decode, a configuration without devices)
    leaves the state as it was and does not call the applier. *)
Theorem handler_stores_only_valid_updates
  (s : ServerState) (method : Method) (body : string) :
  let handled := apiNetwork10 s method body in
  (forall newConfig,
     method = MethodPut \/ method = MethodPatch ->
     decodeRequest s method body = inr newConfig ->
     hasDevices newConfig = true ->
     state handled = mkServerState (Some newConfig)
     /\ serverEvents handled
        = [ StoredNetworkConfig newConfig;
            CalledApply (Some newConfig) (10 * Second) ])
  /\
  ((method <> MethodPut /\ method <> MethodPatch)
   \/ (exists err, decodeRequest s method body = inl err)
   \/ (exists newConfig,
         decodeRequest s method body = inr newConfig
         /\ hasDevices newConfig = false) ->
   state handled = s /\ serverEvents handled = []).
Proof.
  cbv zeta. unfold apiNetwork10, hasDevices. split.
  - intros newConfig Hm Hd Hdev. apply negb_true_iff in Hdev.
    destruct Hm as [-> | ->]; rewrite Hd;
      unfold NetworkConfigHasEmptyDevices; rewrite Hdev;
      cbn [NetworkConfig app];
      destruct (Apply (Some newConfig) (10 * Second)); split; reflexivity.
  - intros [[Hput Hpatch] | [(err & Hd) | (newConfig & Hd & Hdev)]].
    + destruct method as [| | |name]; try (split; reflexivity);
        [now elim Hpatch | now elim Hput].
    + destruct method as [| | |name]; try (split; reflexivity);
        rewrite Hd; split; reflexivity.
    + apply negb_false_iff in Hdev.
      destruct method as [| | |name]; try (split; reflexivity);
        rewrite Hd; unfold NetworkConfigHasEmptyDevices; rewrite Hdev;
        split; reflexivity.
Qed.

(** X15. Once the active configuration defines a device it does so after
    any sequence of requests: no request, whatever its method and body and
    whether its apply succeeds, replaces it by a configuration without
    devices or by none. *)
Theorem active_configuration_keeps_devices
  (s : ServerState) (requests : list (Method * string)) :
  activeHasDevices s -> activeHasDevices (serve s requests).
Proof.
  unfold serve. revert s.
  induction requests as [|[method body] rest IH]; intros s Hs; [exact Hs|].
  cbn [fold_left fst snd]. apply IH.
  apply apiNetwork10_keeps_devices. exact Hs.
Qed.

(** X16. A PUT replaces the configuration wholesale: the configuration it
    decodes, its answer and its calls do not depend on the active
    configuration, and neither does the state it leaves when it stores. *)
Theorem put_ignores_active_configuration
  (s1 s2 : ServerState) (body : string) :
  let h1 := apiNetwork10 s1 MethodPut body in
  let h2 := apiNetwork10 s2 MethodPut body in
  decodeRequest s1 MethodPut body = decodeRequest s2 MethodPut body
  /\ response h1 = response h2
  /\ serverEvents h1 = serverEvents h2
  /\ (serverEvents h1 <> [] -> state h1 = state h2).
Proof.
  cbv zeta. unfold apiNetwork10.
  assert (E : decodeRequest s1 MethodPut body = decodeRequest s2 MethodPut body)
    by reflexivity.
  split; [exact E|]. rewrite E.
  destruct (decodeRequest s2 MethodPut body) as [err|newConfig];
    [cbn; intuition congruence|].
  destruct (NetworkConfigHasEmptyDevices newConfig);
    [cbn; intuition congruence|].
  cbn [NetworkConfig].
  destruct (Apply (Some newConfig) (10 * Second)); cbn; auto.
Qed.

End RestHandlerMore.

(** X14 on a PUT whose body decodes to [oneInterface] while the applier
    times out, and on a GET. *)
Lemma handler_stores_only_valid_updates_witness :
  let before := mkServerState (Some twoBonds) in
  (state (@apiNetwork10 applyTimesOutEnv before MethodPut "{}")
   = mkServerState (Some oneInterface)
   /\ serverEvents (@apiNetwork10 applyTimesOutEnv before MethodPut "{}")
      = [ StoredNetworkConfig oneInterface;
          CalledApply (Some oneInterface) (10 * Second) ])
  /\ (state (@apiNetwork10 applyTimesOutEnv before MethodGet "") = before
      /\ serverEvents (@apiNetwork10 applyTimesOutEnv before MethodGet "")
         = []).
Proof.
  cbv zeta. split.
  - apply (proj1 (@handler_stores_only_valid_updates applyTimesOutEnv
                    (mkServerState (Some twoBonds)) MethodPut "{}"));
      [left; reflexivity | reflexivity | reflexivity].
  - apply (proj2 (@handler_stores_only_valid_updates applyTimesOutEnv
                    (mkServerState (Some twoBonds)) MethodGet "")).
    left. split; discriminate.
Defined.

(** X15 on two requests after [twoBonds] is active: a PUT whose apply times
    out, then a GET. *)
Lemma active_configuration_keeps_devices_witness :
  @activeHasDevices
    (@serve applyTimesOutEnv (mkServerState (Some twoBonds))
            [(MethodPut, "{}"); (MethodGet, "")]).
Proof.
  apply (@active_configuration_keeps_devices applyTimesOutEnv).
  exists twoBonds. split; reflexivity.
Defined.

(* ================================================================== *)
(** ** Installation: whether to install, the target disk, the reboot *)

Section InstallNeededFacts.

Context {env : SeedEnv}.

(** X17. [IsInstallNeeded] answers true exactly when [NewInstall] returns an
    object and no error, and that object carries whatever configuration
    [GetInstallConfig] returned, also an absent one read from an empty
    install file; it answers false exactly when [NewInstall] returns the
    error of [GetInstallConfig] and no object. *)
Theorem install_needed_iff_new_install :
  (IsInstallNeeded = true <->
   NewInstall =
     (Some (mkInstall (fst (GetInstallConfig SeedPartitionPath))), None)) /\
  (IsInstallNeeded = false <->
   exists err, snd (GetInstallConfig SeedPartitionPath) = Some err /\
               NewInstall = (None, Some err)).
Proof.
  unfold IsInstallNeeded, NewInstall.
  destruct (GetInstallConfig SeedPartitionPath) as [c err]. cbn [fst snd].
  destruct err as [[[| |] msg]|]; cbn; split; split; intro H;
    try reflexivity; try discriminate;
    try (eexists; split; reflexivity);
    destruct H as (e & H1 & H2); discriminate.
Qed.

End InstallNeededFacts.

Section TargetDeviceFacts.

Context {env : LsblkEnv}.

Lemma firstTarget_returned (target : option InstallTarget.t)
  (sourceDevice : string) (devices : list Blockdevice.t) (d : string) :
  firstTarget target sourceDevice devices = Returned d ->
  exists pre dev post,
    devices = (pre ++ dev :: post)%list /\
    Blockdevice.KName dev = d /\
    qualifies target sourceDevice dev = true /\
    forallb (fun p => negb (qualifies target sourceDevice p)) pre = true.
Proof.
  induction devices as [|device rest IH]; cbn [firstTarget]; [discriminate|].
  destruct (String.eqb (Blockdevice.KName device) sourceDevice) eqn:Es.
  - intro H. destruct (IH H) as (pre & dev & post & E & K & Q & P).
    exists (device :: pre), dev, post. subst rest. repeat split; auto.
    cbn [forallb]. unfold qualifies at 1. rewrite Es. exact P.
  - fold (matchesTarget target device).
    destruct (matchesTarget target device) eqn:Em.
    + intro H. injection H as H. exists [], device, rest.
      repeat split; auto. unfold qualifies. rewrite Es, Em. reflexivity.
    + intro H. destruct (IH H) as (pre & dev & post & E & K & Q & P).
      exists (device :: pre), dev, post. subst rest. repeat split; auto.
      cbn [forallb]. unfold qualifies at 1. rewrite Es, Em. exact P.
Qed.

Lemma firstTarget_not_panicked (target : option InstallTarget.t)
  (sourceDevice : string) (devices : list Blockdevice.t) :
  firstTarget target sourceDevice devices <> Panicked.
Proof.
  induction devices as [|device rest IH]; cbn [firstTarget]; [discriminate|].
  destruct (String.eqb _ _); [exact IH|].
  destruct (match target with None => true | Some _ => _ end);
    [discriminate | exact IH].
Qed.

Lemma firstTarget_found (target : option InstallTarget.t)
  (sourceDevice : string) (devices : list Blockdevice.t) :
  existsb (qualifies target sourceDevice) devices = true ->
  exists d, firstTarget target sourceDevice devices = Returned d.
Proof.
  induction devices as [|device rest IH]; cbn [existsb firstTarget];
    [discriminate|].
  unfold qualifies at 1.
  destruct (String.eqb (Blockdevice.KName device) sourceDevice) eqn:Es;
    cbn [negb andb orb].
  - exact IH.
  - fold (matchesTarget target device).
    destruct (matchesTarget target device); cbn [orb].
    + intros _. eexists. reflexivity.
    + exact IH.
Qed.

Lemma firstTarget_none (target : option InstallTarget.t)
  (sourceDevice : string) (devices : list Blockdevice.t) :
  existsb (qualifies target sourceDevice) devices = false ->
  firstTarget target sourceDevice devices =
  Failed (errorsNew "unable to determine target device").
Proof.
  induction devices as [|device rest IH]; cbn [existsb firstTarget];
    [reflexivity|].
  unfold qualifies at 1.
  destruct (String.eqb (Blockdevice.KName device) sourceDevice) eqn:Es;
    cbn [negb andb orb].
  - exact IH.
  - fold (matchesTarget target device).
    destruct (matchesTarget target device); cbn [orb]; [discriminate|].
    exact IH.
Qed.

(** X18. When [getTargetDevice] returns a device, the three queries succeeded
    and a configuration was there; the device is the first, in the order
    NVMe, SCSI, virtual, that is not the source and whose ID contains the
    configured target ID (any ID when no target is configured); there were at
    least two disks, and exactly two when no target is configured. *)
Theorem target_device_is_first_qualifying (i : Install)
  (sourceDevice d : string) :
  fst (getTargetDevice i sourceDevice) = Returned d ->
  exists nvme scsi virtual c pre dev post,
    lsblkDevices "-N" = inr nvme /\
    lsblkDevices "-S" = inr scsi /\
    lsblkDevices "-v" = inr virtual /\
    config i = Some c /\
    (nvme ++ scsi ++ virtual)%list = (pre ++ dev :: post)%list /\
    Blockdevice.KName dev = d /\
    d <> sourceDevice /\
    matchesTarget (InstallConfig.Target c) dev = true /\
    forallb (fun p => negb (qualifies (InstallConfig.Target c) sourceDevice p))
            pre = true /\
    (2 <= length (nvme ++ scsi ++ virtual))%nat /\
    (InstallConfig.Target c = None ->
     length (nvme ++ scsi ++ virtual) = 2%nat).
Proof.
  unfold getTargetDevice.
  destruct (lsblkDevices "-N") as [e|nvme]; [discriminate|].
  destruct (lsblkDevices "-S") as [e|scsi]; [discriminate|].
  destruct (lsblkDevices "-v") as [e|virtual]; [discriminate|].
  cbn [app]. rewrite <- app_assoc.
  destruct (length (nvme ++ scsi ++ virtual) <? 2)%nat eqn:El;
    [discriminate|].
  apply Nat.ltb_ge in El.
  destruct (config i) as [c|]; [|discriminate].
  destruct (andb _ _) eqn:Ea; [discriminate|].
  cbn [fst]. intro H.
  destruct (firstTarget_returned _ _ _ _ H) as (pre & dev & post & E & K & Q & P).
  exists nvme, scsi, virtual, c, pre, dev, post.
  unfold qualifies in Q. apply andb_true_iff in Q. destruct Q as [Q1 Q2].
  apply negb_true_iff in Q1. apply String.eqb_neq in Q1.
  repeat split; auto.
  - congruence.
  - intro Ht. rewrite Ht in Ea. cbn in Ea. apply negb_false_iff in Ea.
    apply Nat.eqb_eq in Ea. exact Ea.
Qed.

(** X19. With the three queries answered: fewer than two disks give the
    error "no potential install devices found" whatever the configuration;
    two or more disks with no configuration object end in a nil dereference;
    no configured target and a number of disks other than two gives the error
    that exactly one install device was expected. *)
Theorem target_device_rejections (i : Install) (sourceDevice : string)
  (nvme scsi virtual : list Blockdevice.t) :
  lsblkDevices "-N" = inr nvme ->
  lsblkDevices "-S" = inr scsi ->
  lsblkDevices "-v" = inr virtual ->
  let n := length (nvme ++ scsi ++ virtual) in
  ((n < 2)%nat ->
   fst (getTargetDevice i sourceDevice) =
   Failed (errorsNew "no potential install devices found")) /\
  ((2 <= n)%nat -> config i = None ->
   fst (getTargetDevice i sourceDevice) = Panicked) /\
  ((2 < n)%nat ->
   (exists c, config i = Some c /\ InstallConfig.Target c = None) ->
   fst (getTargetDevice i sourceDevice) =
   Failed (errorsNew
     "no target configuration provided, and didn't find exactly one install device")).
Proof.
  intros Hn Hs Hv n. unfold getTargetDevice. rewrite Hn, Hs, Hv.
  cbn [app]. rewrite <- app_assoc. fold n.
  split; [|split].
  - intro H. apply Nat.ltb_lt in H. rewrite H. reflexivity.
  - intros H Hc. apply Nat.ltb_ge in H. rewrite H, Hc. reflexivity.
  - intros H (c & Hc & Ht).
    assert (H2 : (n <? 2)%nat = false) by (apply Nat.ltb_ge; lia).
    assert (H3 : (n =? 2)%nat = false) by (apply Nat.eqb_neq; lia).
    rewrite H2, Hc, Ht, H3. reflexivity.
Qed.

(** X20. With the three queries answered, a configuration in place and the
    number of disks accepted, [getTargetDevice] returns a device exactly when
    some disk other than the source matches the target; otherwise it fails
    with "unable to determine target device". *)
Theorem target_device_found_iff (i : Install) (c : InstallConfig.t)
  (sourceDevice : string) (nvme scsi virtual : list Blockdevice.t) :
  lsblkDevices "-N" = inr nvme ->
  lsblkDevices "-S" = inr scsi ->
  lsblkDevices "-v" = inr virtual ->
  config i = Some c ->
  (2 <= length (nvme ++ scsi ++ virtual))%nat ->
  (InstallConfig.Target c = None ->
   length (nvme ++ scsi ++ virtual) = 2%nat) ->
  let found :=
    existsb (qualifies (InstallConfig.Target c) sourceDevice)
            (nvme ++ scsi ++ virtual) in
  (found = true ->
   exists d, fst (getTargetDevice i sourceDevice) = Returned d) /\
  (found = false ->
   fst (getTargetDevice i sourceDevice) =
   Failed (errorsNew "unable to determine target device")).
Proof.
  intros Hn Hs Hv Hc Hlen Htwo found. unfold getTargetDevice.
  rewrite Hn, Hs, Hv, Hc. cbn [app]. rewrite <- app_assoc.
  assert (H2 : (length (nvme ++ scsi ++ virtual) <? 2)%nat = false)
    by (apply Nat.ltb_ge; exact Hlen).
  rewrite H2.
  assert (Ha : andb (match InstallConfig.Target c with
                     | None => true | Some _ => false end)
                    (negb (length (nvme ++ scsi ++ virtual) =? 2)%nat) = false).
  { destruct (InstallConfig.Target c) as [t|]; [reflexivity|].
    rewrite (Htwo eq_refl). reflexivity. }
  rewrite Ha. cbn [fst]. split; intro H.
  - apply firstTarget_found. exact H.
  - apply firstTarget_none. exact H.
Qed.

End TargetDeviceFacts.

Lemma target_device_is_first_qualifying_witness :
  @getTargetDevice threeDisks targetVirtio "/dev/sda" =
    (Returned "/dev/vda", ["-N"; "-S"; "-v"]) /\
  exists nvme scsi virtual c pre dev post,
    @lsblkDevices threeDisks "-N" = inr nvme /\
    @lsblkDevices threeDisks "-S" = inr scsi /\
    @lsblkDevices threeDisks "-v" = inr virtual /\
    config targetVirtio = Some c /\
    (nvme ++ scsi ++ virtual)%list = (pre ++ dev :: post)%list /\
    Blockdevice.KName dev = "/dev/vda" /\
    "/dev/vda" <> "/dev/sda" /\
    matchesTarget (InstallConfig.Target c) dev = true /\
    forallb (fun p => negb (qualifies (InstallConfig.Target c) "/dev/sda" p))
            pre = true /\
    (2 <= length (nvme ++ scsi ++ virtual))%nat /\
    (InstallConfig.Target c = None ->
     length (nvme ++ scsi ++ virtual) = 2%nat).
Proof.
  split; [reflexivity|].
  apply (@target_device_is_first_qualifying threeDisks targetVirtio).
  reflexivity.
Defined.

Lemma target_device_rejections_witness :
  fst (@getTargetDevice oneDisk noTarget "/dev/sda") =
    Failed (errorsNew "no potential install devices found") /\
  fst (@getTargetDevice threeDisks (mkInstall None) "/dev/sda") = Panicked /\
  fst (@getTargetDevice threeDisks noTarget "/dev/sda") =
    Failed (errorsNew
      "no target configuration provided, and didn't find exactly one install device").
Proof.
  split; [|split].
  - apply (@target_device_rejections oneDisk noTarget "/dev/sda"
             [] [usbStick] []); try reflexivity. cbn. lia.
  - apply (@target_device_rejections threeDisks (mkInstall None) "/dev/sda"
             [nvmeDisk] [usbStick] [vdaDisk]); try reflexivity. cbn. lia.
  - apply (@target_device_rejections threeDisks noTarget "/dev/sda"
             [nvmeDisk] [usbStick] [vdaDisk]); try reflexivity.
    + cbn. lia.
    + eexists. split; reflexivity.
Defined.

Lemma target_device_found_iff_witness :
  (exists d, fst (@getTargetDevice twoDisks noTarget "/dev/sda") = Returned d) /\
  fst (@getTargetDevice twoDisks targetVirtio "/dev/sda") =
    Failed (errorsNew "unable to determine target device").
Proof.
  split.
  - apply (@target_device_found_iff twoDisks noTarget
             (InstallConfig.mk None false false) "/dev/sda"
             [nvmeDisk] [usbStick] []);
      try reflexivity; cbn; lia.
  - apply (@target_device_found_iff twoDisks targetVirtio
             (InstallConfig.mk (Some (InstallTarget.mk "virtio")) false false)
             "/dev/sda" [nvmeDisk] [usbStick] []);
      try reflexivity; try discriminate; cbn; lia.
Defined.

Section RebootFacts.

Context {env : RebootEnv}.

Lemma waitTurns_S (p : string) (n : nat) :
  waitTurns p (S n) = (Stat p :: SleepSecond :: waitTurns p n).
Proof. reflexivity. Qed.

Lemma waitForRemoval_sound (p : string) :
  forall fuel k calls r out,
    waitForRemoval fuel p k calls = Some (r, out) ->
    exists n f,
      (forall j, (j < n)%nat -> statAt (k + j) p = None) /\
      statAt (k + n) p = Some f /\
      out = (calls ++ waitTurns p n ++ [Stat p])%list /\
      r = if errorsIsNotExist (Some f) then None else Some f.
Proof.
  induction fuel as [|fuel IH]; intros k calls r out; cbn [waitForRemoval];
    [discriminate|].
  destruct (statAt k p) as [f|] eqn:Es.
  - intro H. exists 0%nat, f. rewrite Nat.add_0_r.
    split; [intros j Hj; lia|]. split; [exact Es|].
    destruct (errorsIsNotExist (Some f)); injection H as <- <-;
      split; reflexivity.
  - intro H. destruct (IH _ _ _ _ H) as (n & f & Hb & Hs & Ho & Hr).
    exists (S n), f. split; [|split; [|split]].
    + intros j Hj. destruct j as [|j]; [rewrite Nat.add_0_r; exact Es|].
      replace (k + S j)%nat with (S k + j)%nat by lia. apply Hb. lia.
    + replace (k + S n)%nat with (S k + n)%nat by lia. exact Hs.
    + rewrite Ho, waitTurns_S. rewrite <- !app_assoc. reflexivity.
    + exact Hr.
Qed.

Lemma waitForRemoval_complete (p : string) :
  forall n fuel k calls f,
    (forall j, (j < n)%nat -> statAt (k + j) p = None) ->
    statAt (k + n) p = Some f ->
    (n < fuel)%nat ->
    waitForRemoval fuel p k calls =
    Some (if errorsIsNotExist (Some f) then None else Some f,
          (calls ++ waitTurns p n ++ [Stat p])%list).
Proof.
  induction n as [|n IH]; intros fuel k calls f Hb Hs Hf;
    (destruct fuel as [|fuel]; [lia|]); cbn [waitForRemoval].
  - rewrite Nat.add_0_r in Hs. rewrite Hs.
    destruct (errorsIsNotExist (Some f)); reflexivity.
  - rewrite <- (Nat.add_0_r k) at 1. rewrite (Hb 0%nat) by lia.
    rewrite (IH fuel (S k) _ f).
    + rewrite waitTurns_S, <- !app_assoc. reflexivity.
    + intros j Hj. replace (S k + j)%nat with (k + S j)%nat by lia.
      apply Hb. lia.
    + replace (S k + n)%nat with (k + S n)%nat by lia. exact Hs.
    + lia.
Qed.

Lemma waitForRemoval_never (p : string) :
  (forall k, statAt k p = None) ->
  forall fuel k calls, waitForRemoval fuel p k calls = None.
Proof.
  intros H. induction fuel as [|fuel IH]; intros k calls;
    cbn [waitForRemoval]; [reflexivity|].
  rewrite H. apply IH.
Qed.

Lemma waitTurns_no_write (p : string) (n : nat) :
  existsb isWriteSysrq (waitTurns p n) = false.
Proof. induction n as [|n IH]; [reflexivity|]. rewrite waitTurns_S. exact IH. Qed.

(** X21. Without [ForceReboot], when the watched partition is there for the
    first [n] checks and the next check fails with "does not exist",
    [rebootUponDeviceRemoval] stats the partition [n + 1] times, one second
    apart, then syncs and writes "b" to /proc/sysrq-trigger, and returns the
    result of that write. The partition is the first one of the device, with
    the "p" infix of NVMe devices. *)
Theorem reboot_follows_removal (fuel n : nat) (i : Install)
  (c : InstallConfig.t) (device : string) (f : Failure) :
  config i = Some c ->
  InstallConfig.ForceReboot c = false ->
  (forall j, (j < n)%nat -> statAt j (watchedPartition device) = None) ->
  statAt n (watchedPartition device) = Some f ->
  sentinel f = IsNotExist ->
  (n < fuel)%nat ->
  rebootUponDeviceRemoval fuel i device =
  Some (match writeSysrq with
        | Some err => Failed err
        | None => Returned tt
        end,
        (waitTurns (watchedPartition device) n ++
         [Stat (watchedPartition device)] ++ rebootCalls)%list).
Proof.
  intros Hc Hf Hb Hs Hk Hfuel. unfold rebootUponDeviceRemoval.
  rewrite Hc, Hf. fold (watchedPartition device).
  rewrite (waitForRemoval_complete _ n fuel 0%nat [] f); auto.
  destruct f as [s m]. cbn in Hk. subst s. cbn [errorsIsNotExist app].
  unfold syncAndReboot, rebootCalls. rewrite <- app_assoc.
  destruct writeSysrq; reflexivity.
Qed.

(** X22. Whenever [rebootUponDeviceRemoval] returns after having written to
    /proc/sysrq-trigger, either [ForceReboot] was set, and then nothing was
    checked, or some check of the watched partition failed with "does not
    exist" after all earlier checks had found it. A check that fails in
    another way therefore leads to no reboot. *)
Theorem reboot_only_forced_or_after_removal (fuel : nat) (i : Install)
  (device : string) (r : Outcome unit) (calls : list RebootCall) :
  rebootUponDeviceRemoval fuel i device = Some (r, calls) ->
  existsb isWriteSysrq calls = true ->
  (exists c, config i = Some c /\ InstallConfig.ForceReboot c = true /\
             calls = rebootCalls) \/
  (exists c n,
     config i = Some c /\ InstallConfig.ForceReboot c = false /\
     (forall j, (j < n)%nat -> statAt j (watchedPartition device) = None) /\
     errorsIsNotExist (statAt n (watchedPartition device)) = true /\
     calls = (waitTurns (watchedPartition device) n ++
              [Stat (watchedPartition device)] ++ rebootCalls)%list).
Proof.
  unfold rebootUponDeviceRemoval. fold (watchedPartition device).
  destruct (config i) as [c|]; [|intros H; injection H as <- <-; discriminate].
  destruct (InstallConfig.ForceReboot c) eqn:Ef.
  - intros H _. left. exists c. unfold syncAndReboot in H. cbn [app] in H.
    destruct writeSysrq; injection H as <- <-;
      (split; [reflexivity | split; [exact Ef | reflexivity]]).
  - destruct (waitForRemoval fuel (watchedPartition device) 0 []) 
      as [[lr out]|] eqn:Ew; [|discriminate].
    destruct (waitForRemoval_sound _ _ _ _ _ _ Ew) as (n & f & Hb & Hs & Ho & Hr).
    cbn [Nat.add app] in *.
    destruct lr as [err|].
    + intros H Hw. injection H as <- <-. exfalso. subst out.
      rewrite existsb_app, waitTurns_no_write in Hw. discriminate.
    + intros H _. right. exists c, n. repeat split; auto.
      * rewrite Hs. destruct (errorsIsNotExist (Some f)); [reflexivity|discriminate].
      * unfold syncAndReboot in H. subst out. unfold rebootCalls.
        rewrite <- app_assoc in H.
        destruct writeSysrq; injection H as <- <-; reflexivity.
Qed.

(** X23. Without [ForceReboot], as long as every check finds the watched
    partition, [rebootUponDeviceRemoval] does not return, however many turns
    it is given: the wait has no deadline. *)
Theorem reboot_waits_without_deadline (i : Install) (c : InstallConfig.t)
  (device : string) :
  config i = Some c ->
  InstallConfig.ForceReboot c = false ->
  (forall k, statAt k (watchedPartition device) = None) ->
  forall fuel, rebootUponDeviceRemoval fuel i device = None.
Proof.
  intros Hc Hf Hs fuel. unfold rebootUponDeviceRemoval.
  rewrite Hc, Hf. fold (watchedPartition device).
  rewrite (waitForRemoval_never _ Hs). reflexivity.
Qed.

End RebootFacts.

Lemma reboot_follows_removal_witness :
  @rebootUponDeviceRemoval removedAfterThree 10 noTarget "/dev/sda" =
  Some (Returned tt,
        [Stat "/dev/sda1"; SleepSecond; Stat "/dev/sda1"; SleepSecond;
         Stat "/dev/sda1"; SleepSecond; Stat "/dev/sda1";
         Sync; WriteSysrq "/proc/sysrq-trigger" "b"]).
Proof.
  apply (@reboot_follows_removal removedAfterThree 10 3 noTarget
           (InstallConfig.mk None false false) "/dev/sda"
           (mkFailure IsNotExist "stat /dev/sda1: no such file or directory"));
    try reflexivity.
  - intros j Hj. destruct j as [|[|[|j]]]; [reflexivity | reflexivity | reflexivity | lia].
  - lia.
Defined.

Lemma reboot_only_forced_or_after_removal_witness :
  (exists c, config forcedReboot = Some c /\
             InstallConfig.ForceReboot c = true /\
             [Sync; WriteSysrq "/proc/sysrq-trigger" "b"] = rebootCalls) \/
  (exists c n,
     config forcedReboot = Some c /\ InstallConfig.ForceReboot c = false /\
     (forall j, (j < n)%nat ->
        @statAt neverRemoved j (watchedPartition "/dev/nvme0n1") = None) /\
     errorsIsNotExist
       (@statAt neverRemoved n (watchedPartition "/dev/nvme0n1")) = true /\
     [Sync; WriteSysrq "/proc/sysrq-trigger" "b"] =
       (waitTurns (watchedPartition "/dev/nvme0n1") n ++
        [Stat (watchedPartition "/dev/nvme0n1")] ++ rebootCalls)%list).
Proof.
  apply (@reboot_only_forced_or_after_removal neverRemoved 0 forcedReboot
           "/dev/nvme0n1" (Returned tt)); reflexivity.
Defined.

Lemma reboot_waits_without_deadline_witness :
  @rebootUponDeviceRemoval neverRemoved 1000 noTarget "/dev/sda" = None.
Proof.
  apply (@reboot_waits_without_deadline neverRemoved noTarget
           (InstallConfig.mk None false false) "/dev/sda");
    try reflexivity.
Defined.

(* ================================================================== *)
(** ** Installation: the source device *)

Section PathFacts.

Lemma Split_element (file : string) :
  noSeparator file = true -> Filepath.Split file = ("", file).
Proof.
  induction file as [|c rest IH]; cbn [noSeparator Filepath.Split];
    [reflexivity|].
  intro H. apply andb_true_iff in H. destruct H as [Hc Hr].
  rewrite (IH Hr). apply negb_true_iff in Hc. rewrite Hc. reflexivity.
Qed.

Lemma Split_app (dir file : string) :
  noSeparator file = true ->
  Filepath.Split (dir ++ "/" ++ file) = (dir ++ "/", file).
Proof.
  intro Hf. induction dir as [|c dir IH].
  - cbn [append Filepath.Split]. rewrite (Split_element _ Hf). reflexivity.
  - cbn [append Filepath.Split] in *. rewrite IH.
    destruct dir; reflexivity.
Qed.

Lemma stripTrailing_element (s : string) :
  noSeparator s = true -> Filepath.stripTrailing s = s.
Proof.
  induction s as [|c rest IH]; cbn [noSeparator Filepath.stripTrailing];
    [reflexivity|].
  intro H. apply andb_true_iff in H. destruct H as [Hc Hr].
  rewrite (IH Hr). apply negb_true_iff in Hc. rewrite Hc.
  destruct rest; reflexivity.
Qed.

Lemma stripTrailing_before_element (dir s : string) :
  s <> "" -> noSeparator s = true ->
  Filepath.stripTrailing (dir ++ s) = dir ++ s.
Proof.
  intros Hne Hs. induction dir as [|c dir IH].
  - apply stripTrailing_element. exact Hs.
  - cbn [append Filepath.stripTrailing]. rewrite IH.
    destruct (dir ++ s) eqn:E; [|reflexivity].
    destruct dir; cbn in E; [contradiction | discriminate].
Qed.

Lemma stripTrailing_separator (s : string) :
  Filepath.stripTrailing (s ++ "/") = Filepath.stripTrailing s.
Proof.
  induction s as [|c s IH]; [reflexivity|].
  cbn [append Filepath.stripTrailing]. rewrite IH. reflexivity.
Qed.

(** The base of a directory path "up/disk/" is "disk". *)
Lemma Base_of_directory (up disk : string) :
  disk <> "" -> noSeparator disk = true ->
  Filepath.Base (up ++ "/" ++ disk ++ "/") = disk.
Proof.
  intros Hne Hd. unfold Filepath.Base.
  destruct (up ++ "/" ++ disk ++ "/") eqn:E.
  - destruct up; discriminate.
  - rewrite <- E.
    replace (up ++ "/" ++ disk ++ "/") with ((up ++ "/" ++ disk) ++ "/")
      by (rewrite ?append_assoc; reflexivity).
    rewrite stripTrailing_separator.
    replace (up ++ "/" ++ disk) with ((up ++ "/") ++ disk)
      by (rewrite ?append_assoc; reflexivity).
    rewrite (stripTrailing_before_element _ _ Hne Hd).
    rewrite append_assoc. rewrite (Split_app _ _ Hd). cbn [snd].
    destruct disk; [contradiction | reflexivity].
Qed.

End PathFacts.

Section SourceDeviceFacts.

Context {env : SourceEnv}.

Lemma findSourceDevice_skips (rootDev : string) (skipped rest : list string) :
  forallb (fun e => negb (namesDevice rootDev e)) skipped = true ->
  findSourceDevice rootDev (skipped ++ rest) = findSourceDevice rootDev rest.
Proof.
  induction skipped as [|e skipped IH]; [reflexivity|].
  cbn [forallb app findSourceDevice]. unfold namesDevice at 1.
  intro H. apply andb_true_iff in H. destruct H as [He Hs].
  destruct (ReadFile _) as [err|dev]; [exact (IH Hs)|].
  apply negb_true_iff in He. rewrite He. exact (IH Hs).
Qed.

(** X24. When the link of the first block device whose [dev] file names the
    device number of /boot/EFI points to ".../<disk>/<partition>",
    [getSourceDevice] returns "/dev/<disk>": entries whose [dev] file cannot
    be read or names another device are passed over, and the partition is
    dropped from the link. *)
Theorem source_device_is_parent_of_partition (dev : Z)
  (skipped rest : list string) (entry up disk partition : string) :
  unixStat "/boot/EFI" = inr dev ->
  ReadDir "/sys/class/block" = inr (skipped ++ entry :: rest)%list ->
  forallb (fun e => negb (namesDevice (rootDevOf dev) e)) skipped = true ->
  ReadFile (JoinPath (JoinPath "/sys/class/block" entry) "dev") = inr (rootDevOf dev) ->
  Readlink (JoinPath "/sys/class/block" entry) =
    inr (up ++ "/" ++ disk ++ "/" ++ partition) ->
  disk <> "" ->
  noSeparator disk = true ->
  noSeparator partition = true ->
  getSourceDevice = Returned ("/dev/" ++ disk).
Proof.
  intros Hstat Hdir Hskip Hfile Hlink Hne Hd Hp.
  unfold getSourceDevice. rewrite Hstat, Hdir.
  fold (rootDevOf dev). rewrite (findSourceDevice_skips _ _ _ Hskip).
  cbn [findSourceDevice]. rewrite Hfile, String.eqb_refl, Hlink.
  replace (up ++ "/" ++ disk ++ "/" ++ partition)
    with ((up ++ "/" ++ disk) ++ "/" ++ partition)
    by (rewrite ?append_assoc; reflexivity).
  rewrite (Split_app _ _ Hp).
  replace ((up ++ "/" ++ disk) ++ "/") with (up ++ "/" ++ disk ++ "/")
    by (rewrite ?append_assoc; reflexivity).
  rewrite (Base_of_directory _ _ Hne Hd). reflexivity.
Qed.

(** [getSourceDevice] fails with "unable to determine source device"
    when no block device has a readable [dev] file that names the device
    number of /boot/EFI, and it never reads a link in that case. *)
Theorem source_device_unknown (dev : Z) (entries : list string) :
  unixStat "/boot/EFI" = inr dev ->
  ReadDir "/sys/class/block" = inr entries ->
  forallb (fun e => negb (namesDevice (rootDevOf dev) e)) entries = true ->
  getSourceDevice = Failed (errorsNew "unable to determine source device").
Proof.
  intros Hstat Hdir Hskip. unfold getSourceDevice. rewrite Hstat, Hdir.
  fold (rootDevOf dev).
  rewrite <- (app_nil_r entries).
  rewrite (findSourceDevice_skips _ _ _ Hskip). reflexivity.
Qed.

End SourceDeviceFacts.

Lemma source_device_is_parent_of_partition_witness :
  @getSourceDevice bootOnSda1 = Returned "/dev/sda".
Proof.
  apply (@source_device_is_parent_of_partition bootOnSda1 2049
           ["loop0"; "sda"] ["sda2"] "sda1"
           "../../devices/pci0000:00/0000:00:1f.2/ata1/host0/target0:0:0/0:0:0:0/block"
           "sda" "sda1"); try reflexivity.
  discriminate.
Defined.

Lemma source_device_unknown_witness :
  @getSourceDevice
    {| unixStat := fun _ => inr 2049%Z;
       unixMajor := fun dev => (dev / 256)%Z;
       unixMinor := fun dev => (dev mod 256)%Z;
       ReadDir := fun _ => inr ["loop0"; "vda"];
       ReadFile := fun _ => inr ("7:0" ++ LF);
       Readlink := fun _ => inr "";
       JoinPath := fun dir name => dir ++ "/" ++ name |} =
  Failed (errorsNew "unable to determine source device").
Proof.
  eapply (@source_device_unknown _ 2049 ["loop0"; "vda"]); reflexivity.
Defined.

(* ================================================================== *)
(** ** Installation: copying the disk *)

Section PerformInstallFacts.

Context {env : InstallEnv}.

Lemma commandsRun_app (a b : list InstallCall) :
  commandsRun (a ++ b) = (commandsRun a ++ commandsRun b)%list.
Proof. apply flat_map_app. Qed.

Lemma filesClosed_app (a b : list InstallCall) :
  filesClosed (a ++ b) = (filesClosed a ++ filesClosed b)%list.
Proof. apply flat_map_app. Qed.

Lemma filesOpened_app (earlier a b : list InstallCall) :
  filesOpened earlier (a ++ b) =
  (filesOpened earlier a ++ filesOpened (earlier ++ a) b)%list.
Proof.
  revert earlier. induction a as [|c a IH]; intro earlier.
  - cbn. rewrite app_nil_r. reflexivity.
  - cbn [app filesOpened]. rewrite IH, <- !app_assoc. reflexivity.
Qed.

Lemma chunk_calls_commands (chunks : list InstallCall) :
  forallb isChunkCall chunks = true -> commandsRun chunks = [].
Proof.
  induction chunks as [|c chunks IH]; [reflexivity|].
  cbn [forallb]. intro H. apply andb_true_iff in H. destruct H as [Hc Hr].
  change (commandsRun (c :: chunks)) with (commandsRun ([c] ++ chunks)).
  rewrite commandsRun_app, (IH Hr). destruct c; try discriminate; reflexivity.
Qed.

Lemma chunk_calls_closed (chunks : list InstallCall) :
  forallb isChunkCall chunks = true -> filesClosed chunks = [].
Proof.
  induction chunks as [|c chunks IH]; [reflexivity|].
  cbn [forallb]. intro H. apply andb_true_iff in H. destruct H as [Hc Hr].
  change (filesClosed (c :: chunks)) with (filesClosed ([c] ++ chunks)).
  rewrite filesClosed_app, (IH Hr). destruct c; try discriminate; reflexivity.
Qed.

Lemma chunk_calls_opened (chunks : list InstallCall) :
  forallb isChunkCall chunks = true ->
  forall earlier, filesOpened earlier chunks = [].
Proof.
  induction chunks as [|c chunks IH]; [reflexivity|].
  cbn [forallb]. intro H. apply andb_true_iff in H. destruct H as [Hc Hr].
  intro earlier. cbn [filesOpened]. rewrite (IH Hr).
  destruct c; try discriminate; reflexivity.
Qed.

Lemma copyChunks_calls (tp sp : string) (i size : Z) :
  forall fuel count calls r calls',
    copyChunks fuel tp sp i size count calls = Some (r, calls') ->
    exists chunks,
      calls' = (calls ++ chunks)%list /\
      forallb isChunkCall chunks = true /\
      r <> Panicked.
Proof.
  induction fuel as [|fuel IH]; intros count calls r calls';
    cbn [copyChunks]; [discriminate|].
  unfold andThen at 1, ask at 1.
  destruct (answerError (answer calls _)) as [err|].
  - destruct (errorsIsEOF (Some err)); intro H; injection H as <- <-;
      (eexists; split; [reflexivity | split; [reflexivity | discriminate]]).
  - unfold andThen at 1. destruct (count mod 10 =? 0)%Z.
    + unfold andThen at 1, ask at 1, returnWith at 1.
      intro H. destruct (IH _ _ _ _ H) as (chunks & -> & Hc & Hr).
      eexists. rewrite <- !app_assoc. split; [reflexivity|].
      split; [exact Hc | exact Hr].
    + unfold returnWith at 1.
      intro H. destruct (IH _ _ _ _ H) as (chunks & -> & Hc & Hr).
      eexists. rewrite <- !app_assoc. split; [reflexivity|].
      split; [exact Hc | exact Hr].
Qed.

(** The ways [doCopy] ends: the calls it made, which of the two files it
    had opened, and whether it can have returned without error. *)
Lemma doCopy_cases (fuel : nat) (s sp d dp : string) (i : Z)
  (calls calls' : list InstallCall) (r : Outcome unit) :
  doCopy fuel s sp d dp i calls = Some (r, calls') ->
  let src := s ++ sp ++ FormatInt i in
  let dst := d ++ dp ++ FormatInt i in
  exists body,
    calls' = (calls ++ body)%list /\
    r <> Panicked /\
    ((r <> Returned tt /\ filesOpened calls body = [] /\
      filesClosed body = [] /\ commandsRun body = []) \/
     (r <> Returned tt /\ filesOpened calls body = [src] /\
      filesClosed body = [src] /\ commandsRun body = []) \/
     (filesOpened calls body = [src; dst] /\
      filesClosed body = [dst; src] /\ commandsRun body = [])).
Proof.
  intros H src dst. unfold doCopy in H. fold src dst in H.
  unfold andThen at 1, ask at 1 in H. unfold andThen at 1, check at 1 in H.
  destruct (answerError (answer calls (OpenFile src O_RDONLY ownerReadWrite)))
    as [e|] eqn:E1.
  { cbn in H. injection H as <- <-. eexists. split; [reflexivity|].
    split; [discriminate|]. left. cbn [filesOpened]. rewrite E1.
    repeat split; try reflexivity; discriminate. }
  unfold returnWith at 1, defer at 1 in H.
  unfold andThen at 1, ask at 1 in H. unfold andThen at 1, check at 1 in H.
  destruct (answerError (answer _ (Seek src 0 SeekEnd))) as [e|] eqn:E2.
  { cbn in H. injection H as <- <-. eexists. rewrite <- !app_assoc.
    split; [reflexivity|]. split; [discriminate|]. right. left.
    cbn [filesOpened app]. rewrite E1.
    repeat split; try reflexivity; discriminate. }
  unfold returnWith at 1 in H.
  unfold andThen at 1, ask at 1 in H. unfold andThen at 1, check at 1 in H.
  destruct (answerError (answer _ (Seek src 0 0))) as [e|] eqn:E3.
  { cbn in H. injection H as <- <-. eexists. rewrite <- !app_assoc.
    split; [reflexivity|]. split; [discriminate|]. right. left.
    cbn [filesOpened app]. rewrite E1.
    repeat split; try reflexivity; discriminate. }
  unfold returnWith at 1 in H.
  unfold andThen at 1, ask at 1 in H. unfold andThen at 1, check at 1 in H.
  destruct (answerError (answer _ (OpenFile dst O_WRONLY ownerReadWrite)))
    as [e|] eqn:E4.
  { cbn in H. injection H as <- <-. eexists. rewrite <- !app_assoc.
    split; [reflexivity|]. split; [discriminate|]. right. left.
    cbn [filesOpened app]. rewrite E1, E4.
    repeat split; try reflexivity; discriminate. }
  unfold returnWith at 1, defer at 1 in H.
  destruct (copyChunks _ _ _ _ _ _ _) as [[r1 c1]|] eqn:Ec; [|discriminate].
  destruct (copyChunks_calls _ _ _ _ _ _ _ _ _ Ec) as (chunks & -> & Hc & Hr).
  injection H as <- <-.
  eexists. rewrite <- !app_assoc. split; [reflexivity|].
  split; [exact Hr|]. right. right.
  cbn [app].
  change (OpenFile src O_RDONLY ownerReadWrite :: Seek src 0 SeekEnd ::
          Seek src 0 0 :: OpenFile dst O_WRONLY ownerReadWrite ::
          (chunks ++ [Close dst; Close src])%list)
    with ([OpenFile src O_RDONLY ownerReadWrite; Seek src 0 SeekEnd;
           Seek src 0 0; OpenFile dst O_WRONLY ownerReadWrite] ++
          chunks ++ [Close dst; Close src])%list.
  rewrite !filesOpened_app, !filesClosed_app, !commandsRun_app.
  rewrite (chunk_calls_opened _ Hc), (chunk_calls_closed _ Hc),
    (chunk_calls_commands _ Hc).
  cbn [filesOpened app]. rewrite E1, E4.
  repeat split; reflexivity.
Qed.

(** X25. However [doCopy] ends, with or without an error, it has closed
    every file it had opened with success, the last opened first, and it has
    run no command. *)
Theorem copy_closes_what_it_opened (fuel : nat) (s sp d dp : string) (i : Z)
  (calls calls' : list InstallCall) (r : Outcome unit) :
  doCopy fuel s sp d dp i calls = Some (r, calls') ->
  exists body,
    calls' = (calls ++ body)%list /\
    filesClosed body = rev (filesOpened calls body) /\
    commandsRun body = [] /\
    r <> Panicked.
Proof.
  intro H. destruct (doCopy_cases _ _ _ _ _ _ _ _ _ H)
    as (body & E & Hp & [(_ & Ho & Hc & Hm)|[(_ & Ho & Hc & Hm)|(Ho & Hc & Hm)]]);
    exists body; rewrite Ho, Hc; repeat split; auto.
Qed.

Lemma doCopy_returned (fuel : nat) (s sp d dp : string) (i : Z)
  (calls calls' : list InstallCall) :
  doCopy fuel s sp d dp i calls = Some (Returned tt, calls') ->
  exists body,
    calls' = (calls ++ body)%list /\
    commandsRun body = [] /\
    filesClosed body = [d ++ dp ++ FormatInt i; s ++ sp ++ FormatInt i].
Proof.
  intro H. destruct (doCopy_cases _ _ _ _ _ _ _ _ _ H)
    as (body & E & Hp & [(Hr & _)|[(Hr & _)|(Ho & Hc & Hm)]]);
    try (exfalso; apply Hr; reflexivity).
  exists body. repeat split; auto.
Qed.

Ltac install_step H :=
  unfold andThen at 1, ask at 1 in H; unfold andThen at 1, check at 1 in H;
  match type of H with
  | context [answerError (answer ?t ?c)] =>
      let E := fresh "E" in
      destruct (answerError (answer t c)) eqn:E
  end.

(** X26. [performInstall] goes past the check of the target disk only when
    [sgdisk -v] reported that the disk has no partition table or
    [ForceInstall] is set. With a partition table and [ForceInstall] off, it
    returns the error that names the disk after two calls, the look-up of
    the terminal and [sgdisk -v]: nothing is unmounted, deleted or copied. *)
Theorem install_spares_partitioned_disk (fuel : nat) (i : Install)
  (sourceDevice targetDevice : string) :
  let verify := Command "sgdisk" ["-v"; targetDevice] in
  (forall r calls,
     performInstall fuel i sourceDevice targetDevice [] = Some (r, calls) ->
     (2 < length calls)%nat ->
     noPartitionTable (answerOutput (answer [GetTUI] verify)) = true \/
     exists c, config i = Some c /\ InstallConfig.ForceInstall c = true) /\
  (forall c,
     config i = Some c ->
     InstallConfig.ForceInstall c = false ->
     answerError (answer [] GetTUI) = None ->
     answerError (answer [GetTUI] verify) = None ->
     noPartitionTable (answerOutput (answer [GetTUI] verify)) = false ->
     performInstall fuel i sourceDevice targetDevice [] =
     Some (Failed (errorsNew
             ("a partition table already exists on device '" ++ targetDevice
              ++ "', and `ForceInstall` from install configuration isn't true")),
           [GetTUI; verify])).
Proof.
  intro verify. split.
  - intros r calls H Hlen. unfold performInstall in H. fold verify in H.
    install_step H.
    { cbn in H. injection H as <- <-. cbn in Hlen. lia. }
    unfold returnWith at 1 in H. install_step H.
    { cbn in H. injection H as <- <-. cbn in Hlen. lia. }
    unfold returnWith at 1 in H. cbn [app] in *.
    fold (noPartitionTable (answerOutput (answer [GetTUI] verify))) in H.
    destruct (noPartitionTable _) eqn:En; [left; reflexivity|].
    right. unfold andThen at 1 in H. cbn [negb] in H.
    destruct (config i) as [c|].
    + exists c. split; [reflexivity|].
      destruct (InstallConfig.ForceInstall c); [reflexivity|].
      cbn in H. injection H as <- <-. cbn in Hlen. lia.
    + cbn in H. injection H as <- <-. cbn in Hlen. lia.
  - intros c Hc Hf Ht Hv Hn. unfold performInstall. fold verify.
    unfold andThen at 1, ask at 1. unfold andThen at 1, check at 1.
    rewrite Ht. unfold returnWith at 1.
    unfold andThen at 1, ask at 1. unfold andThen at 1, check at 1.
    cbn [app]. rewrite Hv. unfold returnWith at 1.
    fold (noPartitionTable (answerOutput (answer [GetTUI] verify))).
    rewrite Hn, Hc, Hf. reflexivity.
Qed.

End PerformInstallFacts.

Section Emits.

Context {env : InstallEnv} {X : Type} (f : InstallCall -> list X).

Lemma emits_eq {A : Type} (m : Inst A) (xs ys : list X) :
  emits f m xs -> xs = ys -> emits f m ys.
Proof. intros H <-. exact H. Qed.

Lemma emits_ask (c : InstallCall) : emits f (ask c) (f c).
Proof.
  intros calls a calls' H. unfold ask in H. injection H as <- <-.
  exists [c]. split; [reflexivity|]. cbn. apply app_nil_r.
Qed.

Lemma emits_return {A : Type} (a : A) : emits f (returnWith a) [].
Proof.
  intros calls a' calls' H. unfold returnWith in H. injection H as <- <-.
  exists []. split; [symmetry; apply app_nil_r | reflexivity].
Qed.

Lemma emits_fail {A : Type} (err : Failure) (xs : list X) :
  emits f (@failWith A err) xs.
Proof. intros calls a calls' H. discriminate H. Qed.

Lemma emits_panic {A : Type} (xs : list X) : emits f (@panicNil A) xs.
Proof. intros calls a calls' H. discriminate H. Qed.

Lemma emits_check (a : Answer) : emits f (check a) [].
Proof.
  unfold check. destruct (answerError a); [apply emits_fail | apply emits_return].
Qed.

Lemma emits_andThen {A B : Type} (m : Inst A) (k : A -> Inst B)
  (xs ys : list X) :
  emits f m xs -> (forall a, emits f (k a) ys) ->
  emits f (andThen m k) (xs ++ ys).
Proof.
  intros Hm Hk calls b calls' H. unfold andThen in H.
  destruct (m calls) as [[[a|err|] mid]|] eqn:E; try discriminate H.
  destruct (Hm _ _ _ E) as (b1 & -> & <-).
  destruct (Hk _ _ _ _ H) as (b2 & -> & <-).
  exists (b1 ++ b2)%list. split; [symmetry; apply app_assoc|].
  apply flat_map_app.
Qed.

Lemma emits_forEach {A : Type} (l : list A) (body : A -> Inst unit)
  (g : A -> list X) :
  (forall x, emits f (body x) (g x)) ->
  emits f (forEach l body) (flat_map g l).
Proof.
  intro Hb. induction l as [|x l IH]; cbn [forEach flat_map].
  - apply emits_return.
  - apply emits_andThen; [apply Hb | intros _; exact IH].
Qed.

End Emits.

Section InstallOrder.

Context {env : InstallEnv}.

Lemma emits_doCopy_commands (fuel : nat) (s sp d dp : string) (i : Z) :
  emits commandOf (doCopy fuel s sp d dp i) [].
Proof.
  intros calls a calls' H. destruct a.
  destruct (doCopy_returned _ _ _ _ _ _ _ _ H) as (body & E & Hc & _).
  exists body. split; assumption.
Qed.

Lemma emits_doCopy_closed (fuel : nat) (s sp d dp : string) (i : Z) :
  emits closedBy (doCopy fuel s sp d dp i)
        [d ++ dp ++ FormatInt i; s ++ sp ++ FormatInt i].
Proof.
  intros calls a calls' H. destruct a.
  destruct (doCopy_returned _ _ _ _ _ _ _ _ H) as (body & E & _ & Hc).
  exists body. split; assumption.
Qed.

Ltac emits_steps copyRule :=
  repeat first
    [ apply emits_ask
    | apply emits_check
    | apply emits_return
    | apply emits_fail
    | apply emits_panic
    | apply copyRule
    | eapply emits_andThen; [|intro]
    | eapply emits_forEach; intro
    | match goal with
      | |- emits _ (if ?b then _ else _) _ => destruct b
      | |- emits _ (match ?o with Some _ => _ | None => _ end) _ => destruct o
      end ].

Lemma performInstall_emits_commands (fuel : nat) (i : Install)
  (sourceDevice targetDevice : string) :
  emits commandOf (performInstall fuel i sourceDevice targetDevice)
        (installCommands sourceDevice targetDevice).
Proof.
  unfold performInstall. eapply emits_eq.
  - emits_steps emits_doCopy_commands.
  - reflexivity.
Qed.

Lemma performInstall_emits_closed (fuel : nat) (i : Install)
  (sourceDevice targetDevice : string) :
  emits closedBy (performInstall fuel i sourceDevice targetDevice)
        (partitionsClosed sourceDevice targetDevice).
Proof.
  unfold performInstall. eapply emits_eq.
  - emits_steps emits_doCopy_closed.
  - reflexivity.
Qed.

(** X27. When [performInstall] returns without error it has run, in this
    order and with nothing else in between: [sgdisk -v] on the target,
    [swapoff -a], [sgdisk -d] for partitions 9, 10 and 11 of the source,
    [sgdisk -R] from the source to the target, and the two [tar --delete] on
    the second partition of the target; and it has closed, in this order,
    the target partition and then the source partition of each of the
    partitions 1 to 8. *)
Theorem install_commands_in_order (fuel : nat) (i : Install)
  (sourceDevice targetDevice : string) (calls : list InstallCall) :
  performInstall fuel i sourceDevice targetDevice [] =
    Some (Returned tt, calls) ->
  commandsRun calls = installCommands sourceDevice targetDevice /\
  filesClosed calls = partitionsClosed sourceDevice targetDevice.
Proof.
  intro H. split.
  - destruct (performInstall_emits_commands _ _ _ _ _ _ _ H) as (b & -> & Hb).
    exact Hb.
  - destruct (performInstall_emits_closed _ _ _ _ _ _ _ H) as (b & -> & Hb).
    exact Hb.
Qed.

End InstallOrder.

Lemma copy_closes_what_it_opened_witness :
  exists body,
    [OpenFile "/dev/sda1" O_RDONLY ownerReadWrite; Seek "/dev/sda1" 0 SeekEnd;
     Seek "/dev/sda1" 0 0; OpenFile "/dev/nvme0n1p1" O_WRONLY ownerReadWrite;
     CopyN "/dev/nvme0n1p1" "/dev/sda1" 1048576;
     DisplayModal "Incus OS Install" "Copying partition 1 of 8." 0 2097152;
     CopyN "/dev/nvme0n1p1" "/dev/sda1" 1048576;
     CopyN "/dev/nvme0n1p1" "/dev/sda1" 1048576;
     Close "/dev/nvme0n1p1"; Close "/dev/sda1"] = ([] ++ body)%list /\
    filesClosed body = rev (@filesOpened blankDisk [] body) /\
    commandsRun body = [] /\
    Returned tt <> Panicked.
Proof.
  apply (@copy_closes_what_it_opened blankDisk 5 "/dev/sda" "" "/dev/nvme0n1"
           "p" 1 []).
  reflexivity.
Defined.

Lemma install_spares_partitioned_disk_witness :
  @performInstall usedDisk 5 noTarget "/dev/sda" "/dev/nvme0n1" [] =
  Some (Failed (errorsNew
          "a partition table already exists on device '/dev/nvme0n1', and `ForceInstall` from install configuration isn't true"),
        [GetTUI; Command "sgdisk" ["-v"; "/dev/nvme0n1"]]).
Proof.
  apply (proj2 (@install_spares_partitioned_disk usedDisk 5 noTarget
                  "/dev/sda" "/dev/nvme0n1")
               (InstallConfig.mk None false false)); reflexivity.
Defined.

Lemma install_commands_in_order_witness :
  exists calls,
    @performInstall blankDisk 5 noTarget "/dev/sda" "/dev/nvme0n1" [] =
      Some (Returned tt, calls) /\
    commandsRun calls = installCommands "/dev/sda" "/dev/nvme0n1" /\
    filesClosed calls = partitionsClosed "/dev/sda" "/dev/nvme0n1".
Proof.
  eexists. split; [vm_compute; reflexivity|].
  apply (@install_commands_in_order blankDisk 5 noTarget).
  vm_compute. reflexivity.
Defined.

(* ================================================================== *)
(** ** The start-up of the daemon *)

Section ModeFacts.

Context {env : MainEnv}.

Lemma keyringLoop_release (keys : list Key.t) (st : MainState) :
  keyringLoop keys "release" st =
  (Returned "release", ((fst st ++ map keyEntry keys)%list, snd st)).
Proof.
  revert st. induction keys as [|key keys IH]; intro st.
  - cbn. rewrite app_nil_r. destruct st; reflexivity.
  - cbn [keyringLoop map].
    assert (E : (if String.eqb (Key.Fingerprint key)
                      "7d4dc2ac7ad1ef27365ff599612e07e2312adf79"
                 then "release" else "release") = "release")
      by (destruct (String.eqb _ _); reflexivity).
    rewrite E. cbn [String.eqb Ascii.eqb Bool.eqb andb].
    unfold next, logInfo. rewrite IH. cbn [fst snd].
    rewrite <- app_assoc. reflexivity.
Qed.

Lemma keyringLoop_dev (keys : list Key.t) (st : MainState) :
  keyringLoop keys "dev" st =
  (Returned (if existsb isReleaseKey keys then "release" else "dev"),
   ((fst st ++ map keyEntry keys)%list, snd st)).
Proof.
  revert st. induction keys as [|key keys IH]; intro st.
  - cbn. rewrite app_nil_r. destruct st; reflexivity.
  - cbn [keyringLoop map existsb]. fold (isReleaseKey key).
    destruct (isReleaseKey key); cbn [String.eqb Ascii.eqb Bool.eqb andb orb];
      unfold next, logInfo.
    + rewrite keyringLoop_release. cbn [fst snd].
      rewrite <- app_assoc. reflexivity.
    + rewrite IH. cbn [fst snd]. rewrite <- app_assoc. reflexivity.
Qed.

(** X28. The loop over the platform keyring ends in the mode "release" when
    some key has the fingerprint of the release key, else in "dev" when the
    description of some key starts with "mkosi of ", else in "unsafe":
    the order of the keys does not matter. It logs one entry for each key,
    in order, and makes no other call. *)
Theorem keyring_loop_mode (keys : list Key.t) (st : MainState) :
  keyringLoop keys "unsafe" st =
  (Returned (modeOf keys), ((fst st ++ map keyEntry keys)%list, snd st)).
Proof.
  revert st. induction keys as [|key keys IH]; intro st.
  - cbn. rewrite app_nil_r. destruct st; reflexivity.
  - cbn [keyringLoop map]. unfold modeOf. cbn [existsb].
    fold (isReleaseKey key). fold (isDevKey key).
    destruct (isReleaseKey key); cbn [String.eqb Ascii.eqb Bool.eqb andb orb];
      unfold next, logInfo.
    + rewrite keyringLoop_release. cbn [fst snd].
      rewrite <- app_assoc. reflexivity.
    + destruct (isDevKey key); cbn [orb].
      * rewrite keyringLoop_dev. cbn [fst snd].
        rewrite <- app_assoc. reflexivity.
      * rewrite IH. cbn [fst snd]. rewrite <- app_assoc. reflexivity.
Qed.

End ModeFacts.

Section SplitFacts.

Lemma cutAt_dot (s pre post : string) :
  cutAt "."%char s = Some (pre, post) ->
  s = pre ++ "." ++ post /\ noDot pre = true.
Proof.
  revert pre. induction s as [|c s IH]; intro pre; cbn [cutAt];
    [discriminate|].
  destruct (Ascii.eqb c ".") eqn:Ec.
  - intro H. injection H as <- <-. apply Ascii.eqb_eq in Ec. subst c.
    split; reflexivity.
  - destruct (cutAt "." s) as [[b a]|]; [|discriminate].
    intro H. injection H as <- <-.
    destruct (IH b eq_refl) as [-> Hb]. split; [reflexivity|].
    cbn [noDot]. rewrite Ec, Hb. reflexivity.
Qed.

Lemma SplitN2_two (s : string) :
  length (SplitN2 s "."%char) = 2%nat ->
  exists base ext,
    s = base ++ "." ++ ext /\ noDot base = true /\
    nth 1 (SplitN2 s "."%char) "" = ext.
Proof.
  unfold SplitN2. destruct (cutAt "." s) as [[b a]|] eqn:E; [|discriminate].
  intros _. destruct (cutAt_dot _ _ _ E) as [Hs Hb].
  exists b, a. repeat split; assumption.
Qed.

Lemma slicesContains_extensions (name : string) :
  slicesContains incusExtensions name = true -> extensionName name.
Proof.
  unfold slicesContains, incusExtensions, extensionName. cbn [existsb].
  intro H. apply orb_true_iff in H. destruct H as [H|H].
  - left. apply String.eqb_eq. exact H.
  - apply orb_true_iff in H. destruct H as [H|H]; [|discriminate].
    right. apply String.eqb_eq. exact H.
Qed.

End SplitFacts.

Section PreservesRules.

Context {env : MainEnv} (Inv : MainState -> Prop).

Lemma preserves_finish {A : Type} (a : A) : preserves Inv (finish a).
Proof. intros st r st' H. injection H as <- <-. auto. Qed.

Lemma preserves_next {A B : Type} (m : Main A) (k : A -> Main B) :
  preserves Inv m -> (forall a, preserves Inv (k a)) ->
  preserves Inv (next m k).
Proof.
  intros Hm Hk st r st' H Hi. unfold next in H.
  destruct (m st) as [[a|err|] mid] eqn:E.
  - exact (Hk a _ _ _ H (Hm _ _ _ E Hi)).
  - injection H as <- <-. exact (Hm _ _ _ E Hi).
  - injection H as <- <-. exact (Hm _ _ _ E Hi).
Qed.

Lemma preserves_forEachM {A : Type} (l : list A) (body : A -> Main unit) :
  (forall x, In x l -> preserves Inv (body x)) ->
  preserves Inv (forEachM l body).
Proof.
  induction l as [|x l IH]; intro Hb; cbn [forEachM].
  - apply preserves_finish.
  - apply preserves_next.
    + apply Hb. left. reflexivity.
    + intros _. apply IH. intros y Hy. apply Hb. right. exact Hy.
Qed.

End PreservesRules.

Section AllCallsRules.

Context {env : MainEnv} (P : MainCall -> Prop).

Lemma allCalls_logInfo (msg : string) (attrs : list (string * string)) :
  P (Info msg attrs) -> preserves (allCalls P) (logInfo msg attrs).
Proof.
  intros Hp st r st' H Hi. unfold logInfo in H. injection H as <- <-.
  unfold allCalls in *. cbn [fst]. apply Forall_app. split; [exact Hi|].
  constructor; [exact Hp | constructor].
Qed.

Lemma allCalls_perform (c : MainCall) :
  P c -> preserves (allCalls P) (perform c).
Proof.
  intros Hp st r st' H Hi. unfold perform in H.
  destruct (callError (fst st) c); injection H as <- <-;
    unfold allCalls in *; cbn [fst]; apply Forall_app;
    (split; [exact Hi | constructor; [exact Hp | constructor]]).
Qed.

Lemma allCalls_deferClose (h : Handle) :
  preserves (allCalls P) (deferClose h).
Proof.
  intros st r st' H Hi. unfold deferClose in H. injection H as <- <-.
  exact Hi.
Qed.

Lemma allCalls_keyringLoop (keys : list Key.t) (mode : string) :
  (forall msg attrs, P (Info msg attrs)) ->
  preserves (allCalls P) (keyringLoop keys mode).
Proof.
  intro Hp. revert mode. induction keys as [|key keys IH]; intro mode;
    cbn [keyringLoop].
  - apply preserves_finish.
  - apply preserves_next; [apply allCalls_logInfo; apply Hp|].
    intros _. apply IH.
Qed.

Lemma allCalls_run :
  (forall h, P (CloseHandle h)) ->
  preserves (allCalls P) runBody ->
  Forall P (snd run).
Proof.
  intros Hc Hp. unfold run.
  destruct (runBody ([], [])) as [r [calls ds]] eqn:E. cbn [snd].
  assert (Hi : allCalls P (calls, ds)).
  { apply (Hp _ _ _ E). constructor. }
  apply Forall_app. split; [exact Hi|].
  apply Forall_map. apply Forall_forall. intros h _. apply Hc.
Qed.

End AllCallsRules.

Section ClosesRules.

Context {env : MainEnv}.

Lemma handlesOpened_app (earlier a b : list MainCall) :
  handlesOpened earlier (a ++ b) =
  (handlesOpened earlier a ++ handlesOpened (earlier ++ a) b)%list.
Proof.
  revert earlier. induction a as [|c a IH]; intro earlier.
  - cbn. rewrite app_nil_r. reflexivity.
  - cbn [app handlesOpened]. rewrite IH, <- !app_assoc. reflexivity.
Qed.

Lemma closes_logInfo (msg : string) (attrs : list (string * string)) :
  preserves closesInOrder (logInfo msg attrs).
Proof.
  intros st r st' H [Hs Hc]. unfold logInfo in H. injection H as <- <-.
  unfold closesInOrder. cbn [fst snd]. split.
  - rewrite (handlesOpened_app [] (fst st)). cbn. rewrite app_nil_r. exact Hs.
  - rewrite existsb_app, Hc. reflexivity.
Qed.

Lemma closes_perform (c : MainCall) :
  opens c = None -> isClose c = false ->
  preserves closesInOrder (perform c).
Proof.
  intros Ho Hn st r st' H [Hs Hc]. unfold perform in H.
  assert (Hi : closesInOrder ((fst st ++ [c])%list, snd st)).
  { unfold closesInOrder. cbn [fst snd]. split.
    - rewrite (handlesOpened_app [] (fst st)). cbn [handlesOpened].
      rewrite Ho. cbn. rewrite app_nil_r. exact Hs.
    - rewrite existsb_app, Hc. cbn. rewrite Hn. reflexivity. }
  destruct (callError (fst st) c); injection H as <- <-; exact Hi.
Qed.

Lemma closes_open {A : Type} (c : MainCall) (h : Handle) (rest : Main A) :
  opens c = Some h ->
  preserves closesInOrder rest ->
  preserves closesInOrder (_ <-- perform c ;; _ <-- deferClose h ;; rest).
Proof.
  intros Ho Hrest st r st' H [Hs Hc]. unfold next at 1, perform in H.
  assert (Hn : isClose c = false) by (destruct c; try discriminate; reflexivity).
  destruct (callError (fst st) c) eqn:Ee.
  - injection H as <- <-. unfold closesInOrder. cbn [fst snd]. split.
    + rewrite (handlesOpened_app [] (fst st)). cbn [handlesOpened app].
      rewrite Ho, Ee. cbn. rewrite app_nil_r. exact Hs.
    + rewrite existsb_app, Hc. cbn. rewrite Hn. reflexivity.
  - unfold next at 1, deferClose in H. cbn [fst snd] in H.
    apply (Hrest _ _ _ H). unfold closesInOrder. cbn [fst snd]. split.
    + rewrite (handlesOpened_app [] (fst st)). cbn [handlesOpened app].
      rewrite Ho, Ee. cbn [app]. rewrite ?app_nil_r, rev_app_distr.
      cbn. rewrite Hs. reflexivity.
    + rewrite existsb_app, Hc. cbn. rewrite Hn. reflexivity.
Qed.

Lemma closes_keyringLoop (keys : list Key.t) (mode : string) :
  preserves closesInOrder (keyringLoop keys mode).
Proof.
  revert mode. induction keys as [|key keys IH]; intro mode;
    cbn [keyringLoop].
  - apply preserves_finish.
  - apply preserves_next; [apply closes_logInfo|]. intros _. apply IH.
Qed.

Ltac closes_steps :=
  repeat first
    [ progress cbv zeta
    | apply preserves_finish
    | apply closes_logInfo
    | apply closes_keyringLoop
    | apply closes_open; [reflexivity|]
    | apply closes_perform; [reflexivity | reflexivity]
    | apply preserves_forEachM; intros ? _
    | apply preserves_next; [|intro]
    | match goal with
      | |- preserves _ (if ?b then _ else _) => destruct b
      end ].

Lemma runBody_closes : preserves closesInOrder runBody.
Proof. unfold runBody. closes_steps. Qed.

(** X29. However [run] ends, the calls before its closes contain no close,
    and they are followed by the close of every download body, gzip reader
    and file that was opened with success, the last opened first: nothing is
    closed before the update is applied or the extensions are refreshed, and
    nothing stays open when [run] returns, with or without an error. *)
Theorem run_closes_in_reverse_order :
  exists body,
    snd run = (body ++ map CloseHandle (rev (handlesOpened [] body)))%list /\
    existsb isClose body = false.
Proof.
  unfold run. destruct (runBody ([], [])) as [r [calls ds]] eqn:E.
  assert (Hi : closesInOrder (calls, ds)).
  { apply (runBody_closes _ _ _ E). split; reflexivity. }
  destruct Hi as [Hs Hc]. cbn [fst snd] in *. subst ds.
  exists calls. split; [reflexivity | exact Hc].
Qed.

End ClosesRules.

Section BranchFacts.

Context {env : MainEnv}.

Ltac calls_steps leaf :=
  repeat first
    [ progress cbv zeta
    | apply preserves_finish
    | apply allCalls_deferClose
    | apply allCalls_keyringLoop; intros
    | apply allCalls_logInfo
    | apply allCalls_perform
    | apply preserves_forEachM; intros ? ?
    | apply preserves_next; [|intro]
    | match goal with
      | |- preserves _ (if ?b then _ else _) => destruct b eqn:?
      end
    | leaf ].

Lemma update_asset (asset : Asset.t) :
  negb (HasPrefix (Asset.Name asset) "IncusOS_") = false ->
  negb (length (SplitN2 (Asset.Name asset) ".") =? 2)%nat = false ->
  String.eqb (nth 1 (SplitN2 (Asset.Name asset) ".") "") "raw.gz" = false ->
  updateAssetName (Asset.Name asset).
Proof.
  intros Hp Hl He. apply negb_false_iff in Hp, Hl. apply Nat.eqb_eq in Hl.
  destruct (SplitN2_two _ Hl) as (base & ext & Hs & Hb & Hn).
  split; [exact Hp|]. exists base, ext. repeat split; auto.
  rewrite Hn in He. apply String.eqb_neq. exact He.
Qed.

Lemma runBody_update_calls :
  currentRelease <> Release.Name latestRelease ->
  preserves (allCalls updateCall) runBody.
Proof.
  intro Hne. unfold runBody.
  calls_steps ltac:(idtac);
    try (split; exact I);
    try (split; [exact I | reflexivity]);
    try (split; [exact I | split; reflexivity]);
    try (exfalso; apply Hne; apply String.eqb_eq;
         match goal with
         | H : negb (String.eqb currentRelease _) = false |- _ =>
             apply negb_false_iff in H; exact H
         end).
  - split; [|exact I]. split; [reflexivity|]. split; [reflexivity|].
    eexists. split; [eassumption|]. split; [reflexivity|].
    apply update_asset; assumption.
  - split; [|exact I]. eexists. split; [eassumption|].
    split; [apply update_asset; assumption | reflexivity].
Qed.

Lemma runBody_extension_calls :
  currentRelease = Release.Name latestRelease ->
  preserves (allCalls extensionCall) runBody.
Proof.
  intro He. unfold runBody.
  calls_steps ltac:(idtac);
    try (split; exact I);
    try (exfalso;
         match goal with
         | H : negb (String.eqb currentRelease _) = true |- _ =>
             apply negb_true_iff in H; apply String.eqb_neq in H;
             apply H; exact He
         end).
  - split; [|exact I]. split; [reflexivity|]. split; [reflexivity|].
    eexists. split; [eassumption|]. split; [reflexivity|].
    apply slicesContains_extensions.
    match goal with H : negb _ = false |- _ =>
      apply negb_false_iff in H; exact H end.
  - split; [|exact I]. eexists. split; [eassumption|].
    split; [|reflexivity]. apply slicesContains_extensions.
    match goal with H : negb _ = false |- _ =>
      apply negb_false_iff in H; exact H end.
Qed.

(** X30. When the running release is not the latest one, every download of
    [run] is of an asset whose name starts with "IncusOS_" and has something
    other than "raw.gz" after its first dot, every file is created in the
    updates directory under the name of such an asset without its ".gz",
    the only update applied is the latest release, and the extensions and
    users are not refreshed and no unit is enabled. When it is the latest
    one, every download is of "debug.raw.gz" or "incus.raw.gz", every file
    is created in the extensions directory, and no update is applied. This
    holds however [run] ends. *)
Theorem run_updates_or_extends :
  (currentRelease <> Release.Name latestRelease ->
   Forall updateCall (snd run)) /\
  (currentRelease = Release.Name latestRelease ->
   Forall extensionCall (snd run)).
Proof.
  split; intro H.
  - apply allCalls_run; [intro h; split; exact I|].
    apply runBody_update_calls. exact H.
  - apply allCalls_run; [intro h; split; exact I|].
    apply runBody_extension_calls. exact H.
Qed.

End BranchFacts.

Lemma run_updates_or_extends_witness :
  Forall (@updateCall behindLatest) (snd (@run behindLatest)) /\
  Forall (@extensionCall upToDate) (snd (@run upToDate)).
Proof.
  split.
  - apply (proj1 (@run_updates_or_extends behindLatest)). discriminate.
  - apply (proj2 (@run_updates_or_extends upToDate)). reflexivity.
Defined.
